(** * Seat booking service: the request layer and the seat ledger

    A shallow embedding of [booking/models.py] and [booking/views.py].
    Python text is embedded as [string], one [ascii] per character; the
    embedding is exact on ASCII text, which is all the code itself produces
    (hexadecimal tokens, codes, fixed messages). A request body is taken as
    text already decoded. Calls into [booking/services.py] are threaded
    through an explicit world that keeps the database, the session store,
    the entropy consumed from [secrets] and a log of the service calls
    made; the views are parametric in the service functions. The core
    operations themselves are modelled from the specification in [Core]. *)

From Stdlib Require Import ZArith NArith QArith Ascii String List Lia Bool.
From Stdlib Require Import Strings.Byte.
From stdpp Require Import base option list strings gmap.

Local Open Scope string_scope.
Local Open Scope list_scope.
Local Open Scope Z_scope.

(* ------------------------------------------------------------------ *)
(** ** Text primitives ([str] methods used by the code) *)
(* ------------------------------------------------------------------ *)

Module Text.

(** [str.isspace] on one ASCII character: HT, LF, VT, FF, CR, the four
    separators FS, GS, RS, US, and the space. *)
Definition is_space (c : ascii) : bool :=
  let n := N_of_ascii c in
  ((9 <=? n) && (n <=? 13) || (28 <=? n) && (n <=? 32))%N.

Fixpoint lstrip (s : string) : string :=
  match s with
  | EmptyString => EmptyString
  | String c r => if is_space c then lstrip r else s
  end.

(** Drops the trailing white space: a character is kept when a character
    that is not white space follows it or it is not white space itself. *)
Fixpoint rstrip (s : string) : string :=
  match s with
  | EmptyString => EmptyString
  | String c r =>
      match rstrip r with
      | EmptyString => if is_space c then EmptyString else String c EmptyString
      | r' => String c r'
      end
  end.

(** [s.strip()] *)
Definition strip (s : string) : string := rstrip (lstrip s).

(** [str.upper] on one ASCII character. *)
Definition upper_char (c : ascii) : ascii :=
  let n := N_of_ascii c in
  if ((97 <=? n) && (n <=? 122))%N then ascii_of_N (n - 32) else c.

(** [s.upper()] *)
Fixpoint upper (s : string) : string :=
  match s with
  | EmptyString => EmptyString
  | String c r => String (upper_char c) (upper r)
  end.

(** [s[:n]] *)
Fixpoint take (n : nat) (s : string) : string :=
  match n, s with
  | S k, String c r => String c (take k r)
  | _, _ => EmptyString
  end.

(** [s[n:]] *)
Fixpoint drop (n : nat) (s : string) : string :=
  match n, s with
  | S k, String _ r => drop k r
  | _, _ => s
  end.

(** [str.lower] on one ASCII character. *)
Definition lower_char (c : ascii) : ascii :=
  let n := N_of_ascii c in
  if ((65 <=? n) && (n <=? 90))%N then ascii_of_N (n + 32) else c.

(** [s.lower()] *)
Fixpoint lower (s : string) : string :=
  match s with
  | EmptyString => EmptyString
  | String c r => String (lower_char c) (lower r)
  end.

(** Truthiness of a [str]: the empty string is the only false one. *)
Definition nonempty (s : string) : bool :=
  match s with EmptyString => false | String _ _ => true end.

Definition is_digit (c : ascii) : bool :=
  let n := N_of_ascii c in ((48 <=? n) && (n <=? 57))%N.

Definition is_lower_hex (c : ascii) : bool :=
  let n := N_of_ascii c in
  ((48 <=? n) && (n <=? 57) || (97 <=? n) && (n <=? 102))%N.

Definition is_upper_hex (c : ascii) : bool :=
  let n := N_of_ascii c in
  ((48 <=? n) && (n <=? 57) || (65 <=? n) && (n <=? 70))%N.

Fixpoint all_chars (p : ascii -> bool) (s : string) : bool :=
  match s with
  | EmptyString => true
  | String c r => p c && all_chars p r
  end.

End Text.

(* ------------------------------------------------------------------ *)
(** ** The [secrets] module: tokens drawn from the system entropy source *)
(* ------------------------------------------------------------------ *)

Module Secrets.

(** The operating system's random source, as the sequence of bytes it
    will deliver and the number of bytes already consumed. Nothing is
    assumed about the sequence. *)
Record Entropy := { source : nat -> byte; consumed : nat }.

(** [secrets.token_bytes(n)]: the next [n] bytes of the source. *)
Definition token_bytes (n : nat) (e : Entropy) : list byte * Entropy :=
  (map (source e) (seq (consumed e) n),
   {| source := source e; consumed := (consumed e + n)%nat |}).

Definition hex_digit (n : N) : ascii :=
  (if n <? 10 then ascii_of_N (48 + n) else ascii_of_N (87 + n))%N.

(** Two lowercase hexadecimal digits of a byte, high nibble first. *)
Definition hex_of_byte (b : byte) : string :=
  let n := Byte.to_N b in
  String (hex_digit (n / 16)) (String (hex_digit (n mod 16)) EmptyString).

(** [bytes.hex()] *)
Fixpoint hexlify (bs : list byte) : string :=
  match bs with
  | [] => EmptyString
  | b :: r => hex_of_byte b +:+ hexlify r
  end.

(** [secrets.token_hex(n)] *)
Definition token_hex (n : nat) (e : Entropy) : string * Entropy :=
  let (bs, e') := token_bytes n e in (hexlify bs, e').

(** The value of an uppercase hexadecimal digit. *)
Definition nibble_of (c : ascii) : option N :=
  let n := N_of_ascii c in
  (if (48 <=? n) && (n <=? 57) then Some (n - 48)
   else if (65 <=? n) && (n <=? 70) then Some (n - 55)
   else None)%N.

(** The byte two uppercase hexadecimal digits stand for. *)
Definition byte_of_hex (s : string) : option byte :=
  match s with
  | String c (String d EmptyString) =>
      match nibble_of c, nibble_of d with
      | Some h, Some l => Byte.of_N (16 * h + l)
      | _, _ => None
      end
  | _ => None
  end.

End Secrets.

(* ------------------------------------------------------------------ *)
(** ** [booking/models.py] *)
(* ------------------------------------------------------------------ *)

Module Models.

(** [Seat.Status] *)
Inductive Status := AVAILABLE | HOLD | BOOKED.

(** One row of [Trip]. Times are instants on the integer time line. *)
Record Trip := {
  trip_pk : Z;
  bus_image : option string;
  title : string;
  bus_type : string;
  route_from : string;
  route_to : string;
  depart_at : Z;
  price : Z;
  description : string;
  capacity_total : Z;
  is_active : bool;
  admin_wa : string
}.

(** One row of [Seat]; [trip] is the foreign key. *)
Record Seat := {
  trip : Z;
  code : string;
  status : Status;
  hold_token : option string;
  hold_until : option Z;
  customer_name : option string;
  customer_wa : option string;
  claim_code : option string;
  booked_at : option Z;
  booking_code : option string;
  updated_at : Z
}.

(** The columns a uniqueness constraint can name. *)
Inductive Column := col_trip | col_code | col_status | col_claim_code
                  | col_booking_code.

(** [Seat.Meta.unique_together] *)
Definition unique_together : list Column := [col_trip; col_code].

(** The claim code that the bytes [bs] drawn from the source give. *)
Definition claim_code_of_bytes (bs : list byte) : string :=
  let raw := Text.upper (Secrets.hexlify bs) in
  Text.take 4 raw +:+ "-" +:+ Text.drop 4 raw.

(** [Seat.generate_claim_code] *)
Definition generate_claim_code (e : Secrets.Entropy) : string * Secrets.Entropy :=
  let (hex, e') := Secrets.token_hex 4 e in
  let raw := Text.upper hex in
  (Text.take 4 raw +:+ "-" +:+ Text.drop 4 raw, e').

(** The booking code that the bytes [bs] drawn from the source give. *)
Definition booking_code_of_bytes (bs : list byte) : string :=
  let raw := Text.upper (Secrets.hexlify bs) in
  "BK-" +:+ raw.

(** [Seat.generate_booking_code] *)
Definition generate_booking_code (e : Secrets.Entropy) : string * Secrets.Entropy :=
  let (hex, e') := Secrets.token_hex 3 e in
  let raw := Text.upper hex in
  ("BK-" +:+ raw, e').

(** The shape of a claim code: [XXXX-XXXX], uppercase hexadecimal. *)
Definition claim_code_format (s : string) : bool :=
  match s with
  | String a (String b (String c (String d (String h
      (String e (String f (String g (String i EmptyString)))))))) =>
      Text.all_chars Text.is_upper_hex
        (String a (String b (String c (String d
          (String e (String f (String g (String i EmptyString))))))))
      && Ascii.eqb h "-"
  | _ => false
  end.

(** The shape of a booking code: [BK-XXXXXX], uppercase hexadecimal. *)
Definition booking_code_format (s : string) : bool :=
  match s with
  | String b (String k (String h rest)) =>
      Ascii.eqb b "B" && Ascii.eqb k "K" && Ascii.eqb h "-"
      && (String.length rest =? 6)%nat
      && Text.all_chars Text.is_upper_hex rest
  | _ => false
  end.

End Models.

(* ------------------------------------------------------------------ *)
(** ** Python values that [json.loads] can return *)
(* ------------------------------------------------------------------ *)

Module Json.

(** A [float]: the two special values, or a finite one given by the
    rational it denotes. *)
Inductive float := FNan | FInf (negative : bool) | FFinite (q : Q).

#[warnings="-register-all"]
Inductive value :=
| JNull
| JBool (b : bool)
| JInt (z : Z)
| JFloat (f : float)
| JStr (s : string)
| JList (l : list value)
| JDict (items : list (string * value)).

(** The exceptions the request layer can meet. *)
Inductive exn := AttributeError | TypeError | ValueError | OverflowError.

(** [bool(v)] *)
Definition truthy (v : value) : bool :=
  match v with
  | JNull => false
  | JBool b => b
  | JInt z => negb (z =? 0)
  | JFloat FNan => true
  | JFloat (FInf _) => true
  | JFloat (FFinite q) => negb (Qnum q =? 0)
  | JStr s => Text.nonempty s
  | JList l => match l with [] => false | _ :: _ => true end
  | JDict d => match d with [] => false | _ :: _ => true end
  end.

(** [a or b] *)
Definition py_or (a b : value) : value := if truthy a then a else b.

(** The item stored under [k] in a dict given by its items. *)
Fixpoint lookup_item (k : string) (items : list (string * value)) : option value :=
  match items with
  | [] => None
  | (k', v) :: r => if String.eqb k k' then Some v else lookup_item k r
  end.

(** [v.get(k)]: only a dict has the method; a missing key gives [None]. *)
Definition get (v : value) (k : string) : exn + value :=
  match v with
  | JDict items => inr (default JNull (lookup_item k items))
  | _ => inl AttributeError
  end.

(** [v.strip()]: only a [str] has the method. *)
Definition strip (v : value) : exn + string :=
  match v with
  | JStr s => inr (Text.strip s)
  | _ => inl AttributeError
  end.

Definition digit_value (c : ascii) : Z := Z.of_N (N_of_ascii c) - 48.

(** The digits of a decimal literal, where a single underscore may stand
    between two digits; [after_digit] tells whether the previous character
    was a digit. *)
Fixpoint digits (acc : Z) (after_digit : bool) (s : string) : option Z :=
  match s with
  | EmptyString => if after_digit then Some acc else None
  | String c r =>
      if Text.is_digit c then digits (10 * acc + digit_value c) true r
      else if Ascii.eqb c "_" then
        (if after_digit then digits acc false r else None)
      else None
  end.

(** [int(s)] for a [str]: surrounding white space, an optional sign,
    decimal digits. *)
Definition int_of_str (s : string) : option Z :=
  match Text.strip s with
  | String "-" r => Z.opp <$> digits 0 false r
  | String "+" r => digits 0 false r
  | r => digits 0 false r
  end.

(** [int(v)] *)
Definition py_int (v : value) : exn + Z :=
  match v with
  | JNull => inl TypeError
  | JBool b => inr (if b then 1 else 0)
  | JInt z => inr z
  | JFloat FNan => inl ValueError
  | JFloat (FInf _) => inl OverflowError
  | JFloat (FFinite q) => inr (Z.quot (Qnum q) (Z.pos (Qden q)))
  | JStr s => match int_of_str s with Some z => inr z | None => inl ValueError end
  | JList _ => inl TypeError
  | JDict _ => inl TypeError
  end.

End Json.

(* ------------------------------------------------------------------ *)
(** ** [booking/views.py] *)
(* ------------------------------------------------------------------ *)

Module Views.

Import Json.

Definition SESSION_KEY : string := "seat_hold_token".
Definition ADMIN_KEY_HEADER : string := "X-ADMIN-KEY".

(** [request.user] as far as the views look at it. *)
Record User := { is_authenticated : bool; is_staff : bool }.

(** [settings.ADMIN_API_KEY]: absent, [None], or a string. *)
Inductive Setting := Unset | SetNone | SetStr (s : string).

(** A request. Header names are matched without regard to case, so
    [headers] is keyed by the lowercased name. [user] is [None] when the
    request carries no [user] attribute. *)
Record HttpRequest := {
  method : string;
  body : string;
  headers : gmap string string;
  user : option User
}.

Inductive Response :=
| JsonResponse (payload : value) (http_status : Z)
| HttpResponseNotAllowed (permitted : list string).

(** What a function of [services] hands back: [res.ok], [res.message],
    [res.data]. *)
Record ServiceResult := {
  ok : bool;
  message : string;
  data : option value
}.

(** The calls into [services], with their arguments. *)
Inductive Call :=
| call_expire_holds
| call_list_trips
| call_get_seat_map (trip_id : Z)
| call_hold_seat (trip_id : Z) (seat_code hold_token : string)
| call_release_seat (trip_id : Z) (seat_code hold_token : string)
| call_attach_contact (trip_id : Z) (hold_token customer_name customer_wa : string)
| call_claim_hold (trip_id : Z) (claim_code new_hold_token : string)
                  (customer_wa : option string)
| call_generate_booking_code (trip_id : Z) (seat_codes : list string)
| call_confirm_booked (trip_id : Z) (seat_codes : list string).

Section WithServices.

(** The state [services] works on. *)
Context {DB : Type}.

(** What a view can touch: the database (only through [services]), the
    session of the browser that sent the request, the entropy source;
    [calls] logs the service calls, latest first. *)
Record World := {
  db : DB;
  session : gmap string string;
  entropy : Secrets.Entropy;
  calls : list Call
}.

Inductive Outcome (A : Type) := Returned (a : A) | Raised (e : exn).
Arguments Returned {A} a.
Arguments Raised {A} e.

(** Computations of the request layer: state and exceptions. *)
Definition M (A : Type) : Type := World -> Outcome A * World.

Definition ret {A} (a : A) : M A := fun w => (Returned a, w).
Definition raise {A} (e : exn) : M A := fun w => (Raised e, w).
Definition bind {A B} (m : M A) (k : A -> M B) : M B :=
  fun w => match m w with
           | (Returned a, w') => k a w'
           | (Raised e, w') => (Raised e, w')
           end.
Definition lift {A} (r : exn + A) : M A :=
  match r with inl e => raise e | inr a => ret a end.

Notation "'do' x <- m ; k" := (bind m (fun x => k))
  (at level 10, x name, m at level 100, k at level 200).

(** Runs one function of [services] on the database and logs the call. *)
Definition invoke {A} (c : Call) (f : DB -> A * DB) : M A :=
  fun w => let (a, d) := f (db w) in
           (Returned a, {| db := d; session := session w;
                           entropy := entropy w; calls := c :: calls w |}).

(** The functions of [booking/services.py] the views call. *)
Variable services_expire_holds : DB -> Z * DB.
Variable services_list_trips : DB -> list Models.Trip * DB.
Variable services_get_seat_map : Z -> DB -> ServiceResult * DB.
Variable services_hold_seat : Z -> string -> string -> DB -> ServiceResult * DB.
Variable services_release_seat : Z -> string -> string -> DB -> ServiceResult * DB.
Variable services_attach_contact_and_generate_claim :
  Z -> string -> string -> string -> DB -> ServiceResult * DB.
Variable services_claim_hold_by_code :
  Z -> string -> string -> option string -> DB -> ServiceResult * DB.
Variable services_admin_generate_booking_code_and_book :
  Z -> list string -> DB -> ServiceResult * DB.
Variable services_confirm_booked_by_admin : Z -> list string -> DB -> ServiceResult * DB.

(** Library functions taken as given: [json.loads] ([None] stands for
    [JSONDecodeError]), [str(v)] of a value that is not a [str],
    [datetime.isoformat] and [request.build_absolute_uri]. *)
Variable json_loads : string -> option value.
Variable repr : value -> string.
Variable isoformat : Z -> string.
Variable build_absolute_uri : HttpRequest -> string -> string.

Variable ADMIN_API_KEY : Setting.

(** [_ok] *)
Definition _ok (data : option value) (message : string) (status : Z) : Response :=
  let payload := [("ok", JBool true); ("message", JStr message)] in
  let payload := match data with
                 | Some d => payload ++ [("data", d)]
                 | None => payload
                 end in
  JsonResponse (JDict payload) status.

(** [_err] *)
Definition _err (message : string) (status : Z) (data : option value) : Response :=
  let payload := [("ok", JBool false); ("message", JStr message)] in
  let payload := match data with
                 | Some d => payload ++ [("data", d)]
                 | None => payload
                 end in
  JsonResponse (JDict payload) status.

(** [secrets.token_hex] on the world's entropy source. *)
Definition token_hex (n : nat) : M string :=
  fun w => let (t, e) := Secrets.token_hex n (entropy w) in
           (Returned t, {| db := db w; session := session w;
                           entropy := e; calls := calls w |}).

Definition session_get (k : string) : M (option string) :=
  fun w => (Returned (session w !! k), w).

Definition session_set (k v : string) : M unit :=
  fun w => (Returned tt, {| db := db w; session := <[k := v]> (session w);
                            entropy := entropy w; calls := calls w |}).

(** [_get_or_create_hold_token]: a stored value that is false (absent or
    the empty string) is replaced. *)
Definition _get_or_create_hold_token (request : HttpRequest) : M string :=
  do token <- session_get SESSION_KEY;
  if negb (match token with Some t => Text.nonempty t | None => false end)
  then
    do token <- token_hex 16;
    do _ <- session_set SESSION_KEY token;
    ret token
  else ret (default "" token).

(** [_json_body] *)
Definition _json_body (request : HttpRequest) : value * option Response :=
  let raw := body request in
  if negb (Text.nonempty (Text.strip raw)) then (JDict [], None)
  else match json_loads raw with
       | Some v => (v, None)
       | None => (JDict [], Some (_err "JSON body tidak valid." 400 None))
       end.

(** [_to_int]: [TypeError] and [ValueError] give the default, any other
    exception of [int] goes on. *)
Definition _to_int (v : value) (default : Z) : M Z :=
  match py_int v with
  | inr z => ret z
  | inl TypeError => ret default
  | inl ValueError => ret default
  | inl e => raise e
  end.

(** [request.headers.get(name)] *)
Definition headers_get (request : HttpRequest) (name : string) : option string :=
  headers request !! Text.lower name.

(** [_is_admin_request] *)
Definition _is_admin_request (request : HttpRequest) : bool :=
  if match user request with
     | Some u => is_authenticated u && is_staff u
     | None => false
     end
  then true
  else
    let expected := match ADMIN_API_KEY with
                    | SetStr s => s
                    | Unset | SetNone => ""
                    end in
    if negb (Text.nonempty expected) then false
    else
      let provided := Text.strip (default "" (headers_get request ADMIN_KEY_HEADER)) in
      String.eqb provided expected.

(** [@require_http_methods] *)
Definition require_http_methods (allowed : list string)
    (view : HttpRequest -> M Response) (request : HttpRequest) : M Response :=
  if existsb (String.eqb (method request)) allowed then view request
  else ret (HttpResponseNotAllowed allowed).

(** [str(c)] *)
Definition py_str (c : value) : string :=
  match c with JStr s => s | _ => repr c end.

(** [isinstance(v, list)] and the items of a list. *)
Definition is_list (v : value) : bool :=
  match v with JList _ => true | _ => false end.
Definition items_of (v : value) : list value :=
  match v with JList l => l | _ => [] end.

(** [health] *)
Definition health : HttpRequest -> M Response :=
  require_http_methods ["GET"] (fun request =>
    ret (_ok None "busbooking API is running" 200)).

(** [trips_list] *)
Definition trips_list : HttpRequest -> M Response :=
  require_http_methods ["GET"] (fun request =>
    do _ <- invoke call_expire_holds services_expire_holds;
    do trips <- invoke call_list_trips services_list_trips;
    let data :=
      map (fun t =>
             JDict [("id", JInt (Models.trip_pk t));
                    ("title", JStr (Models.title t));
                    ("bus_type", JStr (Models.bus_type t));
                    ("route_from", JStr (Models.route_from t));
                    ("route_to", JStr (Models.route_to t));
                    ("depart_at", JStr (isoformat (Models.depart_at t)));
                    ("price", JInt (Models.price t));
                    ("capacity_total", JInt (Models.capacity_total t));
                    ("bus_image_url",
                     JStr match Models.bus_image t with
                          | Some url => build_absolute_uri request url
                          | None => ""
                          end)])
          trips in
    ret (JsonResponse (JDict [("ok", JBool true); ("trips", JList data)]) 200)).

(** [seat_map] *)
Definition seat_map (trip_id : Z) : HttpRequest -> M Response :=
  require_http_methods ["GET"] (fun request =>
    do res <- invoke (call_get_seat_map trip_id) (services_get_seat_map trip_id);
    if negb (ok res) then ret (_err (message res) 404 None)
    else ret (_ok (data res) (message res) 200)).

(** [hold_seat] *)
Definition hold_seat : HttpRequest -> M Response :=
  require_http_methods ["POST"] (fun request =>
    let (body, err) := _json_body request in
    match err with
    | Some r => ret r
    | None =>
        do v <- lift (get body "trip_id");
        do trip_id <- _to_int v 0;
        do c <- lift (get body "seat_code");
        do c <- lift (strip (py_or c (JStr "")));
        let seat_code := Text.upper c in
        if (trip_id =? 0) || negb (Text.nonempty seat_code)
        then ret (_err "trip_id dan seat_code wajib diisi." 400 None)
        else
          do hold_token <- _get_or_create_hold_token request;
          do res <- invoke (call_hold_seat trip_id seat_code hold_token)
                           (services_hold_seat trip_id seat_code hold_token);
          if negb (ok res) then ret (_err (message res) 409 (data res))
          else ret (_ok (data res) (message res) 200)
    end).

(** [release_seat] *)
Definition release_seat : HttpRequest -> M Response :=
  require_http_methods ["POST"] (fun request =>
    let (body, err) := _json_body request in
    match err with
    | Some r => ret r
    | None =>
        do v <- lift (get body "trip_id");
        do trip_id <- _to_int v 0;
        do c <- lift (get body "seat_code");
        do c <- lift (strip (py_or c (JStr "")));
        let seat_code := Text.upper c in
        if (trip_id =? 0) || negb (Text.nonempty seat_code)
        then ret (_err "trip_id dan seat_code wajib diisi." 400 None)
        else
          do hold_token <- _get_or_create_hold_token request;
          do res <- invoke (call_release_seat trip_id seat_code hold_token)
                           (services_release_seat trip_id seat_code hold_token);
          if negb (ok res) then ret (_err (message res) 409 (data res))
          else ret (_ok (data res) (message res) 200)
    end).

(** [attach_contact] *)
Definition attach_contact : HttpRequest -> M Response :=
  require_http_methods ["POST"] (fun request =>
    let (body, err) := _json_body request in
    match err with
    | Some r => ret r
    | None =>
        do v <- lift (get body "trip_id");
        do trip_id <- _to_int v 0;
        do n <- lift (get body "customer_name");
        do customer_name <- lift (strip (py_or n (JStr "")));
        do a <- lift (get body "customer_wa");
        do customer_wa <- lift (strip (py_or a (JStr "")));
        if (trip_id =? 0) || negb (Text.nonempty customer_name)
           || negb (Text.nonempty customer_wa)
        then ret (_err "trip_id, customer_name, customer_wa wajib diisi." 400 None)
        else
          do hold_token <- _get_or_create_hold_token request;
          do res <- invoke
              (call_attach_contact trip_id hold_token customer_name customer_wa)
              (services_attach_contact_and_generate_claim
                 trip_id hold_token customer_name customer_wa);
          if negb (ok res) then ret (_err (message res) 409 (data res))
          else ret (_ok (data res) (message res) 200)
    end).

(** [claim_hold] *)
Definition claim_hold : HttpRequest -> M Response :=
  require_http_methods ["POST"] (fun request =>
    let (body, err) := _json_body request in
    match err with
    | Some r => ret r
    | None =>
        do v <- lift (get body "trip_id");
        do trip_id <- _to_int v 0;
        do c <- lift (get body "claim_code");
        do c <- lift (strip (py_or c (JStr "")));
        let claim_code := Text.upper c in
        do a <- lift (get body "customer_wa");
        do customer_wa <- lift (strip (py_or a (JStr "")));
        if (trip_id =? 0) || negb (Text.nonempty claim_code)
        then ret (_err "trip_id dan claim_code wajib diisi." 400 None)
        else
          do new_token <- _get_or_create_hold_token request;
          let wa := if Text.nonempty customer_wa then Some customer_wa else None in
          do res <- invoke (call_claim_hold trip_id claim_code new_token wa)
                           (services_claim_hold_by_code trip_id claim_code new_token wa);
          if negb (ok res) then ret (_err (message res) 409 (data res))
          else ret (_ok (data res) (message res) 200)
    end).

(** [admin_generate_booking_code] *)
Definition admin_generate_booking_code : HttpRequest -> M Response :=
  require_http_methods ["POST"] (fun request =>
    if negb (_is_admin_request request) then ret (_err "Forbidden" 403 None)
    else
      let (body, err) := _json_body request in
      match err with
      | Some r => ret r
      | None =>
          do v <- lift (get body "trip_id");
          do trip_id <- _to_int v 0;
          do seat_codes <- lift (get body "seat_codes");
          if (trip_id =? 0) || negb (is_list seat_codes) || negb (truthy seat_codes)
          then ret (_err "trip_id dan seat_codes(list) wajib diisi." 400 None)
          else
            let seat_codes_clean :=
              map (fun c => Text.upper (Text.strip (py_str c)))
                  (List.filter (fun c => Text.nonempty (Text.strip (py_str c)))
                               (items_of seat_codes)) in
            if negb (match seat_codes_clean with [] => false | _ :: _ => true end)
            then ret (_err "seat_codes tidak boleh kosong." 400 None)
            else
              do res <- invoke
                  (call_generate_booking_code trip_id seat_codes_clean)
                  (services_admin_generate_booking_code_and_book
                     trip_id seat_codes_clean);
              if negb (ok res) then ret (_err (message res) 409 (data res))
              else ret (_ok (data res) (message res) 200)
      end).

(** [admin_confirm_booked] *)
Definition admin_confirm_booked : HttpRequest -> M Response :=
  require_http_methods ["POST"] (fun request =>
    if negb (_is_admin_request request) then ret (_err "Forbidden" 403 None)
    else
      let (body, err) := _json_body request in
      match err with
      | Some r => ret r
      | None =>
          do v <- lift (get body "trip_id");
          do trip_id <- _to_int v 0;
          do seat_codes <- lift (get body "seat_codes");
          if (trip_id =? 0) || negb (is_list seat_codes) || negb (truthy seat_codes)
          then ret (_err "trip_id dan seat_codes(list) wajib diisi." 400 None)
          else
            let seat_codes_clean :=
              map (fun c => Text.upper (Text.strip (py_str c)))
                  (List.filter (fun c => Text.nonempty (Text.strip (py_str c)))
                               (items_of seat_codes)) in
            if negb (match seat_codes_clean with [] => false | _ :: _ => true end)
            then ret (_err "seat_codes tidak boleh kosong." 400 None)
            else
              do res <- invoke
                  (call_confirm_booked trip_id seat_codes_clean)
                  (services_confirm_booked_by_admin trip_id seat_codes_clean);
              if negb (ok res) then ret (_err (message res) 409 (data res))
              else ret (_ok (data res) (message res) 200)
      end).

(** [expire_now] *)
Definition expire_now : HttpRequest -> M Response :=
  require_http_methods ["POST"] (fun request =>
    do released <- invoke call_expire_holds services_expire_holds;
    ret (_ok (Some (JDict [("released", JInt released)]))
             "Expired holds released" 200)).

(** [csrf] *)
Definition csrf : HttpRequest -> M Response :=
  require_http_methods ["GET"] (fun request =>
    ret (_ok None "CSRF cookie set" 200)).

End WithServices.

Arguments World : clear implicits.
Arguments M : clear implicits.
Arguments Returned {A} a.
Arguments Raised {A} e.

(** The request comes from a logged-in staff user. *)
Definition staff_session (request : HttpRequest) : bool :=
  match user request with
  | Some u => is_authenticated u && is_staff u
  | None => false
  end.

(** No usable admin key is configured. *)
Definition no_admin_key (key : Setting) : bool :=
  match key with
  | Unset | SetNone => true
  | SetStr s => negb (Text.nonempty s)
  end.

(** The hold token a service call was given, if it takes one. *)
Definition token_of_call (c : Call) : option string :=
  match c with
  | call_hold_seat _ _ t | call_release_seat _ _ t
  | call_attach_contact _ t _ _ | call_claim_hold _ _ t _ => Some t
  | _ => None
  end.

(** The answer to a request that is not authorized. *)
Definition forbidden : Response :=
  JsonResponse (JDict [("ok", JBool false); ("message", JStr "Forbidden")]) 403.

(** The answer of the hold endpoint to a request that fails validation. *)
Definition validation_error : Response :=
  JsonResponse (JDict [("ok", JBool false);
                       ("message", JStr "trip_id dan seat_code wajib diisi.")]) 400.

(** The session already stores a token (a value that is not false). *)
Definition has_token {DB : Type} (w : World DB) : bool :=
  match session w !! SESSION_KEY with
  | Some t => Text.nonempty t
  | None => false
  end.

(** The world after a fresh token has been drawn and stored. *)
Definition with_fresh_token {DB : Type} (w : World DB) : World DB :=
  {| db := db w;
     session := <[SESSION_KEY := fst (Secrets.token_hex 16 (entropy w))]> (session w);
     entropy := snd (Secrets.token_hex 16 (entropy w));
     calls := calls w |}.

(** Either the view left the world as it was, or it made exactly one
    service call, handing over the token that [_get_or_create_hold_token]
    gives for this session. *)
Definition served_with_session_token {DB : Type} (request : HttpRequest)
    (w w' : World DB) : Prop :=
  w' = w
  \/ exists t c d,
       fst (_get_or_create_hold_token request w) = Returned t
       /\ token_of_call c = Some t
       /\ w' = {| db := d;
                  session := session (snd (_get_or_create_hold_token request w));
                  entropy := entropy (snd (_get_or_create_hold_token request w));
                  calls := c :: calls w |}.

(** The view calls [services.hold_seat] at most once, and only with a
    trip id that is not zero and a seat code that is not empty. *)
Definition held_validly {DB : Type} (w w' : World DB) : Prop :=
  w' = w
  \/ exists trip_id seat_code tok,
       trip_id <> 0 /\ Text.nonempty seat_code = true
       /\ calls w' = call_hold_seat trip_id seat_code tok :: calls w.

End Views.

(* ------------------------------------------------------------------ *)
(** ** The seat table under the constraints of [Seat.Meta] *)
(* ------------------------------------------------------------------ *)

Module Table.

Import Models.

(** Two rows agree on a column. *)
Definition same_on (c : Column) (a b : Seat) : bool :=
  match c with
  | col_trip => trip a =? trip b
  | col_code => String.eqb (code a) (code b)
  | col_status =>
      match status a, status b with
      | AVAILABLE, AVAILABLE | HOLD, HOLD | BOOKED, BOOKED => true
      | _, _ => false
      end
  | col_claim_code => bool_decide (claim_code a = claim_code b)
  | col_booking_code => bool_decide (booking_code a = booking_code b)
  end.

(** A row collides with a table when some row of the table agrees with
    it on every column of [unique_together]. *)
Definition collides (row : Seat) (table : list Seat) : bool :=
  existsb (fun r => forallb (fun c => same_on c r row) unique_together) table.

Inductive DbError := IntegrityError | DoesNotExist.

(** [INSERT]: refused when the new row collides. *)
Definition insert_row (row : Seat) (table : list Seat) : DbError + list Seat :=
  if collides row table then inl IntegrityError else inr (table ++ [row]).

(** [UPDATE] of the row at position [i]: refused when the new contents
    collide with another row. *)
Definition update_row (i : nat) (row : Seat) (table : list Seat) : DbError + list Seat :=
  match table !! i with
  | None => inl DoesNotExist
  | Some _ =>
      if collides row (delete i table) then inl IntegrityError
      else inr (<[i := row]> table)
  end.

(** [DELETE] of the row at position [i]. *)
Definition delete_row (i : nat) (table : list Seat) : list Seat := delete i table.

(** The tables the database can hold: whatever writes the application
    attempts, only those the constraint lets through take effect. *)
Inductive reachable : list Seat -> Prop :=
| reach_empty : reachable []
| reach_insert table row table' :
    reachable table -> insert_row row table = inr table' -> reachable table'
| reach_update table i row table' :
    reachable table -> update_row i row table = inr table' -> reachable table'
| reach_delete table i :
    reachable table -> reachable (delete_row i table).

(** The identity of a seat. *)
Definition key (s : Seat) : Z * string := (trip s, code s).

End Table.

(* ------------------------------------------------------------------ *)
(** ** The core operations of [booking/services.py]

    The views call into [services], whose code is not part of the embedded
    sources; the operations below follow the specification of the core
    (Hold Manager, Expiry Sweeper, seat map, Admin Booking Finalizer). *)
(* ------------------------------------------------------------------ *)

Module Core.

Import Models.

(** Modelled from the spec: what the missing [services] module works on:
    the clock reading, the entropy source and the two tables. *)
Record State := {
  clock : Z;
  rng : Secrets.Entropy;
  trips : list Trip;
  seats : list Seat
}.

(** Modelled from the spec: the state with the seat table replaced. *)
Definition with_seats (rows : list Seat) (st : State) : State :=
  {| clock := clock st; rng := rng st; trips := trips st; seats := rows |}.

(** Modelled from the spec: the state as a request reading the clock at [t]
    finds it. *)
Definition at_time (t : Z) (st : State) : State :=
  {| clock := t; rng := rng st; trips := trips st; seats := seats st |}.

(** Modelled from the spec: the identity of a seat is [(trip_id, code)];
    the row of seat [seat_code] of trip [trip_id]. *)
Definition is_seat (trip_id : Z) (seat_code : string) (s : Seat) : bool :=
  (trip s =? trip_id) && String.eqb (code s) seat_code.

(** Modelled from the spec: the seat is in status [x]. *)
Definition is_status (x : Status) (s : Seat) : bool :=
  match x, status s with
  | AVAILABLE, AVAILABLE | HOLD, HOLD | BOOKED, BOOKED => true
  | _, _ => false
  end.

(** Modelled from the spec: the write primitive of the missing
    [services] module, the atomic conditional update the spec requires of
    the backing store for every transition ("transition seat S from
    expected-state E to new-state N only if S is still in E"), as one
    indivisible step that also reports how many rows it changed. *)
Definition update_where (guard : Seat -> bool) (f : Seat -> Seat)
    (rows : list Seat) : nat * list Seat :=
  (length (List.filter guard rows), map (fun r => if guard r then f r else r) rows).

(** Modelled from the spec: a hold whose [hold_until] lies in the past is
    logically expired ([hold_until < now]). *)
Definition expired (now : Z) (s : Seat) : bool :=
  match hold_until s with
  | Some t => t <? now
  | None => false
  end.

(** Modelled from the spec: the seat's [hold_token] is [token]. *)
Definition held_by (token : string) (s : Seat) : bool :=
  bool_decide (hold_token s = Some token).

(** Modelled from the spec: [acquire] may take a seat that is [AVAILABLE],
    or [HOLD] with the deadline in the past, or [HOLD] by the same token
    (the re-hold that refreshes the deadline). *)
Definition may_hold (now : Z) (token : string) (s : Seat) : bool :=
  match status s with
  | AVAILABLE => true
  | HOLD => expired now s || held_by token s
  | BOOKED => false
  end.

(** Modelled from the spec: on success of [acquire], status becomes
    [HOLD], [hold_token] is set and [hold_until = now + ttl]. *)
Definition to_hold (now ttl : Z) (token : string) (s : Seat) : Seat :=
  {| trip := trip s; code := code s; status := HOLD;
     hold_token := Some token; hold_until := Some (now + ttl);
     customer_name := customer_name s; customer_wa := customer_wa s;
     claim_code := claim_code s; booked_at := booked_at s;
     booking_code := booking_code s; updated_at := now |}.

(** Modelled from the spec: release and expiry set the status to
    [AVAILABLE] and clear [hold_token], [hold_until], [claim_code]. *)
Definition to_available (now : Z) (s : Seat) : Seat :=
  {| trip := trip s; code := code s; status := AVAILABLE;
     hold_token := None; hold_until := None;
     customer_name := customer_name s; customer_wa := customer_wa s;
     claim_code := None; booked_at := booked_at s;
     booking_code := booking_code s; updated_at := now |}.

(** Modelled from the spec: finalization sets [BOOKED], stamps
    [booking_code] and [booked_at], clears [hold_token], [hold_until],
    [claim_code]. *)
Definition to_booked (now : Z) (bk : string) (s : Seat) : Seat :=
  {| trip := trip s; code := code s; status := BOOKED;
     hold_token := None; hold_until := None;
     customer_name := customer_name s; customer_wa := customer_wa s;
     claim_code := None; booked_at := Some now;
     booking_code := Some bk; updated_at := now |}.

(** Modelled from the spec: the trip is in the catalog. *)
Definition trip_exists (trip_id : Z) (ts : list Trip) : bool :=
  existsb (fun t => trip_pk t =? trip_id) ts.

(** Modelled from the spec: the trip is in the catalog and active. *)
Definition trip_active (trip_id : Z) (ts : list Trip) : bool :=
  existsb (fun t => (trip_pk t =? trip_id) && is_active t) ts.

(** Modelled from the spec: the conflict reasons of [acquire]
    (taken, booked, not found). *)
Inductive Reason := not_found | taken | booked.

(** Modelled from the spec: the result of [acquire], success with the
    deadline or conflict. *)
Inductive HoldResult := Held (deadline : Z) | HoldConflict (why : Reason).

(** The result is a success. *)
Definition succeeded (r : HoldResult) : bool :=
  match r with Held _ => true | HoldConflict _ => false end.

(** Modelled from the spec: the body of [services.hold_seat], which is
    missing; it is [acquire(trip_id, seat_code, hold_token, ttl)] of the
    Hold Manager. The seat must exist and the trip be active; the
    check of the status and its change are one conditional update of the
    seat row; a seat held by another unexpired token, a booked seat and a
    missing seat or trip are conflicts, and a conflict changes nothing. *)
Definition acquire (ttl : Z) (trip_id : Z) (seat_code hold_token : string)
    (st : State) : HoldResult * State :=
  let now := clock st in
  if negb (trip_active trip_id (trips st)) then (HoldConflict not_found, st)
  else
    let (n, rows) :=
      update_where (fun s => is_seat trip_id seat_code s && may_hold now hold_token s)
                   (to_hold now ttl hold_token) (seats st) in
    if (0 <? n)%nat then (Held (now + ttl), with_seats rows st)
    else
      (HoldConflict
         match find (is_seat trip_id seat_code) (seats st) with
         | None => not_found
         | Some s => if is_status BOOKED s then booked else taken
         end, st).

(** Modelled from the spec: the body of [services.expire_holds], which is
    missing; it is [expireHolds] of the Expiry Sweeper. Every
    seat with [status = HOLD] and [hold_until < now] goes to [AVAILABLE];
    the result is the number of seats released. *)
Definition expire_holds (st : State) : Z * State :=
  let now := clock st in
  let (n, rows) :=
    update_where (fun s => is_status HOLD s && expired now s)
                 (to_available now) (seats st) in
  (Z.of_nat n, with_seats rows st).

(** The stored name of a status, as in [Seat.Status]. *)
Definition status_name (x : Status) : string :=
  match x with
  | AVAILABLE => "AVAILABLE"
  | HOLD => "HOLD"
  | BOOKED => "BOOKED"
  end.

(** Modelled from the spec: the seat map payload, the seats of one trip
    with code and status. *)
Definition present_seats (trip_id : Z) (rows : list Seat) : Json.value :=
  Json.JList
    (map (fun s => Json.JDict [("code", Json.JStr (code s));
                               ("status", Json.JStr (status_name (status s)))])
         (List.filter (fun s => trip s =? trip_id) rows)).

(** Modelled from the spec: the body of [services.get_seat_map], which is
    missing; it is the seat map read. The sweep is invoked
    before any read that presents seat availability; the read gives the
    seats of the trip with code and status, or "trip not found". *)
Definition get_seat_map (trip_id : Z) (st : State) : Views.ServiceResult * State :=
  let (_, st) := expire_holds st in
  if trip_exists trip_id (trips st)
  then ({| Views.ok := true; Views.message := "OK";
           Views.data := Some (Json.JDict
             [("trip_id", Json.JInt trip_id);
              ("seats", present_seats trip_id (seats st))]) |}, st)
  else ({| Views.ok := false; Views.message := "trip not found";
           Views.data := None |}, st).

(** Modelled from the spec: why a named seat cannot be finalized (not
    found, not held, held by mismatched state). *)
Inductive SeatFailure := seat_not_found | seat_not_held | seat_mismatched_state.

(** Modelled from the spec: the result of finalization, the booking code
    or the per-seat failure list. *)
Inductive BookResult :=
| Booked (booking_code : string) (seat_codes : list string)
| GroupConflict (failures : list (string * SeatFailure)).

(** Modelled from the spec: the precondition of finalization on one named
    seat, against the current state: the seat exists in the trip and is
    currently [HOLD]; an expired hold is treated as already [AVAILABLE],
    hence not held. *)
Definition check_seat (now : Z) (trip_id : Z) (rows : list Seat)
    (seat_code : string) : option SeatFailure :=
  match find (is_seat trip_id seat_code) rows with
  | None => Some seat_not_found
  | Some s =>
      match status s with
      | AVAILABLE => Some seat_not_held
      | HOLD => if expired now s then Some seat_not_held else None
      | BOOKED => Some seat_mismatched_state
      end
  end.

(** Modelled from the spec: the seat is one of those named in the call. *)
Definition named (trip_id : Z) (seat_codes : list string) (s : Seat) : bool :=
  existsb (fun c => is_seat trip_id c s) seat_codes.

(** Modelled from the spec: the body of
    [services.admin_generate_booking_code_and_book], which is missing; it
    is [generateBookingCodeAndBook(trip_id, seat_codes)] of the Admin
    Booking Finalizer. All-or-nothing: when a
    named seat fails the precondition nothing is modified and the
    conflict lists the seats that failed and why; otherwise one fresh
    booking code is stamped on every named seat. *)
Definition admin_generate_booking_code_and_book (trip_id : Z)
    (seat_codes : list string) (st : State) : BookResult * State :=
  let now := clock st in
  let failures :=
    omap (fun c => (fun why => (c, why)) <$> check_seat now trip_id (seats st) c)
         seat_codes in
  match failures with
  | _ :: _ => (GroupConflict failures, st)
  | [] =>
      let (bk, e) := generate_booking_code (rng st) in
      let (_, rows) := update_where (named trip_id seat_codes)
                                    (to_booked now bk) (seats st) in
      (Booked bk seat_codes,
       {| clock := clock st; rng := e; trips := trips st; seats := rows |})
  end.

(** The conflict reason as text. *)
Definition reason_name (why : Reason) : string :=
  match why with
  | not_found => "not-found"
  | taken => "taken"
  | booked => "booked"
  end.

(** Modelled from the spec: the payloads of "acquire hold" in the
    interface table: seat status and deadline on success, the reason on
    conflict. *)
Definition hold_response (r : HoldResult) : Views.ServiceResult :=
  match r with
  | Held deadline =>
      {| Views.ok := true; Views.message := "OK";
         Views.data := Some (Json.JDict [("status", Json.JStr "HOLD");
                                         ("hold_until", Json.JInt deadline)]) |}
  | HoldConflict why =>
      {| Views.ok := false; Views.message := reason_name why;
         Views.data := None |}
  end.

(** Modelled from the spec: [services.hold_seat], which is [acquire] with
    the time to live the deployment uses. *)
Definition hold_seat (ttl : Z) (trip_id : Z) (seat_code hold_token : string)
    (st : State) : Views.ServiceResult * State :=
  let (r, st') := acquire ttl trip_id seat_code hold_token st in
  (hold_response r, st').

(** The failure of a seat as text. *)
Definition failure_name (why : SeatFailure) : string :=
  match why with
  | seat_not_found => "not found"
  | seat_not_held => "not held"
  | seat_mismatched_state => "held by mismatched state"
  end.

(** Modelled from the spec: the payloads of "admin finalize booking" in
    the interface table: booking code and seat codes on success, the
    per-seat failure list on conflict. *)
Definition book_response (r : BookResult) : Views.ServiceResult :=
  match r with
  | Booked bk seat_codes =>
      {| Views.ok := true; Views.message := "OK";
         Views.data := Some (Json.JDict
           [("seat_codes", Json.JList (map Json.JStr seat_codes));
            ("booking_code", Json.JStr bk)]) |}
  | GroupConflict failures =>
      {| Views.ok := false; Views.message := "conflict";
         Views.data := Some (Json.JDict
           [("failed",
             Json.JList (map (fun f => Json.JDict
                                [("seat_code", Json.JStr (fst f));
                                 ("reason", Json.JStr (failure_name (snd f)))])
                             failures))]) |}
  end.

(** Modelled from the spec: [services.admin_generate_booking_code_and_book]
    as the views receive it. *)
Definition book (trip_id : Z) (seat_codes : list string)
    (st : State) : Views.ServiceResult * State :=
  let (r, st') := admin_generate_booking_code_and_book trip_id seat_codes st in
  (book_response r, st').

(** Modelled from the spec: a named seat is eligible for finalization
    when it exists in the trip and is currently [HOLD], an expired hold
    not counting. *)
Definition eligible (now : Z) (trip_id : Z) (rows : list Seat)
    (seat_code : string) : bool :=
  match find (is_seat trip_id seat_code) rows with
  | Some s => is_status HOLD s && negb (expired now s)
  | None => false
  end.

(** Modelled from the spec: the steps of the missing [services.hold_seat]
    as a concurrent request handler, and where such a handler stands. The
    handler first checks the precondition on the trip (a read), then issues the conditional update of the seat row (one indivisible
    step of the store, as the spec requires), then, when no row was
    changed, reads the seat to report why; other handlers may run between
    these steps. *)
Inductive Pc := at_check | at_update | at_reason | finished (r : HoldResult).

(** Modelled from the spec: a handler with the token it was given, its
    clock reading and where it stands. *)
Record Handler := { its_token : string; its_clock : Z; pc : Pc }.

(** The handler moved to [p]. *)
Definition goto (p : Pc) (h : Handler) : Handler :=
  {| its_token := its_token h; its_clock := its_clock h; pc := p |}.

(** A handler that has just received its request. *)
Definition arrive (token : string) (now : Z) : Handler :=
  {| its_token := token; its_clock := now; pc := at_check |}.

(** Modelled from the spec: one step of a handler of [acquire] on the
    shared state. *)
Definition handler_step (ttl : Z) (trip_id : Z) (seat_code : string)
    (h : Handler) (st : State) : Handler * State :=
  match pc h with
  | at_check =>
      if negb (trip_active trip_id (trips st))
      then (goto (finished (HoldConflict not_found)) h, st)
      else (goto at_update h, st)
  | at_update =>
      let now := its_clock h in
      let (n, rows) :=
        update_where
          (fun s => is_seat trip_id seat_code s && may_hold now (its_token h) s)
          (to_hold now ttl (its_token h)) (seats st) in
      if (0 <? n)%nat then (goto (finished (Held (now + ttl))) h, with_seats rows st)
      else (goto at_reason h, st)
  | at_reason =>
      (goto (finished (HoldConflict
               match find (is_seat trip_id seat_code) (seats st) with
               | None => not_found
               | Some s => if is_status BOOKED s then booked else taken
               end)) h, st)
  | finished _ => (h, st)
  end.

(** The two racing handlers. *)
Inductive Who := handler_A | handler_B.

(** Modelled from the spec: two request handlers racing on the shared
    state; the schedule says whose step comes next. *)
Fixpoint run_schedule (ttl : Z) (trip_id : Z) (seat_code : string)
    (schedule : list Who) (a b : Handler) (st : State) : Handler * Handler * State :=
  match schedule with
  | [] => (a, b, st)
  | handler_A :: rest =>
      let (a', st') := handler_step ttl trip_id seat_code a st in
      run_schedule ttl trip_id seat_code rest a' b st'
  | handler_B :: rest =>
      let (b', st') := handler_step ttl trip_id seat_code b st in
      run_schedule ttl trip_id seat_code rest a b' st'
  end.

(** How many steps the schedule gives to a handler. *)
Fixpoint turns (x : Who) (schedule : list Who) : nat :=
  match schedule with
  | [] => 0
  | y :: rest =>
      match x, y with
      | handler_A, handler_A | handler_B, handler_B => S (turns x rest)
      | _, _ => turns x rest
      end
  end.

(** The steps a handler still needs at most. *)
Definition steps_left (p : Pc) : nat :=
  match p with
  | at_check => 3
  | at_update => 2
  | at_reason => 1
  | finished _ => 0
  end.

(** The result of a handler that has finished. *)
Definition outcome (h : Handler) : option HoldResult :=
  match pc h with finished r => Some r | _ => None end.

(** The handler finished with a success. *)
Definition won (h : Handler) : bool :=
  match pc h with finished (Held _) => true | _ => false end.

(** A handler that has not issued its update yet. *)
Definition not_yet (p : Pc) : Prop := p = at_check \/ p = at_update.

(** A handler that, the seat being taken, can only end in the conflict
    "taken". *)
Definition losing (p : Pc) : Prop :=
  p = at_check \/ p = at_update \/ p = at_reason
  \/ p = finished (HoldConflict taken).

(** What holds at every moment of a race of handlers A and B for the seat
    whose row was [s]: nobody has changed the seat yet, or one handler has
    won and the other can only lose. *)
Inductive race_inv (ttl trip_id : Z) (seat_code : string)
    (tokenA : string) (tA : Z) (tokenB : string) (tB : Z) (s : Seat)
    (a b : Handler) (st : State) : Prop :=
| race_open :
    not_yet (pc a) -> not_yet (pc b) ->
    List.filter (is_seat trip_id seat_code) (seats st) = [s] ->
    race_inv ttl trip_id seat_code tokenA tA tokenB tB s a b st
| race_A_won :
    pc a = finished (Held (tA + ttl)) -> losing (pc b) ->
    List.filter (is_seat trip_id seat_code) (seats st) = [to_hold tA ttl tokenA s] ->
    race_inv ttl trip_id seat_code tokenA tA tokenB tB s a b st
| race_B_won :
    pc b = finished (Held (tB + ttl)) -> losing (pc a) ->
    List.filter (is_seat trip_id seat_code) (seats st) = [to_hold tB ttl tokenB s] ->
    race_inv ttl trip_id seat_code tokenA tA tokenB tB s a b st.

End Core.

(* ------------------------------------------------------------------ *)
(** ** Sample inputs *)
(* ------------------------------------------------------------------ *)

Module Samples.

Import Views Json Models.

(** The double quote character. *)
Definition dq : string := String (ascii_of_nat 34) EmptyString.

(** The request body [{"seat_code": 5}], as text. *)
Definition body_seat_code_5 : string :=
  "{" +:+ dq +:+ "seat_code" +:+ dq +:+ ": 5}".

(** [json.loads] as far as the sample body needs it. *)
Definition loads_seat_code_5 (raw : string) : option value :=
  if String.eqb raw body_seat_code_5
  then Some (JDict [("seat_code", JInt 5)])
  else None.

Definition loads_nothing (raw : string) : option value := None.

(** [json.loads] of a body whose parse is [v]. *)
Definition loads_as (v : value) (raw : string) : option value := Some v.

Definition repr_blank (v : value) : string := "".

Definition zeros : Secrets.Entropy :=
  {| Secrets.source := fun _ => x00; Secrets.consumed := 0 |}.

(** A request without a user. *)
Definition anonymous (meth raw : string) (hdrs : gmap string string) : HttpRequest :=
  {| method := meth; body := raw; headers := hdrs; user := None |}.

Definition world_of {DB : Type} (d : DB) : World DB :=
  {| db := d; session := ∅; entropy := zeros; calls := [] |}.

Definition trip1 : Trip :=
  {| trip_pk := 1; bus_image := None; title := "Pagi"; bus_type := "EXEC";
     route_from := "Pekanbaru"; route_to := "Padang"; depart_at := 1000;
     price := 150000; description := ""; capacity_total := 2;
     is_active := true; admin_wa := "62812" |}.

Definition seat (c : string) (x : Status) (tok : option string)
    (until : option Z) : Seat :=
  {| trip := 1; code := c; status := x; hold_token := tok; hold_until := until;
     customer_name := None; customer_wa := None; claim_code := None;
     booked_at := None; booking_code := None; updated_at := 0 |}.

(** Trip 1 at time 100: A1 held by [tok1] until 900, A2 available, A3
    held until 50, which is past. *)
Definition state1 : Core.State :=
  {| Core.clock := 100; Core.rng := zeros; Core.trips := [trip1];
     Core.seats := [seat "A1" HOLD (Some "tok1") (Some 900);
                    seat "A2" AVAILABLE None None;
                    seat "A3" HOLD (Some "tok9") (Some 50)] |}.

(** The active trips, as a stand-in for [services.list_trips]. *)
Definition list_active (st : Core.State) : list Trip * Core.State :=
  (List.filter is_active (Core.trips st), st).

Definition iso_blank (t : Z) : string := "".
Definition uri_same (request : HttpRequest) (url : string) : string := url.

End Samples.

(* ------------------------------------------------------------------ *)
(** ** The column widths of [booking/models.py] *)
(* ------------------------------------------------------------------ *)

Module Fields.

(** [max_length] of [Seat.code]. *)
Definition code_max_length : nat := 10.
(** [max_length] of [Seat.status]. *)
Definition status_max_length : nat := 12.
(** [max_length] of [Seat.hold_token]. *)
Definition hold_token_max_length : nat := 64.
(** [max_length] of [Seat.claim_code]. *)
Definition claim_code_max_length : nat := 20.
(** [max_length] of [Seat.booking_code]. *)
Definition booking_code_max_length : nat := 30.

(** The stored values of [Seat.Status]. *)
Definition status_value (x : Models.Status) : string :=
  match x with
  | Models.AVAILABLE => "AVAILABLE"
  | Models.HOLD => "HOLD"
  | Models.BOOKED => "BOOKED"
  end.

End Fields.

(* ------------------------------------------------------------------ *)
(** ** [booking/urls.py] *)
(* ------------------------------------------------------------------ *)

Module Urls.

Import Views.

(** The view functions the routes name. *)
Inductive View :=
| views_health | views_csrf | views_trips_list | views_seat_map
| views_hold_seat | views_release_seat | views_attach_contact | views_claim_hold
| views_admin_generate_booking_code | views_admin_confirm_booked
| views_expire_now.

(** The parts of a [path()] route: literal text and [<int:name>]. *)
Inductive Part := literal (text : string) | int_param (name : string).

(** [urlpatterns], in the order of the file; what [static()] appends comes
    after them and serves files, no view. *)
Definition urlpatterns : list (list Part * View) :=
  [([literal "health/"], views_health);
   ([literal "csrf/"], views_csrf);
   ([literal "api/trips/"], views_trips_list);
   ([literal "api/trips/"; int_param "trip_id"; literal "/seats/"], views_seat_map);
   ([literal "api/seats/hold/"], views_hold_seat);
   ([literal "api/seats/release/"], views_release_seat);
   ([literal "api/hold/attach-contact/"], views_attach_contact);
   ([literal "api/hold/claim/"], views_claim_hold);
   ([literal "api/admin/generate-booking-code/"], views_admin_generate_booking_code);
   ([literal "api/admin/confirm-booked/"], views_admin_confirm_booked);
   ([literal "api/expire/"], views_expire_now)].

(** What is left of [s] after the prefix [p]. *)
Fixpoint after_prefix (p s : string) : option string :=
  match p, s with
  | EmptyString, _ => Some s
  | String a p', String b s' => if Ascii.eqb a b then after_prefix p' s' else None
  | String _ _, EmptyString => None
  end.

(** The [int] converter's [to_python] on a run of digits. *)
Fixpoint int_of_digits (acc : Z) (d : string) : Z :=
  match d with
  | EmptyString => acc
  | String c r => int_of_digits (10 * acc + Json.digit_value c) r
  end.

(** The [int] converter, [[0-9]+]: the ways of cutting a run of digits off
    the front of [s], the longest first, until the rest [k] accepts one;
    [taken] holds the digits already passed. *)
Fixpoint cut_digits {R : Type} (k : string -> string -> option R)
    (taken : string) (s : string) : option R :=
  let here := if Text.nonempty taken then k taken s else None in
  match s with
  | String c r =>
      if Text.is_digit c
      then match cut_digits k (taken +:+ String c EmptyString) r with
           | Some x => Some x
           | None => here
           end
      else here
  | EmptyString => here
  end.

(** A route against the whole of a path: the captured arguments, or no
    match. *)
Fixpoint match_route (route : list Part) : string -> option (list (string * Z)) :=
  match route with
  | [] => fun s => match s with EmptyString => Some [] | String _ _ => None end
  | literal text :: rest =>
      fun s => match after_prefix text s with
               | Some s' => match_route rest s'
               | None => None
               end
  | int_param name :: rest =>
      cut_digits (fun d s' => match match_route rest s' with
                              | Some kwargs => Some ((name, int_of_digits 0 d) :: kwargs)
                              | None => None
                              end) EmptyString
  end.

(** The first pattern that matches. *)
Fixpoint first_match (patterns : list (list Part * View)) (s : string)
    : option (View * list (string * Z)) :=
  match patterns with
  | [] => None
  | (route, v) :: rest =>
      match match_route route s with
      | Some kwargs => Some (v, kwargs)
      | None => first_match rest s
      end
  end.

(** The view and arguments a request path resolves to among
    [urlpatterns]; the path starts with the slash of the site root. *)
Definition resolve (path : string) : option (View * list (string * Z)) :=
  match path with
  | String "/" rest => first_match urlpatterns rest
  | _ => None
  end.

(** The keyword argument [name], as the view receives it. *)
Definition kwarg (name : string) (kwargs : list (string * Z)) : Z :=
  match find (fun kv => String.eqb (fst kv) name) kwargs with
  | Some kv => snd kv
  | None => 0
  end.

(** What a deployment supplies to the views: the functions of [services],
    the library functions and the configured admin key. *)
Record Site (DB : Type) := {
  expire_holds : DB -> Z * DB;
  list_trips : DB -> list Models.Trip * DB;
  get_seat_map : Z -> DB -> ServiceResult * DB;
  hold_seat : Z -> string -> string -> DB -> ServiceResult * DB;
  release_seat : Z -> string -> string -> DB -> ServiceResult * DB;
  attach_contact_and_generate_claim :
    Z -> string -> string -> string -> DB -> ServiceResult * DB;
  claim_hold_by_code :
    Z -> string -> string -> option string -> DB -> ServiceResult * DB;
  admin_generate_booking_code_and_book : Z -> list string -> DB -> ServiceResult * DB;
  confirm_booked_by_admin : Z -> list string -> DB -> ServiceResult * DB;
  json_loads : string -> option Json.value;
  repr : Json.value -> string;
  isoformat : Z -> string;
  build_absolute_uri : HttpRequest -> string -> string;
  ADMIN_API_KEY : Setting
}.

Arguments expire_holds {DB} _.
Arguments list_trips {DB} _.
Arguments get_seat_map {DB} _.
Arguments hold_seat {DB} _.
Arguments release_seat {DB} _.
Arguments attach_contact_and_generate_claim {DB} _.
Arguments claim_hold_by_code {DB} _.
Arguments admin_generate_booking_code_and_book {DB} _.
Arguments confirm_booked_by_admin {DB} _.
Arguments json_loads {DB} _.
Arguments repr {DB} _.
Arguments isoformat {DB} _.
Arguments build_absolute_uri {DB} _.
Arguments ADMIN_API_KEY {DB} _.

(** The function of [views] a route names, applied to the captured
    arguments. *)
Definition view_function {DB : Type} (site : Site DB) (v : View)
    (kwargs : list (string * Z)) : HttpRequest -> M DB Response :=
  match v with
  | views_health => Views.health
  | views_csrf => Views.csrf
  | views_trips_list =>
      Views.trips_list (expire_holds site) (list_trips site)
        (isoformat site) (build_absolute_uri site)
  | views_seat_map => Views.seat_map (get_seat_map site) (kwarg "trip_id" kwargs)
  | views_hold_seat => Views.hold_seat (hold_seat site) (json_loads site)
  | views_release_seat => Views.release_seat (release_seat site) (json_loads site)
  | views_attach_contact =>
      Views.attach_contact (attach_contact_and_generate_claim site) (json_loads site)
  | views_claim_hold => Views.claim_hold (claim_hold_by_code site) (json_loads site)
  | views_admin_generate_booking_code =>
      Views.admin_generate_booking_code (admin_generate_booking_code_and_book site)
        (json_loads site) (repr site) (ADMIN_API_KEY site)
  | views_admin_confirm_booked =>
      Views.admin_confirm_booked (confirm_booked_by_admin site)
        (json_loads site) (repr site) (ADMIN_API_KEY site)
  | views_expire_now => Views.expire_now (expire_holds site)
  end.

(** A request for [path]: the view it resolves to is run; [None] when no
    pattern of [urlpatterns] matches. *)
Definition dispatch {DB : Type} (site : Site DB) (path : string)
    (request : HttpRequest) (w : World DB) : option (Outcome Response * World DB) :=
  match resolve path with
  | Some (v, kwargs) => Some (view_function site v kwargs request w)
  | None => None
  end.


End Urls.

(* ------------------------------------------------------------------ *)
(** ** What the views hand to the core *)
(* ------------------------------------------------------------------ *)

Module Contract.

Import Views.

(** Text that is not empty and carries no white space at either end. *)
Definition trimmed (c : string) : Prop :=
  Text.nonempty c = true /\ Text.strip c = c.

(** Trimmed text without lowercase letters, as seat codes and claim codes
    are passed on. *)
Definition code_like (c : string) : Prop :=
  trimmed c /\ Text.upper c = c.

(** The arguments of a service call have passed the view's validation. *)
Definition valid_call (c : Call) : Prop :=
  match c with
  | call_expire_holds | call_list_trips | call_get_seat_map _ => True
  | call_hold_seat trip_id seat_code tok
  | call_release_seat trip_id seat_code tok =>
      trip_id <> 0 /\ code_like seat_code /\ Text.nonempty tok = true
  | call_attach_contact trip_id tok name wa =>
      trip_id <> 0 /\ Text.nonempty tok = true /\ trimmed name /\ trimmed wa
  | call_claim_hold trip_id code tok wa =>
      trip_id <> 0 /\ code_like code /\ Text.nonempty tok = true
      /\ match wa with Some a => trimmed a | None => True end
  | call_generate_booking_code trip_id seat_codes
  | call_confirm_booked trip_id seat_codes =>
      trip_id <> 0 /\ seat_codes <> [] /\ Forall code_like seat_codes
  end.

(** The call finalizes a booking. *)
Definition is_booking_call (c : Call) : bool :=
  match c with
  | call_generate_booking_code _ _ | call_confirm_booked _ _ => true
  | _ => false
  end.

(** The views that work with the session's hold token. *)
Definition uses_hold_token (v : Urls.View) : bool :=
  match v with
  | Urls.views_hold_seat | Urls.views_release_seat
  | Urls.views_attach_contact | Urls.views_claim_hold => true
  | _ => false
  end.

(** The views behind the admin check. *)
Definition admin_only (v : Urls.View) : bool :=
  match v with
  | Urls.views_admin_generate_booking_code | Urls.views_admin_confirm_booked => true
  | _ => false
  end.

(** The views that read the request body. *)
Definition reads_body (v : Urls.View) : bool := uses_hold_token v || admin_only v.

(** A string that does not begin with white space. *)
Definition starts_clean (s : string) : bool :=
  match s with
  | EmptyString => true
  | String c _ => negb (Text.is_space c)
  end.

(** The [ok] field of a response payload. *)
Definition ok_field (r : Response) : option Json.value :=
  match r with
  | JsonResponse (Json.JDict items) _ => Json.lookup_item "ok" items
  | _ => None
  end.

(** The status of a JSON response. *)
Definition status_of (r : Response) : option Z :=
  match r with
  | JsonResponse _ status => Some status
  | HttpResponseNotAllowed _ => None
  end.

(** A JSON reply whose [ok] flag agrees with its status: 200 with [true],
    or one of 400, 403, 404, 409 with [false]. *)
Definition json_reply (r : Response) : Prop :=
  status_of r = Some 200 /\ ok_field r = Some (Json.JBool true)
  \/ exists status,
       status_of r = Some status /\ In status [400; 403; 404; 409]
       /\ ok_field r = Some (Json.JBool false).

(** The replies of the views: a JSON reply, the trip list, or 405. *)
Definition well_formed_reply (r : Response) : Prop :=
  json_reply r \/ exists allowed, r = HttpResponseNotAllowed allowed.

(** What one run of a view on a request does to the world [w]: the calls
    it adds to the log are valid, a booking call only comes from an admin
    view on an admin request, the session and the entropy source are only
    touched to store a fresh hold token, and then a call follows; a run
    that ends with an exception has changed nothing. *)
Definition behaves {DB : Type} (site : Urls.Site DB) (v : Urls.View)
    (request : HttpRequest) (w : World DB)
    (run : Outcome Response * World DB) : Prop :=
  exists new,
    calls (snd run) = new ++ calls w
    /\ Forall valid_call new
    /\ (length new <= 2)%nat
    /\ (forall c, In c new -> is_booking_call c = true ->
          admin_only v = true
          /\ _is_admin_request (Urls.ADMIN_API_KEY site) request = true)
    /\ (new = [] -> snd run = w)
    /\ (session (snd run) = session w /\ entropy (snd run) = entropy w
        \/ uses_hold_token v = true /\ has_token w = false
           /\ session (snd run) = session (with_fresh_token w)
           /\ entropy (snd run) = entropy (with_fresh_token w)
           /\ new <> [])
    /\ match fst run with
       | Returned r => well_formed_reply r
       | Raised e =>
           snd run = w /\ reads_body v = true
           /\ (e = Json.AttributeError \/ e = Json.OverflowError)
       end.

(** [bytes.fromhex] on lowercase digits: the value of one digit. *)
Definition lower_nibble_of (c : ascii) : option N :=
  let n := N_of_ascii c in
  (if (48 <=? n) && (n <=? 57) then Some (n - 48)
   else if (97 <=? n) && (n <=? 102) then Some (n - 87)
   else None)%N.

(** [bytes.fromhex]: the bytes a string of lowercase hexadecimal digits
    stands for. *)
Fixpoint unhexlify (s : string) : option (list byte) :=
  match s with
  | EmptyString => Some []
  | String c (String d r) =>
      match lower_nibble_of c, lower_nibble_of d, unhexlify r with
      | Some h, Some l, Some bs =>
          match Byte.of_N (16 * h + l) with
          | Some b => Some (b :: bs)
          | None => None
          end
      | _, _, _ => None
      end
  | String _ EmptyString => None
  end.

End Contract.

(* ------------------------------------------------------------------ *)
(** ** A sample deployment *)
(* ------------------------------------------------------------------ *)

Module Demo.

Import Views.

(** A service that always reports a conflict. *)
Definition conflict {A : Type} (st : A) : ServiceResult * A :=
  ({| ok := false; message := "conflict"; data := None |}, st).

(** A deployment over the core state, with [loads] for [json.loads] and
    [key] for the admin key. *)
Definition site (loads : string -> option Json.value) (key : Setting)
    : Urls.Site Core.State :=
  {| Urls.expire_holds := Core.expire_holds;
     Urls.list_trips := Samples.list_active;
     Urls.get_seat_map := Core.get_seat_map;
     Urls.hold_seat := Core.hold_seat 900;
     Urls.release_seat := fun _ _ _ => conflict;
     Urls.attach_contact_and_generate_claim := fun _ _ _ _ => conflict;
     Urls.claim_hold_by_code := fun _ _ _ _ => conflict;
     Urls.admin_generate_booking_code_and_book := Core.book;
     Urls.confirm_booked_by_admin := Core.book;
     Urls.json_loads := loads;
     Urls.repr := Samples.repr_blank;
     Urls.isoformat := Samples.iso_blank;
     Urls.build_absolute_uri := Samples.uri_same;
     Urls.ADMIN_API_KEY := key |}.

(** A world whose session already holds the token [t]. *)
Definition world_with_token (t : string) : World Core.State :=
  {| db := Samples.state1; session := {[ SESSION_KEY := t ]};
     entropy := Samples.zeros; calls := [] |}.

End Demo.

(* ================================================================== *)
(** * Properties *)
(* ================================================================== *)

#[local] Arguments String.append _ _ : simpl nomatch.

(** ** Text and tokens *)

Section TextFacts.

Import Text Secrets.

Lemma upper_app (s t : string) : upper (s +:+ t) = upper s +:+ upper t.
Proof. induction s as [|c s IH]; simpl; [reflexivity | now rewrite IH]. Qed.

Lemma length_app_string (s t : string) :
  String.length (s +:+ t) = (String.length s + String.length t)%nat.
Proof. induction s as [|c s IH]; simpl; [reflexivity | now rewrite IH]. Qed.

Lemma all_chars_app (p : ascii -> bool) (s t : string) :
  all_chars p (s +:+ t) = all_chars p s && all_chars p t.
Proof.
  induction s as [|c s IH]; simpl; [reflexivity |].
  now rewrite IH, andb_assoc.
Qed.

Lemma upper_nonempty (s : string) : nonempty (upper s) = nonempty s.
Proof. now destruct s. Qed.

(** A byte gives exactly two lowercase hexadecimal digits. *)
Lemma hex_of_byte_shape (b : byte) :
  exists c d, hex_of_byte b = String c (String d EmptyString)
              /\ is_lower_hex c = true /\ is_lower_hex d = true.
Proof.
  exists (hex_digit (Byte.to_N b / 16)), (hex_digit (Byte.to_N b mod 16)).
  split; [reflexivity |]. destruct b; split; reflexivity.
Qed.

(** ... which [upper] turns into two uppercase hexadecimal digits. *)
Lemma upper_hex_of_byte_shape (b : byte) :
  exists c d, upper (hex_of_byte b) = String c (String d EmptyString)
              /\ is_upper_hex c = true /\ is_upper_hex d = true.
Proof.
  exists (upper_char (hex_digit (Byte.to_N b / 16))),
         (upper_char (hex_digit (Byte.to_N b mod 16))).
  split; [reflexivity |]. destruct b; split; reflexivity.
Qed.

Lemma hexlify_length (bs : list byte) :
  String.length (hexlify bs) = (2 * length bs)%nat.
Proof.
  induction bs as [|b bs IH]; [reflexivity |].
  cbn [hexlify length]. rewrite length_app_string, IH.
  unfold hex_of_byte; cbn [String.length]. lia.
Qed.

Lemma hexlify_lower_hex (bs : list byte) :
  all_chars is_lower_hex (hexlify bs) = true.
Proof.
  induction bs as [|b bs IH]; [reflexivity |].
  destruct (hex_of_byte_shape b) as (c & d & E & Hc & Hd).
  cbn [hexlify]. rewrite E. cbn [String.append all_chars].
  now rewrite Hc, Hd, IH.
Qed.

Lemma token_bytes_length (n : nat) (e : Entropy) :
  length (fst (token_bytes n e)) = n.
Proof. unfold token_bytes; simpl. now rewrite length_map, length_seq. Qed.

Lemma byte_of_hex_upper (b : byte) : byte_of_hex (upper (hex_of_byte b)) = Some b.
Proof. destruct b; reflexivity. Qed.

Lemma upper_hex_of_byte_inj (a b : byte) :
  upper (hex_of_byte a) = upper (hex_of_byte b) -> a = b.
Proof.
  intros E. apply (f_equal byte_of_hex) in E.
  rewrite !byte_of_hex_upper in E. congruence.
Qed.

End TextFacts.

(** ** Claim codes and booking codes *)

Section Codes.

Import Text Secrets Models.

Ltac hex_pair b c d E Hc Hd :=
  destruct (upper_hex_of_byte_shape b) as (c & d & E & Hc & Hd).

Lemma claim_code_of_four (b0 b1 b2 b3 : byte) :
  claim_code_of_bytes [b0; b1; b2; b3]
  = upper (hex_of_byte b0) +:+ upper (hex_of_byte b1) +:+ "-"
    +:+ upper (hex_of_byte b2) +:+ upper (hex_of_byte b3).
Proof.
  unfold claim_code_of_bytes. cbn [hexlify]. rewrite !upper_app.
  hex_pair b0 c0 d0 E0 H0 H0'. hex_pair b1 c1 d1 E1 H1 H1'.
  hex_pair b2 c2 d2 E2 H2 H2'. hex_pair b3 c3 d3 E3 H3 H3'.
  rewrite E0, E1, E2, E3. reflexivity.
Qed.

Lemma claim_code_of_four_format (b0 b1 b2 b3 : byte) :
  claim_code_format (claim_code_of_bytes [b0; b1; b2; b3]) = true.
Proof.
  rewrite claim_code_of_four.
  hex_pair b0 c0 d0 E0 H0 H0'. hex_pair b1 c1 d1 E1 H1 H1'.
  hex_pair b2 c2 d2 E2 H2 H2'. hex_pair b3 c3 d3 E3 H3 H3'.
  rewrite E0, E1, E2, E3. simpl.
  now rewrite H0, H0', H1, H1', H2, H2', H3, H3'.
Qed.

Lemma claim_code_of_four_inj (a0 a1 a2 a3 b0 b1 b2 b3 : byte) :
  claim_code_of_bytes [a0; a1; a2; a3] = claim_code_of_bytes [b0; b1; b2; b3] ->
  [a0; a1; a2; a3] = [b0; b1; b2; b3].
Proof.
  rewrite !claim_code_of_four. intros E.
  assert (upper (hex_of_byte a0) = upper (hex_of_byte b0)
          /\ upper (hex_of_byte a1) = upper (hex_of_byte b1)
          /\ upper (hex_of_byte a2) = upper (hex_of_byte b2)
          /\ upper (hex_of_byte a3) = upper (hex_of_byte b3)) as (E0 & E1 & E2 & E3).
  { revert E.
    hex_pair a0 c0 d0 E0 H0 H0'. hex_pair a1 c1 d1 E1 H1 H1'.
    hex_pair a2 c2 d2 E2 H2 H2'. hex_pair a3 c3 d3 E3 H3 H3'.
    hex_pair b0 c0' d0' F0 G0 G0'. hex_pair b1 c1' d1' F1 G1 G1'.
    hex_pair b2 c2' d2' F2 G2 G2'. hex_pair b3 c3' d3' F3 G3 G3'.
    rewrite E0, E1, E2, E3, F0, F1, F2, F3. simpl. intros E.
    injection E as -> -> -> -> -> -> -> ->. repeat split. }
  apply upper_hex_of_byte_inj in E0, E1, E2, E3. now subst.
Qed.

Lemma generate_claim_code_bytes (e : Entropy) :
  generate_claim_code e
  = (claim_code_of_bytes (fst (token_bytes 4 e)), snd (token_bytes 4 e)).
Proof. reflexivity. Qed.

Lemma booking_code_of_three_format (b0 b1 b2 : byte) :
  booking_code_format (booking_code_of_bytes [b0; b1; b2]) = true.
Proof.
  unfold booking_code_of_bytes. cbn [hexlify]. rewrite !upper_app.
  hex_pair b0 c0 d0 E0 H0 H0'. hex_pair b1 c1 d1 E1 H1 H1'.
  hex_pair b2 c2 d2 E2 H2 H2'.
  rewrite E0, E1, E2. simpl.
  now rewrite H0, H0', H1, H1', H2, H2'.
Qed.

Lemma generate_booking_code_bytes (e : Entropy) :
  generate_booking_code e
  = (booking_code_of_bytes (fst (token_bytes 3 e)), snd (token_bytes 3 e)).
Proof. reflexivity. Qed.

End Codes.

(** C5: every claim code is computed from four bytes taken from the
    [secrets] entropy source and from nothing else (no counter or other
    state enters), two draws give the same code only when the source
    delivered the same four bytes, and the code is four uppercase
    hexadecimal characters, a hyphen, and four more: nine characters. *)
Theorem claim_code_random_hex_format (e : Secrets.Entropy) :
  let code := fst (Models.generate_claim_code e) in
  let drawn := fst (Secrets.token_bytes 4 e) in
  Models.claim_code_format code = true
  /\ String.length code = 9%nat
  /\ drawn = map (Secrets.source e) (seq (Secrets.consumed e) 4)
  /\ code = Models.claim_code_of_bytes drawn
  /\ Secrets.consumed (snd (Models.generate_claim_code e))
     = (Secrets.consumed e + 4)%nat
  /\ (forall e', fst (Models.generate_claim_code e') = code ->
                 fst (Secrets.token_bytes 4 e') = drawn)
  /\ Models.claim_code_format "ABCD-1234" = true.
Proof.
  intros code drawn. subst code drawn.
  rewrite generate_claim_code_bytes. cbn [fst snd Secrets.token_bytes seq map].
  repeat split.
  - apply claim_code_of_four_format.
  - intros e'. rewrite generate_claim_code_bytes.
    cbn [fst snd Secrets.token_bytes seq map]. apply claim_code_of_four_inj.
Qed.

(** C6: every booking code generated at finalization is [BK-] followed by
    six uppercase hexadecimal characters, the hexadecimal form of three
    bytes taken from the entropy source; [BK-9A2F3C] is such a code. *)
Theorem booking_code_hex_format (e : Secrets.Entropy) :
  let code := fst (Models.generate_booking_code e) in
  Models.booking_code_format code = true
  /\ String.length code = 9%nat
  /\ code = "BK-" +:+ Text.upper (Secrets.hexlify (fst (Secrets.token_bytes 3 e)))
  /\ Models.booking_code_format "BK-9A2F3C" = true
  /\ Models.booking_code_of_bytes [x9a; x2f; x3c] = "BK-9A2F3C".
Proof.
  intros code. subst code.
  rewrite generate_booking_code_bytes. cbn [fst snd Secrets.token_bytes seq map].
  repeat split.
  - apply booking_code_of_three_format.
Qed.

(** ** The admin check *)

Section AdminCheck.

Import Views.

(** What [_is_admin_request] decides: a staff session, or a configured
    key that is not empty and equals the trimmed header. *)
Lemma is_admin_request_spec (key : Setting) (request : HttpRequest) :
  _is_admin_request key request
  = staff_session request
    || negb (no_admin_key key)
       && String.eqb
            (Text.strip (default "" (headers_get request ADMIN_KEY_HEADER)))
            (match key with SetStr s => s | _ => "" end).
Proof.
  unfold _is_admin_request, staff_session, no_admin_key.
  destruct (user request) as [u|]; [destruct (is_authenticated u && is_staff u) |];
    destruct key as [| |s]; try reflexivity;
    destruct (Text.nonempty s); reflexivity.
Qed.

End AdminCheck.

(** C9: when the configured admin key is unset, [None] or empty, a request
    without an authenticated staff user is never an admin request,
    whatever its [X-ADMIN-KEY] header holds. *)
Theorem empty_admin_key_never_matches
    (key : Views.Setting) (request : Views.HttpRequest) :
  Views.no_admin_key key = true ->
  Views.staff_session request = false ->
  Views._is_admin_request key request = false.
Proof.
  intros Hkey Hstaff. rewrite is_admin_request_spec, Hstaff, Hkey. reflexivity.
Qed.

(** An empty header against an empty configured key. *)
Lemma empty_admin_key_never_matches_witness :
  Views.headers_get (Samples.anonymous "POST" "" {[ "x-admin-key" := "" ]}) Views.ADMIN_KEY_HEADER
  = Some ""
  /\ Views._is_admin_request (Views.SetStr "")
       (Samples.anonymous "POST" "" {[ "x-admin-key" := "" ]}) = false.
Proof.
  split; [reflexivity |].
  apply (empty_admin_key_never_matches (Views.SetStr "")
           (Samples.anonymous "POST" "" {[ "x-admin-key" := "" ]})); reflexivity.
Defined.

(** ** The admin endpoints *)

Section AdminEndpoints.

Import Views Json.

Context {DB : Type}.
Variable book : Z -> list string -> DB -> ServiceResult * DB.
Variable json_loads : string -> option value.
Variable repr : value -> string.
Variable key : Setting.

Lemma post_allowed (request : HttpRequest) :
  method request = "POST" ->
  existsb (String.eqb (method request)) ["POST"] = true.
Proof. intros ->. reflexivity. Qed.

Lemma admin_generate_unauthorized (request : HttpRequest) (w : World DB) :
  _is_admin_request key request = false ->
  snd (admin_generate_booking_code book json_loads repr key request w) = w
  /\ (method request = "POST" ->
      fst (admin_generate_booking_code book json_loads repr key request w)
      = Returned forbidden).
Proof.
  intros Hno. unfold admin_generate_booking_code, require_http_methods.
  rewrite Hno. cbn [negb].
  split.
  - destruct (existsb _ _); reflexivity.
  - intros HP. rewrite (post_allowed _ HP). reflexivity.
Qed.

Lemma admin_confirm_unauthorized (request : HttpRequest) (w : World DB) :
  _is_admin_request key request = false ->
  snd (admin_confirm_booked book json_loads repr key request w) = w
  /\ (method request = "POST" ->
      fst (admin_confirm_booked book json_loads repr key request w)
      = Returned forbidden).
Proof.
  intros Hno. unfold admin_confirm_booked, require_http_methods.
  rewrite Hno. cbn [negb].
  split.
  - destruct (existsb _ _); reflexivity.
  - intros HP. rewrite (post_allowed _ HP). reflexivity.
Qed.

End AdminEndpoints.

(** C3: an admin finalize request that is not authorized (no authenticated
    staff session, no header equal to a configured key) leaves the world as
    it was: the booking operation is not invoked (the call log is the
    same) and the database, hence every seat, is unchanged; the POST is
    answered with the failure [403 Forbidden]. *)
Theorem unauthorized_finalize_rejected {DB : Type}
    (book : Z -> list string -> DB -> Views.ServiceResult * DB)
    (json_loads : string -> option Json.value) (repr : Json.value -> string)
    (key : Views.Setting) (request : Views.HttpRequest) (w : Views.World DB) :
  Views._is_admin_request key request = false ->
  let run := Views.admin_generate_booking_code book json_loads repr key request w in
  snd run = w
  /\ Views.calls (snd run) = Views.calls w
  /\ Views.db (snd run) = Views.db w
  /\ (Views.method request = "POST" ->
      fst run = Views.Returned
                  (Views.JsonResponse
                     (Json.JDict [("ok", Json.JBool false);
                                  ("message", Json.JStr "Forbidden")]) 403)).
Proof.
  intros Hno run. subst run.
  destruct (admin_generate_unauthorized book json_loads repr key request w Hno)
    as [Hw Hr].
  rewrite Hw. repeat split. exact Hr.
Qed.

(** A POST with a wrong key, no staff session: [403], and the held seat
    [A1] named in the body is not booked. *)
Lemma unauthorized_finalize_rejected_witness :
  Views._is_admin_request (Views.SetStr "s3cret")
    (Samples.anonymous "POST" "" {[ "x-admin-key" := "guess" ]}) = false
  /\ Views.admin_generate_booking_code Core.book Samples.loads_nothing
       Samples.repr_blank (Views.SetStr "s3cret")
       (Samples.anonymous "POST" "" {[ "x-admin-key" := "guess" ]})
       (Samples.world_of Samples.state1)
     = (Views.Returned Views.forbidden, Samples.world_of Samples.state1).
Proof.
  assert (Views._is_admin_request (Views.SetStr "s3cret")
            (Samples.anonymous "POST" "" {[ "x-admin-key" := "guess" ]}) = false)
    as Hno by reflexivity.
  split; [exact Hno |].
  destruct (unauthorized_finalize_rejected Core.book Samples.loads_nothing
              Samples.repr_blank (Views.SetStr "s3cret")
              (Samples.anonymous "POST" "" {[ "x-admin-key" := "guess" ]})
              (Samples.world_of Samples.state1) Hno)
    as (Hw & _ & _ & Hr).
  specialize (Hr eq_refl).
  rewrite (surjective_pairing (Views.admin_generate_booking_code _ _ _ _ _ _)).
  now rewrite Hw, Hr.
Defined.

(** ** The hold token of a session *)

Section HoldToken.

Import Views Json.

Context {DB : Type}.

Lemma token_hex_16_shape (e : Secrets.Entropy) :
  String.length (fst (Secrets.token_hex 16 e)) = 32%nat
  /\ Text.all_chars Text.is_lower_hex (fst (Secrets.token_hex 16 e)) = true
  /\ Text.nonempty (fst (Secrets.token_hex 16 e)) = true.
Proof.
  unfold Secrets.token_hex.
  destruct (Secrets.token_bytes 16 e) as [bs e'] eqn:E. cbn [fst].
  assert (length bs = 16%nat) as L.
  { change bs with (fst (bs, e')). rewrite <- E. apply token_bytes_length. }
  assert (String.length (Secrets.hexlify bs) = 32%nat) as L32.
  { rewrite hexlify_length, L. reflexivity. }
  repeat split; [exact L32 | apply hexlify_lower_hex |].
  destruct (Secrets.hexlify bs); [discriminate | reflexivity].
Qed.

Lemma hold_token_stored (request : HttpRequest) (w : World DB) (t : string) :
  session w !! SESSION_KEY = Some t -> Text.nonempty t = true ->
  _get_or_create_hold_token request w = (Returned t, w).
Proof.
  intros Hs Hn. unfold _get_or_create_hold_token, bind, session_get.
  rewrite Hs, Hn. reflexivity.
Qed.

Lemma hold_token_fresh (request : HttpRequest) (w : World DB) :
  has_token w = false ->
  _get_or_create_hold_token request w
  = (Returned (fst (Secrets.token_hex 16 (entropy w))), with_fresh_token w).
Proof.
  intros Hn. unfold has_token in Hn.
  unfold _get_or_create_hold_token, bind, session_get, token_hex, session_set,
    with_fresh_token.
  destruct (session w !! SESSION_KEY) as [t|]; [rewrite Hn |];
    cbn [negb]; destruct (Secrets.token_hex 16 (entropy w)); reflexivity.
Qed.

Lemma has_token_fresh (w : World DB) : has_token (with_fresh_token w) = true.
Proof.
  unfold has_token, with_fresh_token; cbn [session].
  rewrite lookup_insert_eq. apply token_hex_16_shape.
Qed.

(** A second request of the same session gets the token of the first and
    changes nothing. *)
Lemma hold_token_again (request request' : HttpRequest) (w : World DB) :
  exists t,
    fst (_get_or_create_hold_token request w) = Returned t
    /\ _get_or_create_hold_token request' (snd (_get_or_create_hold_token request w))
       = (Returned t, snd (_get_or_create_hold_token request w)).
Proof.
  destruct (has_token w) eqn:Hn.
  - unfold has_token in Hn.
    destruct (session w !! SESSION_KEY) as [t|] eqn:Hs; [| discriminate].
    exists t. rewrite (hold_token_stored request w t Hs Hn). cbn [fst snd].
    split; [reflexivity | now apply hold_token_stored].
  - exists (fst (Secrets.token_hex 16 (entropy w))).
    rewrite (hold_token_fresh request w Hn). cbn [fst snd].
    split; [reflexivity |].
    apply hold_token_stored; [| apply token_hex_16_shape].
    unfold with_fresh_token; cbn [session]. apply lookup_insert_eq.
Qed.

End HoldToken.

(** ** Every core call of a session carries the session's token *)

Section TokenDiscipline.

Import Views Json.

Context {DB : Type}.
Variable json_loads : string -> option value.

Lemma get_or_create_returns (request : HttpRequest) (w : World DB) :
  exists t, _get_or_create_hold_token request w
            = (Returned t, snd (_get_or_create_hold_token request w))
            /\ calls (snd (_get_or_create_hold_token request w)) = calls w
            /\ db (snd (_get_or_create_hold_token request w)) = db w.
Proof.
  destruct (has_token w) eqn:Hn.
  - unfold has_token in Hn.
    destruct (session w !! SESSION_KEY) as [t|] eqn:Hs; [| discriminate].
    exists t. rewrite (hold_token_stored request w t Hs Hn). now cbn.
  - eexists. rewrite (hold_token_fresh request w Hn). now cbn.
Qed.

(** The common end of the four session views: get the token, call the
    service with it, wrap the result. *)
Lemma token_then_invoke (request : HttpRequest) (mk : string -> Call)
    (f : string -> DB -> ServiceResult * DB)
    (k : ServiceResult -> M DB Response) (w : World DB) :
  (forall t, token_of_call (mk t) = Some t) ->
  (forall r v, snd (k r v) = v) ->
  served_with_session_token request w
    (snd (bind (_get_or_create_hold_token request)
               (fun tok => bind (invoke (mk tok) (f tok)) k) w)).
Proof.
  intros Hmk Hk. right.
  destruct (get_or_create_returns request w) as (t & E & Hc & Hd).
  exists t, (mk t), (snd (f t (db w))).
  unfold bind at 1. rewrite E. cbn [fst snd]. repeat split; [apply Hmk |].
  unfold bind, invoke. rewrite Hd, Hc.
  destruct (f t (db w)) as [r d]. cbn [snd]. apply Hk.
Qed.

Ltac pure_steps :=
  repeat match goal with
         | |- served_with_session_token _ ?w (snd (ret _ ?w)) => now left
         | |- served_with_session_token _ ?w (snd (raise _ ?w)) => now left
         | |- served_with_session_token _ ?w (snd (bind (lift ?x) _ ?w)) =>
             unfold bind at 1; destruct x; cbn [lift raise ret]
         | |- served_with_session_token _ ?w (snd (bind (_to_int ?v _) _ ?w)) =>
             unfold bind at 1, _to_int;
             destruct (py_int v) as [[]|]; cbn [raise ret]
         | |- served_with_session_token _ ?w (snd (_, ?w)) => now left
         | |- context [if ?b then _ else _] => destruct b
         end.

Ltac wrap_result :=
  let r := fresh "res" in let u := fresh "u" in
  intros r u; destruct (negb (ok r)); reflexivity.

Lemma hold_seat_token hold (request : HttpRequest) (w : World DB) :
  served_with_session_token request w (snd (hold_seat hold json_loads request w)).
Proof.
  unfold hold_seat, require_http_methods.
  destruct (existsb _ _); [| now left].
  destruct (_json_body json_loads request) as [body [r|]]; [now left |].
  pure_steps;
  (apply (token_then_invoke request (call_hold_seat _ _)); [reflexivity | wrap_result]).
Qed.

Lemma release_seat_token release (request : HttpRequest) (w : World DB) :
  served_with_session_token request w
    (snd (release_seat release json_loads request w)).
Proof.
  unfold release_seat, require_http_methods.
  destruct (existsb _ _); [| now left].
  destruct (_json_body json_loads request) as [body [r|]]; [now left |].
  pure_steps;
  (apply (token_then_invoke request (call_release_seat _ _)); [reflexivity | wrap_result]).
Qed.

Lemma attach_contact_token attach (request : HttpRequest) (w : World DB) :
  served_with_session_token request w
    (snd (attach_contact attach json_loads request w)).
Proof.
  unfold attach_contact, require_http_methods.
  destruct (existsb _ _); [| now left].
  destruct (_json_body json_loads request) as [body [r|]]; [now left |].
  pure_steps;
  (apply (token_then_invoke request (fun t => call_attach_contact _ t _ _)
           (fun t => attach _ t _ _)); [reflexivity | wrap_result]).
Qed.

Lemma claim_hold_token claim (request : HttpRequest) (w : World DB) :
  served_with_session_token request w
    (snd (claim_hold claim json_loads request w)).
Proof.
  unfold claim_hold, require_http_methods.
  destruct (existsb _ _); [| now left].
  destruct (_json_body json_loads request) as [body [r|]]; [now left |].
  pure_steps;
  (apply (token_then_invoke request (fun t => call_claim_hold _ _ t _)
           (fun t => claim _ _ t _)); [reflexivity | wrap_result]).
Qed.

End TokenDiscipline.

(** C10: obtaining the hold token is idempotent per session. A token the
    session already stores is returned unchanged and nothing is touched;
    otherwise a fresh token of 32 lowercase hexadecimal characters is drawn
    and stored. Asking again gives the same token, and every later core
    call made for the session by the hold, release, attach-contact and
    claim views is given that token. *)
Theorem hold_token_idempotent_per_session {DB : Type}
    (hold release : Z -> string -> string -> DB -> Views.ServiceResult * DB)
    (attach : Z -> string -> string -> string -> DB -> Views.ServiceResult * DB)
    (claim : Z -> string -> string -> option string -> DB -> Views.ServiceResult * DB)
    (json_loads : string -> option Json.value)
    (request request' : Views.HttpRequest) (w : Views.World DB) :
  let first := Views._get_or_create_hold_token request w in
  exists t,
    fst first = Views.Returned t
    /\ (forall s, Views.session w !! Views.SESSION_KEY = Some s ->
                  Text.nonempty s = true -> t = s /\ snd first = w)
    /\ (Views.has_token w = false ->
        t = fst (Secrets.token_hex 16 (Views.entropy w))
        /\ String.length t = 32%nat
        /\ Text.all_chars Text.is_lower_hex t = true
        /\ Views.session (snd first) = <[Views.SESSION_KEY := t]> (Views.session w)
        /\ Views.db (snd first) = Views.db w
        /\ Views.calls (snd first) = Views.calls w)
    /\ Views._get_or_create_hold_token request' (snd first)
       = (Views.Returned t, snd first)
    /\ Forall
         (fun view : Views.HttpRequest -> Views.M DB Views.Response =>
            let w2 := snd (view request' (snd first)) in
            Views.session w2 = Views.session (snd first)
            /\ (Views.calls w2 = Views.calls (snd first)
                \/ exists c, Views.calls w2 = c :: Views.calls (snd first)
                             /\ Views.token_of_call c = Some t))
         [Views.hold_seat hold json_loads;
          Views.release_seat release json_loads;
          Views.attach_contact attach json_loads;
          Views.claim_hold claim json_loads].
Proof.
  intros first.
  destruct (hold_token_again request request' w) as (t & E1 & E2).
  fold first in E1, E2. exists t. split; [exact E1 |].
  split; [| split; [| split; [exact E2 |]]].
  - intros s Hs Hn. subst first.
    rewrite (hold_token_stored request w s Hs Hn) in E1 |- *.
    cbn in E1. injection E1 as ->. now split.
  - intros Hn. subst first.
    rewrite (hold_token_fresh request w Hn) in E1 |- *. cbn [fst snd] in *.
    injection E1 as <-.
    destruct (token_hex_16_shape (Views.entropy w)) as (L & H & _).
    repeat split; assumption.
  - assert (forall w2, Views.served_with_session_token request' (snd first) w2 ->
              Views.session w2 = Views.session (snd first)
              /\ (Views.calls w2 = Views.calls (snd first)
                  \/ exists c, Views.calls w2 = c :: Views.calls (snd first)
                               /\ Views.token_of_call c = Some t)) as Hserved.
    { intros w2 [-> | (t' & c & d & Ht & Hc & ->)]; [split; [| left]; reflexivity |].
      rewrite E2 in Ht |- *. cbn [fst snd] in *. injection Ht as <-.
      split; [reflexivity |]. right. exists c. now split. }
    constructor; [apply Hserved, hold_seat_token |].
    constructor; [apply Hserved, release_seat_token |].
    constructor; [apply Hserved, attach_contact_token |].
    constructor; [apply Hserved, claim_hold_token | constructor].
Qed.

(** ** Validation in the hold endpoint *)

Section HoldValidation.

Import Views Json.

Context {DB : Type}.
Variable hold : Z -> string -> string -> DB -> ServiceResult * DB.
Variable json_loads : string -> option value.

Lemma hold_seat_tail (request : HttpRequest) (w : World DB) trip_id seat_code :
  trip_id <> 0 -> Text.nonempty seat_code = true ->
  held_validly w
    (snd (bind (_get_or_create_hold_token request)
            (fun tok =>
               bind (invoke (call_hold_seat trip_id seat_code tok)
                            (hold trip_id seat_code tok))
                    (fun res => if negb (ok res)
                                then ret (_err (message res) 409 (data res))
                                else ret (_ok (data res) (message res) 200))) w)).
Proof.
  intros Ht Hc. right.
  destruct (get_or_create_returns request w) as (t & E & Hcalls & _).
  exists trip_id, seat_code, t. repeat split; try assumption.
  unfold bind at 1. rewrite E. unfold bind, invoke.
  destruct (hold _ _ _ _) as [r d]. rewrite Hcalls.
  destruct (negb (ok r)); reflexivity.
Qed.

Lemma hold_seat_calls_only_valid (request : HttpRequest) (w : World DB) :
  held_validly w (snd (hold_seat hold json_loads request w)).
Proof.
  unfold hold_seat, require_http_methods.
  destruct (existsb _ _); [| now left].
  destruct (_json_body json_loads request) as [body [r|]]; [now left |].
  unfold bind at 1. destruct (get body "trip_id") as [e|v]; [now left |].
  cbn [lift ret].
  assert (forall trip_id,
    held_validly w
      (snd (bind (lift (get body "seat_code"))
        (fun c => bind (lift (strip (py_or c (JStr ""))))
          (fun c0 =>
            if (trip_id =? 0) || negb (Text.nonempty (Text.upper c0))
            then ret (_err "trip_id dan seat_code wajib diisi." 400 None)
            else
              bind (_get_or_create_hold_token request)
                (fun tok =>
                   bind (invoke (call_hold_seat trip_id (Text.upper c0) tok)
                                (hold trip_id (Text.upper c0) tok))
                        (fun res => if negb (ok res)
                                    then ret (_err (message res) 409 (data res))
                                    else ret (_ok (data res) (message res) 200)))))
        w))) as Hrest.
  { intros trip_id. unfold bind at 1.
    destruct (get body "seat_code") as [e|c]; [now left |]. cbn [lift ret].
    unfold bind at 1.
    destruct (strip (py_or c (JStr ""))) as [e|s]; [now left |]. cbn [lift ret].
    destruct ((trip_id =? 0) || negb (Text.nonempty (Text.upper s))) eqn:Hc;
      [now left |].
    apply orb_false_elim in Hc as [Hz Hs].
    apply hold_seat_tail; [now apply Z.eqb_neq | now apply negb_false_iff]. }
  unfold bind at 1, _to_int.
  destruct (py_int v) as [[]|z]; cbn [raise ret]; try (now left); apply Hrest.
Qed.

(** A request that [int] and [strip] accept and that lacks a usable trip
    id or seat code is answered with the validation failure, and nothing
    is touched. *)
Lemma hold_seat_rejects (request : HttpRequest) (w : World DB)
    (items : list (string * value)) (trip_id : Z) (seat_code : string) :
  method request = "POST" ->
  _json_body json_loads request = (JDict items, None) ->
  _to_int (default JNull (lookup_item "trip_id" items)) 0 w = (Returned trip_id, w) ->
  strip (py_or (default JNull (lookup_item "seat_code" items)) (JStr ""))
    = inr seat_code ->
  trip_id = 0 \/ seat_code = "" ->
  hold_seat hold json_loads request w = (Returned validation_error, w).
Proof.
  intros HP Hbody Hint Hstrip Hbad.
  unfold hold_seat, require_http_methods.
  rewrite (post_allowed _ HP), Hbody.
  unfold bind at 1. cbn [get lift ret].
  unfold bind at 1. rewrite Hint.
  unfold bind at 1. cbn [lift ret].
  unfold bind at 1. rewrite Hstrip. cbn [lift ret].
  assert ((trip_id =? 0) || negb (Text.nonempty (Text.upper seat_code)) = true) as ->;
    [| reflexivity].
  destruct Hbad as [-> | ->]; [reflexivity | apply orb_true_r].
Qed.

End HoldValidation.

(** C8 (where the code departs from it): the POST body [{"seat_code": 5}]
    lacks [trip_id], yet the endpoint gives no structured failure: the
    seat code is an [int], [.strip()] raises [AttributeError] and the view
    ends with that exception. The world is as it was, so the hold
    transition is not invoked. *)
Theorem hold_seat_untyped_seat_code_raises {DB : Type}
    (hold : Z -> string -> string -> DB -> Views.ServiceResult * DB)
    (json_loads : string -> option Json.value)
    (request : Views.HttpRequest) (w : Views.World DB) :
  Views.method request = "POST" ->
  Text.nonempty (Text.strip (Views.body request)) = true ->
  json_loads (Views.body request) = Some (Json.JDict [("seat_code", Json.JInt 5)]) ->
  Views.hold_seat hold json_loads request w = (Views.Raised Json.AttributeError, w).
Proof.
  intros HP Hraw Hloads.
  unfold Views.hold_seat, Views.require_http_methods, Views._json_body.
  rewrite (post_allowed _ HP), Hraw, Hloads. reflexivity.
Qed.

Lemma hold_seat_untyped_seat_code_raises_witness :
  Views.hold_seat (Core.hold_seat 900) Samples.loads_seat_code_5
    (Samples.anonymous "POST" Samples.body_seat_code_5 ∅)
    (Samples.world_of Samples.state1)
  = (Views.Raised Json.AttributeError, Samples.world_of Samples.state1).
Proof.
  apply (hold_seat_untyped_seat_code_raises
           (Core.hold_seat 900) Samples.loads_seat_code_5
           (Samples.anonymous "POST" Samples.body_seat_code_5 ∅)
           (Samples.world_of Samples.state1)); reflexivity.
Defined.

(** ** The core operations *)

Section CoreFacts.

Import Models Core.

Lemma filter_and {A} (p q : A -> bool) (l : list A) :
  List.filter (fun x => p x && q x) l = List.filter q (List.filter p l).
Proof.
  induction l as [|x l IH]; [reflexivity |]. cbn [List.filter].
  destruct (p x); cbn [andb List.filter]; [destruct (q x) |]; now rewrite IH.
Qed.

Lemma find_head_filter {A} (p : A -> bool) (l : list A) :
  find p l = head (List.filter p l).
Proof.
  induction l as [|x l IH]; [reflexivity |]. cbn [find List.filter].
  destruct (p x); [reflexivity | exact IH].
Qed.

(** A conditional update guarded by the seat's identity changes the rows
    of that seat and no other, when the change keeps the identity. *)
Lemma filter_seat_updated trip_id seat_code (g : Seat -> bool) (f : Seat -> Seat)
    (rows : list Seat) :
  (forall r, is_seat trip_id seat_code (f r) = is_seat trip_id seat_code r) ->
  List.filter (is_seat trip_id seat_code)
    (snd (update_where (fun r => is_seat trip_id seat_code r && g r) f rows))
  = map (fun r => if g r then f r else r)
        (List.filter (is_seat trip_id seat_code) rows).
Proof.
  intros Hf. unfold update_where; cbn [snd].
  induction rows as [|r rows IH]; [reflexivity |]. cbn [map List.filter].
  destruct (is_seat trip_id seat_code r) eqn:E; cbn [andb map].
  - destruct (g r) eqn:G; cbn [List.filter]; rewrite ?Hf, E, IH; reflexivity.
  - cbn [List.filter]. rewrite E. exact IH.
Qed.

Lemma is_seat_to_hold trip_id seat_code now ttl tok r :
  is_seat trip_id seat_code (to_hold now ttl tok r) = is_seat trip_id seat_code r.
Proof. reflexivity. Qed.

(** After the sweep no hold is past its deadline. *)
Lemma expire_holds_sweeps (st : State) :
  Forall (fun s => is_status HOLD s && expired (clock st) s = false)
         (seats (snd (expire_holds st))).
Proof.
  unfold expire_holds, update_where; cbn [snd with_seats seats].
  apply Forall_forall. intros s Hin.
  apply list_elem_of_In, in_map_iff in Hin as (r & <- & _).
  destruct (is_status HOLD r && expired (clock st) r) eqn:E; [reflexivity | exact E].
Qed.

Lemma expire_holds_keeps (st : State) :
  clock (snd (expire_holds st)) = clock st
  /\ trips (snd (expire_holds st)) = trips st
  /\ rng (snd (expire_holds st)) = rng st.
Proof. now unfold expire_holds, update_where. Qed.

End CoreFacts.

(** ** Racing holds *)

Section Race.

Import Models Core.

Variable ttl : Z.
Variable trip_id : Z.
Variable seat_code : string.

Local Abbreviation guard now tok :=
  (fun r => is_seat trip_id seat_code r && may_hold now tok r).

(** The conditional update of a seat that has exactly one row changes one
    row or none, according to the guard on that row. *)
Lemma update_one_row (now : Z) (tok : string) (rows : list Seat) (s : Seat) :
  List.filter (is_seat trip_id seat_code) rows = [s] ->
  exists rows',
    update_where (guard now tok) (to_hold now ttl tok) rows
    = (if may_hold now tok s then 1%nat else 0%nat, rows')
    /\ List.filter (is_seat trip_id seat_code) rows'
       = [if may_hold now tok s then to_hold now ttl tok s else s].
Proof.
  intros Hrow.
  pose proof (filter_seat_updated trip_id seat_code (may_hold now tok)
                (to_hold now ttl tok) rows
                (is_seat_to_hold trip_id seat_code now ttl tok)) as Hupd.
  destruct (update_where (guard now tok) _ rows) as [n rows'] eqn:E.
  exists rows'. cbn [snd] in Hupd. rewrite Hrow in Hupd. cbn [map] in Hupd.
  split; [| exact Hupd]. f_equal.
  apply (f_equal fst) in E. cbn [fst update_where] in E. subst n.
  rewrite filter_and, Hrow. cbn [List.filter].
  now destruct (may_hold now tok s).
Qed.

(** [acquire] on a seat it may take: the hold succeeds and the seat's row
    is now held by the caller until [now + ttl]. *)
Lemma acquire_success (tok : string) (st : State) (s : Seat) :
  trip_active trip_id (trips st) = true ->
  List.filter (is_seat trip_id seat_code) (seats st) = [s] ->
  may_hold (clock st) tok s = true ->
  exists rows,
    acquire ttl trip_id seat_code tok st
    = (Held (clock st + ttl), with_seats rows st)
    /\ List.filter (is_seat trip_id seat_code) rows
       = [to_hold (clock st) ttl tok s].
Proof.
  intros Hact Hrow Hmay. unfold acquire. rewrite Hact. cbn [negb].
  destruct (update_one_row (clock st) tok (seats st) s Hrow) as (rows & E & Hrows).
  rewrite E, Hmay in *. exists rows. now split.
Qed.

(** [acquire] on a seat held by somebody else whose hold has not expired:
    a conflict, and nothing changes. *)
Lemma acquire_conflict (tok : string) (st : State) (s : Seat) :
  trip_active trip_id (trips st) = true ->
  List.filter (is_seat trip_id seat_code) (seats st) = [s] ->
  status s = HOLD ->
  may_hold (clock st) tok s = false ->
  acquire ttl trip_id seat_code tok st = (HoldConflict taken, st).
Proof.
  intros Hact Hrow Hst Hmay. unfold acquire. rewrite Hact. cbn [negb].
  destruct (update_one_row (clock st) tok (seats st) s Hrow) as (rows & E & _).
  rewrite E, Hmay.
  cbn [Nat.ltb Nat.leb]. rewrite find_head_filter, Hrow. cbn [head].
  unfold is_status. now rewrite Hst.
Qed.

(** A handler running alone is [acquire]. *)
Lemma acquire_alone (tok : string) (st : State) :
  let h0 := arrive tok (clock st) in
  let (h1, st1) := handler_step ttl trip_id seat_code h0 st in
  let (h2, st2) := handler_step ttl trip_id seat_code h1 st1 in
  let (h3, st3) := handler_step ttl trip_id seat_code h2 st2 in
  (outcome h3, st3)
  = (Some (fst (acquire ttl trip_id seat_code tok st)),
     snd (acquire ttl trip_id seat_code tok st)).
Proof.
  unfold acquire, arrive, handler_step at 1. cbn [pc goto its_token its_clock].
  destruct (trip_active trip_id (trips st)); cbn [negb]; [| reflexivity].
  unfold handler_step at 1. cbn [pc goto its_token its_clock].
  destruct (update_where _ _ (seats st)) as [n rows].
  destruct (0 <? n)%nat; reflexivity.
Qed.

(** The hold just taken by [tok] at [t] is closed to another token until
    the deadline [t + ttl] has passed. *)
Lemma may_hold_after (t t' : Z) (tok tok' : string) (s : Seat) :
  tok <> tok' -> t' <= t + ttl ->
  may_hold t' tok' (to_hold t ttl tok s) = false.
Proof.
  intros Hne Hle. unfold may_hold, expired, held_by; cbn.
  apply orb_false_iff. split.
  - apply Z.ltb_ge. lia.
  - apply bool_decide_eq_false. congruence.
Qed.

(** *** The race *)

Variables tokenA tokenB : string.
Variables tA tB : Z.
Variable trips0 : list Trip.
Variable s : Seat.

Hypothesis trip_is_active : trip_active trip_id trips0 = true.
Hypothesis seat_available : status s = AVAILABLE.
Hypothesis distinct_tokens : tokenA <> tokenB.
Hypothesis B_in_time : tB <= tA + ttl.
Hypothesis A_in_time : tA <= tB + ttl.

Local Abbreviation race_inv :=
  (Core.race_inv ttl trip_id seat_code tokenA tA tokenB tB s).

(** The step of a handler that finds the seat still available. *)
Lemma step_not_yet (h : Handler) (st : State) :
  trips st = trips0 -> not_yet (pc h) ->
  List.filter (is_seat trip_id seat_code) (seats st) = [s] ->
  let (h', st') := handler_step ttl trip_id seat_code h st in
  its_token h' = its_token h /\ its_clock h' = its_clock h /\ trips st' = trips0
  /\ (not_yet (pc h') /\ st' = st
      \/ pc h' = finished (Held (its_clock h + ttl))
         /\ List.filter (is_seat trip_id seat_code) (seats st')
            = [to_hold (its_clock h) ttl (its_token h) s]).
Proof.
  intros Ht [Hp | Hp] Hrow; unfold handler_step; rewrite Hp.
  - rewrite Ht, trip_is_active. cbn [negb]. repeat split; try assumption.
    left. split; [now right | reflexivity].
  - destruct (update_one_row (its_clock h) (its_token h) (seats st) s Hrow)
      as (rows & E & Hrows).
    rewrite E.
    assert (may_hold (its_clock h) (its_token h) s = true) as Hmay
      by (unfold may_hold; now rewrite seat_available).
    rewrite Hmay in *. cbn. repeat split; try assumption. now right.
Qed.

(** The step of a handler after the other one has taken the seat. *)
Lemma step_losing (h : Handler) (st : State) (t : Z) (tok : string) :
  trips st = trips0 -> losing (pc h) ->
  tok <> its_token h -> its_clock h <= t + ttl ->
  List.filter (is_seat trip_id seat_code) (seats st) = [to_hold t ttl tok s] ->
  let (h', st') := handler_step ttl trip_id seat_code h st in
  its_token h' = its_token h /\ its_clock h' = its_clock h
  /\ st' = st /\ losing (pc h').
Proof.
  intros Ht Hp Hne Hle Hrow. unfold handler_step, losing.
  destruct Hp as [Hp | [Hp | [Hp | Hp]]]; rewrite Hp.
  - rewrite Ht, trip_is_active. cbn. repeat split; auto.
  - destruct (update_one_row (its_clock h) (its_token h) (seats st) _ Hrow)
      as (rows & E & _).
    rewrite E, (may_hold_after t _ tok _ s Hne Hle). cbn.
    repeat split; auto.
  - rewrite find_head_filter, Hrow. cbn. repeat split; auto.
  - repeat split; auto.
Qed.

Lemma step_finished (h : Handler) (st : State) (r : HoldResult) :
  pc h = finished r -> handler_step ttl trip_id seat_code h st = (h, st).
Proof. intros Hp. unfold handler_step. now rewrite Hp. Qed.

(** The invariant, with what never changes, is kept by every schedule. *)
Lemma race_inv_run (schedule : list Who) (a b : Handler) (st : State) :
  its_token a = tokenA -> its_clock a = tA ->
  its_token b = tokenB -> its_clock b = tB ->
  trips st = trips0 -> race_inv a b st ->
  let '(a', b', st') := run_schedule ttl trip_id seat_code schedule a b st in
  race_inv a' b' st'.
Proof.
  revert a b st.
  induction schedule as [|x rest IH]; intros a b st Ha Ha' Hb Hb' Ht Hinv;
    [exact Hinv |].
  destruct x; cbn [run_schedule].
  - destruct Hinv as [Hpa Hpb Hrow | Hpa Hpb Hrow | Hpb Hpa Hrow].
    + pose proof (step_not_yet a st Ht Hpa Hrow) as Hs.
      destruct (handler_step ttl trip_id seat_code a st) as [a' st'].
      destruct Hs as (E1 & E2 & Ht' & [[Hpa' ->] | [Hpa' Hrow']]);
        apply IH; try congruence.
      * now apply race_open.
      * rewrite Ha, Ha' in *. apply race_A_won; try assumption.
        destruct Hpb as [-> | ->]; unfold losing; auto.
    + rewrite (step_finished a st _ Hpa). apply IH; try assumption.
      now apply race_A_won.
    + pose proof (step_losing a st tB tokenB Ht Hpa) as Hs.
      rewrite Ha, Ha' in Hs. specialize (Hs (not_eq_sym distinct_tokens) A_in_time Hrow).
      destruct (handler_step ttl trip_id seat_code a st) as [a' st'].
      destruct Hs as (E1 & E2 & -> & Hpa'). apply IH; try congruence.
      now apply race_B_won.
  - destruct Hinv as [Hpa Hpb Hrow | Hpa Hpb Hrow | Hpb Hpa Hrow].
    + pose proof (step_not_yet b st Ht Hpb Hrow) as Hs.
      destruct (handler_step ttl trip_id seat_code b st) as [b' st'].
      destruct Hs as (E1 & E2 & Ht' & [[Hpb' ->] | [Hpb' Hrow']]);
        apply IH; try congruence.
      * now apply race_open.
      * rewrite Hb, Hb' in *. apply race_B_won; try assumption.
        destruct Hpa as [-> | ->]; unfold losing; auto.
    + pose proof (step_losing b st tA tokenA Ht Hpb) as Hs.
      rewrite Hb, Hb' in Hs. specialize (Hs distinct_tokens B_in_time Hrow).
      destruct (handler_step ttl trip_id seat_code b st) as [b' st'].
      destruct Hs as (E1 & E2 & -> & Hpb'). apply IH; try congruence.
      now apply race_A_won.
    + rewrite (step_finished b st _ Hpb). apply IH; try assumption.
      now apply race_B_won.
Qed.

End Race.

Section Progress.

Import Models Core.

Variable ttl : Z.
Variable trip_id : Z.
Variable seat_code : string.

(** Every step of a handler that has not finished brings it closer to its
    end. *)
Lemma handler_step_progress (h : Handler) (st : State) :
  (steps_left (pc (fst (handler_step ttl trip_id seat_code h st)))
   <= pred (steps_left (pc h)))%nat.
Proof.
  unfold handler_step. destruct (pc h) eqn:E; cbn.
  - destruct (negb _); cbn; lia.
  - match goal with
    | |- context [if ?c then _ else _] => destruct c
    end; cbn; lia.
  - lia.
  - rewrite E. cbn. lia.
Qed.

(** A handler that gets three steps has finished, whatever the other does. *)
Lemma run_schedule_progress (schedule : list Who) (a b : Handler) (st : State) :
  let '(a', b', _) := run_schedule ttl trip_id seat_code schedule a b st in
  (steps_left (pc a') <= steps_left (pc a) - turns handler_A schedule)%nat
  /\ (steps_left (pc b') <= steps_left (pc b) - turns handler_B schedule)%nat.
Proof.
  revert a b st. induction schedule as [|x rest IH]; intros a b st; cbn; [lia |].
  destruct x.
  - pose proof (handler_step_progress a st) as Hp.
    destruct (handler_step ttl trip_id seat_code a st) as [a' st']. cbn [fst] in Hp.
    specialize (IH a' b st').
    destruct (run_schedule ttl trip_id seat_code rest a' b st') as [[a2 b2] st2].
    lia.
  - pose proof (handler_step_progress b st) as Hp.
    destruct (handler_step ttl trip_id seat_code b st) as [b' st']. cbn [fst] in Hp.
    specialize (IH a b' st').
    destruct (run_schedule ttl trip_id seat_code rest a b' st') as [[a2 b2] st2].
    lia.
Qed.

End Progress.

(** C1: two [acquire] handlers race with distinct tokens on a seat that is
    [AVAILABLE] (the trip active, the seat having its one row, the two
    clock readings within the time to live of each other). The check and
    change of the status is the one indivisible conditional update of the
    seat row; everything else may interleave. Whatever the schedule, once
    both handlers have had their steps, both have finished, exactly one
    holds the seat and the other got the conflict "taken": never two
    successes, and the row is the winner's. *)
Theorem racing_acquires_one_winner (schedule : list Core.Who)
    (ttl trip_id : Z) (seat_code tokenA tokenB : string) (tA tB : Z)
    (st : Core.State) (s : Models.Seat) :
  Core.trip_active trip_id (Core.trips st) = true ->
  List.filter (Core.is_seat trip_id seat_code) (Core.seats st) = [s] ->
  Models.status s = Models.AVAILABLE ->
  tokenA <> tokenB ->
  tB <= tA + ttl -> tA <= tB + ttl ->
  (3 <= Core.turns Core.handler_A schedule)%nat ->
  (3 <= Core.turns Core.handler_B schedule)%nat ->
  let '(a, b, st') :=
    Core.run_schedule ttl trip_id seat_code schedule
      (Core.arrive tokenA tA) (Core.arrive tokenB tB) st in
  (Core.outcome a = Some (Core.Held (tA + ttl))
   /\ Core.outcome b = Some (Core.HoldConflict Core.taken)
   /\ List.filter (Core.is_seat trip_id seat_code) (Core.seats st')
      = [Core.to_hold tA ttl tokenA s]
   \/ Core.outcome b = Some (Core.Held (tB + ttl))
      /\ Core.outcome a = Some (Core.HoldConflict Core.taken)
      /\ List.filter (Core.is_seat trip_id seat_code) (Core.seats st')
         = [Core.to_hold tB ttl tokenB s])
  /\ xorb (Core.won a) (Core.won b) = true.
Proof.
  intros Hact Hrow Hst Hne HB HA HtA HtB.
  pose proof (race_inv_run ttl trip_id seat_code tokenA tokenB tA tB
                (Core.trips st) s Hact Hst Hne HB HA schedule
                (Core.arrive tokenA tA) (Core.arrive tokenB tB) st
                eq_refl eq_refl eq_refl eq_refl eq_refl) as Hinv.
  pose proof (run_schedule_progress ttl trip_id seat_code schedule
                (Core.arrive tokenA tA) (Core.arrive tokenB tB) st) as Hprog.
  destruct (Core.run_schedule _ _ _ _ _ _ _) as [[a b] st'].
  cbn [Core.arrive Core.pc Core.steps_left] in Hprog.
  destruct Hprog as [HpA HpB].
  assert (Core.steps_left (Core.pc a) = 0%nat) as HdA by lia.
  assert (Core.steps_left (Core.pc b) = 0%nat) as HdB by lia.
  destruct Hinv as [Hpa Hpb Hrow' | Hpa Hpb Hrow' | Hpb Hpa Hrow'].
  - apply Core.race_open; [now left | now left | exact Hrow].
  - exfalso. destruct Hpa as [E | E]; rewrite E in HdA; discriminate.
  - unfold Core.outcome, Core.won. rewrite Hpa.
    destruct Hpb as [E | [E | [E | E]]]; rewrite E in HdB |- *;
      try discriminate.
    split; [left |]; now repeat split.
  - unfold Core.outcome, Core.won. rewrite Hpb.
    destruct Hpa as [E | [E | [E | E]]]; rewrite E in HdA |- *;
      try discriminate.
    split; [right |]; now repeat split.
Qed.

(** Handler B gets its update in between the check and the update of
    handler A: B wins, A gets the conflict. *)
Lemma racing_acquires_one_winner_witness :
  let '(a, b, _) :=
    Core.run_schedule 900 1 "A2"
      [Core.handler_A; Core.handler_B; Core.handler_B; Core.handler_A;
       Core.handler_B; Core.handler_A]
      (Core.arrive "tokA" 100) (Core.arrive "tokB" 101) Samples.state1 in
  Core.outcome a = Some (Core.HoldConflict Core.taken)
  /\ Core.outcome b = Some (Core.Held 1001).
Proof.
  assert ("tokA" <> "tokB") as Hne by discriminate.
  assert (101 <= 100 + 900) as HB by lia.
  assert (100 <= 101 + 900) as HA by lia.
  pose proof (racing_acquires_one_winner
                [Core.handler_A; Core.handler_B; Core.handler_B; Core.handler_A;
                 Core.handler_B; Core.handler_A]
                900 1 "A2" "tokA" "tokB" 100 101 Samples.state1
                (Samples.seat "A2" Models.AVAILABLE None None)
                eq_refl eq_refl eq_refl Hne HB HA (le_n 3) (le_n 3)) as H.
  vm_compute in H. vm_compute.
  destruct H as [[(Ha & _) | (Hb & Ha & _)] _]; [discriminate | now split].
Defined.

(** ** Finalization of a group of seats *)

Section Finalizer.

Import Models Core.

Lemma check_seat_eligible now trip_id rows c :
  check_seat now trip_id rows c = None <-> eligible now trip_id rows c = true.
Proof.
  unfold check_seat, eligible, is_status.
  destruct (find _ rows) as [s|]; [| split; discriminate].
  destruct (status s); cbn; try (split; discriminate).
  destruct (expired now s); split; (reflexivity || discriminate).
Qed.

Lemma check_seat_ineligible now trip_id rows c :
  eligible now trip_id rows c = false ->
  exists why, check_seat now trip_id rows c = Some why.
Proof.
  intros He. destruct (check_seat now trip_id rows c) as [why|] eqn:E; [eauto |].
  apply check_seat_eligible in E. congruence.
Qed.

Lemma failure_listed now trip_id rows (seat_codes : list string) c why :
  (c, why) ∈ omap (fun c => (fun why => (c, why)) <$> check_seat now trip_id rows c)
                  seat_codes
  <-> c ∈ seat_codes /\ check_seat now trip_id rows c = Some why.
Proof.
  rewrite list_elem_of_omap. split.
  - intros (c' & Hin & E).
    destruct (check_seat now trip_id rows c') as [why'|] eqn:Hc; [| discriminate].
    cbn in E. injection E as -> ->. now split.
  - intros [Hin Hc]. exists c. split; [exact Hin |]. now rewrite Hc.
Qed.

(** When every named seat is eligible, all of them are booked under one
    fresh booking code. *)
Lemma finalize_success trip_id (seat_codes : list string) (st : State) :
  (forall c, c ∈ seat_codes ->
             eligible (clock st) trip_id (seats st) c = true) ->
  let bk := fst (generate_booking_code (rng st)) in
  fst (admin_generate_booking_code_and_book trip_id seat_codes st)
    = Booked bk seat_codes
  /\ seats (snd (admin_generate_booking_code_and_book trip_id seat_codes st))
     = map (fun r => if named trip_id seat_codes r
                     then to_booked (clock st) bk r else r) (seats st).
Proof.
  intros Hall bk. subst bk. unfold admin_generate_booking_code_and_book.
  assert (omap (fun c => (fun why => (c, why))
                           <$> check_seat (clock st) trip_id (seats st) c)
               seat_codes = []) as ->.
  { induction seat_codes as [|c l IH]; [reflexivity |]. cbn [omap list_omap].
    assert (check_seat (clock st) trip_id (seats st) c = None) as ->.
    { apply check_seat_eligible, Hall. now left. }
    cbn. apply IH. intros c' Hc'. apply Hall. now right. }
  destruct (generate_booking_code (rng st)) as [bk e]. now cbn.
Qed.

End Finalizer.

(** C2: finalization is all-or-nothing. If some named seat is not eligible
    (it is missing, or not currently [HOLD], an expired hold not counting),
    the result is a conflict, the state is exactly what it was (so a seat
    of the list that was held is still the same row, [HOLD] and not
    [BOOKED]), and the conflict lists exactly the named seats that failed,
    each with the reason why. *)
Theorem finalize_all_or_nothing (trip_id : Z) (seat_codes : list string)
    (st : Core.State) :
  (exists c, c ∈ seat_codes
             /\ Core.eligible (Core.clock st) trip_id (Core.seats st) c = false) ->
  exists failures,
    Core.admin_generate_booking_code_and_book trip_id seat_codes st
    = (Core.GroupConflict failures, st)
    /\ failures <> []
    /\ (forall c why,
          (c, why) ∈ failures
          <-> c ∈ seat_codes
              /\ Core.check_seat (Core.clock st) trip_id (Core.seats st) c = Some why)
    /\ (forall c s,
          find (Core.is_seat trip_id c) (Core.seats st) = Some s ->
          find (Core.is_seat trip_id c)
               (Core.seats (snd (Core.admin_generate_booking_code_and_book
                                   trip_id seat_codes st))) = Some s).
Proof.
  intros (c & Hin & Hno).
  destruct (check_seat_ineligible _ _ _ _ Hno) as (why & Hwhy).
  unfold Core.admin_generate_booking_code_and_book.
  pose proof (proj2 (failure_listed (Core.clock st) trip_id (Core.seats st)
                       seat_codes c why) (conj Hin Hwhy)) as Hlisted.
  destruct (omap _ seat_codes) as [|f failures] eqn:E.
  - now apply elem_of_nil in Hlisted.
  - exists (f :: failures). split; [reflexivity |]. split; [discriminate |].
    split; [| now cbn].
    intros c' why'. rewrite <- E. apply failure_listed.
Qed.

(** [A1] is held, [A2] is not: the conflict names [A2], [A1] stays held. *)
Lemma finalize_all_or_nothing_witness :
  Core.admin_generate_booking_code_and_book 1 ["A1"; "A2"] Samples.state1
  = (Core.GroupConflict [("A2", Core.seat_not_held)], Samples.state1)
  /\ exists failures,
       Core.admin_generate_booking_code_and_book 1 ["A1"; "A2"] Samples.state1
       = (Core.GroupConflict failures, Samples.state1)
       /\ failures <> [].
Proof.
  split; [reflexivity |].
  destruct (finalize_all_or_nothing 1 ["A1"; "A2"] Samples.state1)
    as (failures & E & Hne & _).
  - exists "A2". split; [apply list_elem_of_In; right; now left | reflexivity].
  - exists failures. now split.
Defined.

(** ** One row per seat *)

Section Uniqueness.

Import Models Table.

Lemma same_on_unique_together (r row : Seat) :
  forallb (fun c => same_on c r row) unique_together = true <-> key r = key row.
Proof.
  unfold unique_together, key; cbn [forallb same_on].
  rewrite andb_true_r, andb_true_iff, Z.eqb_eq, String.eqb_eq.
  split; [intros [-> ->]; reflexivity | intros E; now inversion E].
Qed.

Lemma collides_key (row : Seat) (table : list Seat) :
  collides row table = true <-> key row ∈ key <$> table.
Proof.
  unfold collides. rewrite existsb_exists, list_elem_of_fmap. split.
  - intros (r & Hin & Hsame). exists r. split.
    + symmetry. now apply same_on_unique_together.
    + now apply list_elem_of_In.
  - intros (r & Hk & Hin). exists r. split.
    + now apply list_elem_of_In.
    + now apply same_on_unique_together.
Qed.

Lemma collides_free (row : Seat) (table : list Seat) :
  collides row table = false -> key row ∉ key <$> table.
Proof.
  intros Hc Hin. apply collides_key in Hin. congruence.
Qed.

Lemma insert_keeps_unique (row : Seat) (table table' : list Seat) :
  NoDup (key <$> table) -> insert_row row table = inr table' ->
  NoDup (key <$> table').
Proof.
  unfold insert_row. intros Hnd Hins.
  destruct (collides row table) eqn:Hc; [discriminate |]. injection Hins as <-.
  rewrite fmap_app. apply NoDup_app. split; [exact Hnd |]. split.
  - intros k Hk Hk'. apply list_elem_of_singleton in Hk'. subst k.
    now apply (collides_free row table).
  - apply NoDup_singleton.
Qed.

Lemma delete_keeps_unique (i : nat) (table : list Seat) :
  NoDup (key <$> table) -> NoDup (key <$> delete_row i table).
Proof.
  unfold delete_row. intros Hnd.
  destruct (table !! i) as [x|] eqn:Hi.
  - rewrite delete_take_drop.
    rewrite <- (take_drop_middle table i x Hi), fmap_app, fmap_cons in Hnd.
    rewrite fmap_app. apply NoDup_app in Hnd as (H1 & H2 & H3).
    apply NoDup_cons in H3 as [_ H3].
    apply NoDup_app. split; [exact H1 |]. split; [| exact H3].
    intros k Hk Hk'. apply (H2 k Hk). now right.
  - rewrite delete_take_drop.
    apply lookup_ge_None in Hi.
    rewrite take_ge, drop_ge, app_nil_r by lia. exact Hnd.
Qed.

Lemma update_keeps_unique (i : nat) (row : Seat) (table table' : list Seat) :
  NoDup (key <$> table) -> update_row i row table = inr table' ->
  NoDup (key <$> table').
Proof.
  unfold update_row. intros Hnd Hupd.
  destruct (table !! i) as [x|] eqn:Hi; [| discriminate].
  destruct (collides row (delete i table)) eqn:Hc; [discriminate |].
  injection Hupd as <-.
  pose proof (delete_keeps_unique i table Hnd) as Hdel. unfold delete_row in Hdel.
  apply collides_free in Hc.
  rewrite delete_take_drop, fmap_app in Hc, Hdel.
  rewrite insert_take_drop by (now apply lookup_lt_Some in Hi).
  rewrite fmap_app, fmap_cons.
  apply NoDup_app in Hdel as (H1 & H2 & H3).
  apply NoDup_app. split; [exact H1 |]. split.
  - intros k Hk Hk'. apply elem_of_cons in Hk' as [-> | Hk'].
    + apply Hc, elem_of_app. now left.
    + now apply (H2 k).
  - apply NoDup_cons. split; [| exact H3].
    intros Hk. apply Hc, elem_of_app. now right.
Qed.

Lemma reachable_unique (table : list Seat) :
  reachable table -> NoDup (key <$> table).
Proof.
  induction 1 as [| table row table' _ IH Hins | table i row table' _ IH Hupd
                 | table i _ IH].
  - apply NoDup_nil_2.
  - exact (insert_keeps_unique row table table' IH Hins).
  - exact (update_keeps_unique i row table table' IH Hupd).
  - exact (delete_keeps_unique i table IH).
Qed.

(** The core's conditional updates never touch the identity of a row. *)
Lemma update_where_keys (g : Seat -> bool) (f : Seat -> Seat) (rows : list Seat) :
  (forall r, key (f r) = key r) ->
  key <$> snd (Core.update_where g f rows) = key <$> rows.
Proof.
  intros Hf. unfold Core.update_where; cbn [snd].
  induction rows as [|r rows IH]; [reflexivity |]. cbn [map fmap list_fmap].
  f_equal; [destruct (g r); [apply Hf | reflexivity] | exact IH].
Qed.

End Uniqueness.

(** C7: in every table the database can reach (by whatever inserts, updates
    and deletes the application attempts) at most one row exists per
    (trip, code) pair. The guarantee comes from the constraint
    [unique_together = ("trip", "code")] of the data model alone: a write
    that would give a second row for a pair is refused with
    [IntegrityError], and no check by the application is assumed. *)
Theorem one_seat_per_trip_and_code (table : list Models.Seat) :
  Table.reachable table ->
  Models.unique_together = [Models.col_trip; Models.col_code]
  /\ (forall i j r1 r2,
        table !! i = Some r1 -> table !! j = Some r2 ->
        Models.trip r1 = Models.trip r2 -> Models.code r1 = Models.code r2 ->
        i = j)
  /\ (forall row r,
        r ∈ table ->
        Models.trip r = Models.trip row -> Models.code r = Models.code row ->
        Table.insert_row row table = inl Table.IntegrityError).
Proof.
  intros Hreach. split; [reflexivity |]. split.
  - intros i j r1 r2 Hi Hj Ht Hc.
    apply reachable_unique in Hreach.
    apply (proj1 (NoDup_alt _) Hreach i j (Table.key r1)).
    + rewrite list_lookup_fmap, Hi. reflexivity.
    + rewrite list_lookup_fmap, Hj. unfold Table.key. now rewrite Ht, Hc.
  - intros row r Hin Ht Hc. unfold Table.insert_row.
    assert (Table.collides row table = true) as ->; [| reflexivity].
    apply collides_key, list_elem_of_fmap. exists r.
    split; [unfold Table.key; now rewrite Ht, Hc | exact Hin].
Qed.

Lemma one_seat_per_trip_and_code_witness :
  Table.reachable [Samples.seat "A1" Models.AVAILABLE None None]
  /\ Table.insert_row (Samples.seat "A1" Models.HOLD (Some "tok1") (Some 900))
       [Samples.seat "A1" Models.AVAILABLE None None]
     = inl Table.IntegrityError.
Proof.
  assert (Table.reachable [Samples.seat "A1" Models.AVAILABLE None None]) as Hreach.
  { apply (Table.reach_insert [] (Samples.seat "A1" Models.AVAILABLE None None));
      [apply Table.reach_empty | reflexivity]. }
  split; [exact Hreach |].
  destruct (one_seat_per_trip_and_code _ Hreach) as (_ & _ & Hdup).
  apply (Hdup _ (Samples.seat "A1" Models.AVAILABLE None None));
    [apply list_elem_of_In; now left | reflexivity | reflexivity].
Defined.

(** ** The sweep before reads *)

Section Sweep.

Import Views Json.

Lemma get_allowed (request : HttpRequest) :
  method request = "GET" ->
  existsb (String.eqb (method request)) ["GET"] = true.
Proof. intros ->. reflexivity. Qed.

Context {DB : Type}.
Variable expire_holds : DB -> Z * DB.
Variable list_trips : DB -> list Models.Trip * DB.
Variable isoformat : Z -> string.
Variable build_absolute_uri : HttpRequest -> string -> string.

(** The trip list sweeps first and reads the trips of the swept
    database. *)
Lemma trips_list_sweeps_first (request : HttpRequest) (w : World DB) :
  method request = "GET" ->
  let swept := snd (expire_holds (db w)) in
  let run := trips_list expire_holds list_trips isoformat build_absolute_uri
               request w in
  calls (snd run) = call_list_trips :: call_expire_holds :: calls w
  /\ db (snd run) = snd (list_trips swept)
  /\ exists data,
       length data = length (fst (list_trips swept))
       /\ fst run = Returned (JsonResponse
                                (JDict [("ok", JBool true); ("trips", JList data)])
                                200).
Proof.
  intros HG swept run. subst swept run.
  unfold trips_list, require_http_methods. rewrite (get_allowed _ HG).
  unfold bind, invoke, ret. cbn [db].
  destruct (expire_holds (db w)) as [n d1]. cbn [db snd].
  destruct (list_trips d1) as [trips d2]. cbn [fst snd calls db].
  repeat split. eexists. split; [| reflexivity]. apply length_map.
Qed.

(** The on-demand sweep. *)
Lemma expire_now_sweeps (request : HttpRequest) (w : World DB) :
  method request = "POST" ->
  let run := expire_now expire_holds request w in
  calls (snd run) = call_expire_holds :: calls w
  /\ db (snd run) = snd (expire_holds (db w))
  /\ fst run = Returned (_ok (Some (JDict [("released",
                                            JInt (fst (expire_holds (db w))))]))
                             "Expired holds released" 200).
Proof.
  intros HP run. subst run.
  unfold expire_now, require_http_methods. rewrite (post_allowed _ HP).
  unfold bind, invoke, ret.
  destruct (expire_holds (db w)) as [n d1]. now cbn.
Qed.

End Sweep.

Section SeatMap.

Import Views Json.

(** The seat map presents the seats of the swept table. *)
Lemma seat_map_sweeps_first (trip_id : Z) (request : HttpRequest)
    (w : World Core.State) :
  method request = "GET" ->
  let swept := snd (Core.expire_holds (db w)) in
  let run := seat_map Core.get_seat_map trip_id request w in
  calls (snd run) = call_get_seat_map trip_id :: calls w
  /\ db (snd run) = swept
  /\ fst run
     = Returned
         (if Core.trip_exists trip_id (Core.trips (db w))
          then _ok (Some (JDict [("trip_id", JInt trip_id);
                                 ("seats",
                                  Core.present_seats trip_id (Core.seats swept))]))
                   "OK" 200
          else _err "trip not found" 404 None).
Proof.
  intros HG swept run. subst swept run.
  unfold seat_map, require_http_methods. rewrite (get_allowed _ HG).
  unfold bind, invoke, ret, Core.get_seat_map.
  destruct (Core.expire_holds (db w)) as [n st1] eqn:E.
  assert (Core.trips st1 = Core.trips (db w)) as Ht.
  { change st1 with (snd (n, st1)). rewrite <- E. apply expire_holds_keeps. }
  rewrite Ht. cbn [snd].
  destruct (Core.trip_exists trip_id (Core.trips (db w))); now cbn.
Qed.

End SeatMap.

(** C4: the expiry sweep runs before the reads that present availability:
    the trip list view calls [expire_holds] and then lists the trips of the
    swept database; the seat map presents the seats of the swept table, in
    which no hold is past its deadline; and the sweep is offered on demand
    by the view [expire_now]. *)
Theorem sweep_before_every_read {DB : Type}
    (expire_holds : DB -> Z * DB) (list_trips : DB -> list Models.Trip * DB)
    (isoformat : Z -> string)
    (build_absolute_uri : Views.HttpRequest -> string -> string)
    (request : Views.HttpRequest) (w : Views.World DB)
    (trip_id : Z) (wc : Views.World Core.State)
    (request' : Views.HttpRequest) :
  Views.method request = "GET" ->
  Views.method request' = "POST" ->
  (let swept := snd (expire_holds (Views.db w)) in
   let run := Views.trips_list expire_holds list_trips isoformat build_absolute_uri
                request w in
   Views.calls (snd run)
   = Views.call_list_trips :: Views.call_expire_holds :: Views.calls w
   /\ Views.db (snd run) = snd (list_trips swept)
   /\ exists data,
        length data = length (fst (list_trips swept))
        /\ fst run = Views.Returned
                       (Views.JsonResponse
                          (Json.JDict [("ok", Json.JBool true);
                                       ("trips", Json.JList data)]) 200))
  /\ (let swept := snd (Core.expire_holds (Views.db wc)) in
      let run := Views.seat_map Core.get_seat_map trip_id request wc in
      Views.db (snd run) = swept
      /\ Forall (fun s => Core.is_status Models.HOLD s
                          && Core.expired (Core.clock (Views.db wc)) s = false)
                (Core.seats swept)
      /\ fst run
         = Views.Returned
             (if Core.trip_exists trip_id (Core.trips (Views.db wc))
              then Views._ok
                     (Some (Json.JDict
                        [("trip_id", Json.JInt trip_id);
                         ("seats", Core.present_seats trip_id (Core.seats swept))]))
                     "OK" 200
              else Views._err "trip not found" 404 None))
  /\ (let run := Views.expire_now expire_holds request' w in
      Views.calls (snd run) = Views.call_expire_holds :: Views.calls w
      /\ Views.db (snd run) = snd (expire_holds (Views.db w))).
Proof.
  intros HG HP. split; [| split].
  - exact (trips_list_sweeps_first expire_holds list_trips isoformat
             build_absolute_uri request w HG).
  - destruct (seat_map_sweeps_first trip_id request wc HG) as (_ & Hdb & Hr).
    split; [exact Hdb |]. split; [apply expire_holds_sweeps | exact Hr].
  - destruct (expire_now_sweeps expire_holds request' w HP) as (Hc & Hd & _).
    now split.
Qed.

(** At time 100 the hold on [A3] (deadline 50) is swept before the seat map
    of trip 1 is presented. *)
Lemma sweep_before_every_read_witness :
  Core.seats (Views.db (snd (Views.seat_map Core.get_seat_map 1
                               (Samples.anonymous "GET" "" ∅)
                               (Samples.world_of Samples.state1))))
  = Core.seats (snd (Core.expire_holds Samples.state1))
  /\ Views.calls (snd (Views.trips_list Core.expire_holds Samples.list_active
                         Samples.iso_blank Samples.uri_same
                         (Samples.anonymous "GET" "" ∅)
                         (Samples.world_of Samples.state1)))
     = [Views.call_list_trips; Views.call_expire_holds].
Proof.
  destruct (sweep_before_every_read Core.expire_holds Samples.list_active
              Samples.iso_blank Samples.uri_same
              (Samples.anonymous "GET" "" ∅) (Samples.world_of Samples.state1)
              1 (Samples.world_of Samples.state1)
              (Samples.anonymous "POST" "" ∅) eq_refl eq_refl)
    as ((Hcalls & _) & (Hdb & _) & _).
  split; [now rewrite Hdb | exact Hcalls].
Defined.

(** ** The definitions on sample inputs *)

Section Checks.

Import Views Json Samples.

Example strip_sample : Text.strip "  a 1 " = "a 1".
Proof. reflexivity. Qed.

Example upper_sample : Text.upper " a1-bz" = " A1-BZ".
Proof. reflexivity. Qed.

Example int_of_str_samples :
  int_of_str " 12 " = Some 12 /\ int_of_str "-7" = Some (-7)
  /\ int_of_str "1_000" = Some 1000 /\ int_of_str "1__0" = None
  /\ int_of_str "" = None /\ int_of_str "12a" = None.
Proof. repeat split. Qed.

Example py_int_samples :
  py_int (JBool true) = inr 1
  /\ py_int (JFloat (FFinite (-7 # 2))) = inr (-3)
  /\ py_int JNull = inl TypeError
  /\ py_int (JStr "x") = inl ValueError
  /\ py_int (JFloat (FInf false)) = inl OverflowError.
Proof. repeat split. Qed.

Example token_hex_sample :
  fst (Secrets.token_hex 2 {| Secrets.source := fun _ => xa7; Secrets.consumed := 0 |})
  = "a7a7".
Proof. reflexivity. Qed.

Example claim_code_sample :
  Models.claim_code_of_bytes [xab; xcd; x12; x34] = "ABCD-1234".
Proof. reflexivity. Qed.

(** The header is trimmed before it is compared with the key. *)
Example admin_key_trimmed :
  _is_admin_request (SetStr "k") (anonymous "POST" "" {[ "x-admin-key" := " k " ]})
  = true.
Proof. reflexivity. Qed.

(** A well-formed hold request reaches the core with the cleaned seat code
    and the fresh token of the session. *)
Example hold_seat_sample :
  let run := hold_seat (Core.hold_seat 900)
               (loads_as (JDict [("trip_id", JStr "1"); ("seat_code", JStr " a2 ")]))
               (anonymous "POST" "{}" ∅) (world_of state1) in
  calls (snd run) = [call_hold_seat 1 "A2" "00000000000000000000000000000000"]
  /\ fst run = Returned (_ok (Some (JDict [("status", JStr "HOLD");
                                           ("hold_until", JInt 1000)])) "OK" 200).
Proof. split; reflexivity. Qed.

(** Bodies without a usable field that are answered with the validation
    failure. *)
Example hold_seat_missing_fields :
  hold_seat (Core.hold_seat 900) loads_nothing (anonymous "POST" "" ∅) (world_of state1)
  = (Returned validation_error, world_of state1)
  /\ hold_seat (Core.hold_seat 900) (loads_as (JDict [("trip_id", JInt 1)]))
       (anonymous "POST" "{}" ∅) (world_of state1)
     = (Returned validation_error, world_of state1)
  /\ hold_seat (Core.hold_seat 900)
       (loads_as (JDict [("trip_id", JStr "x"); ("seat_code", JStr "A1")]))
       (anonymous "POST" "{}" ∅) (world_of state1)
     = (Returned validation_error, world_of state1).
Proof. repeat split. Qed.

(** Other bodies on which the hold endpoint ends with an exception: a JSON
    array, and an infinite trip id. *)
Example hold_seat_other_exceptions :
  hold_seat (Core.hold_seat 900) (loads_as (JList []))
    (anonymous "POST" "[]" ∅) (world_of state1)
  = (Raised AttributeError, world_of state1)
  /\ hold_seat (Core.hold_seat 900)
       (loads_as (JDict [("trip_id", JFloat (FInf false)); ("seat_code", JStr "A1")]))
       (anonymous "POST" "{}" ∅) (world_of state1)
     = (Raised OverflowError, world_of state1).
Proof. split; reflexivity. Qed.

(** The sweep at time 100 releases [A3], whose deadline was 50. *)
Example expire_holds_sample :
  fst (Core.expire_holds state1) = 1
  /\ Core.seats (snd (Core.expire_holds state1))
     = [seat "A1" Models.HOLD (Some "tok1") (Some 900);
        seat "A2" Models.AVAILABLE None None;
        Core.to_available 100 (seat "A3" Models.HOLD (Some "tok9") (Some 50))].
Proof. split; reflexivity. Qed.

(** An authorized finalization of the held seat [A1]. *)
Example finalize_sample :
  let run := admin_generate_booking_code Core.book
               (loads_as (JDict [("trip_id", JInt 1);
                                 ("seat_codes", JList [JStr " a1 "; JStr " "])]))
               repr_blank (SetStr "k")
               (anonymous "POST" "{}" {[ "x-admin-key" := "k" ]}) (world_of state1) in
  calls (snd run) = [call_generate_booking_code 1 ["A1"]]
  /\ Core.eligible 100 1 (Core.seats (db (snd run))) "A1" = false
  /\ find (Core.is_seat 1 "A1") (Core.seats (db (snd run)))
     = Some (Core.to_booked 100 "BK-000000"
               (seat "A1" Models.HOLD (Some "tok1") (Some 900))).
Proof. repeat split. Qed.

End Checks.

(* ================================================================== *)
(** * Further properties of the request layer *)
(* ================================================================== *)

(** ** Trimming and case *)

Section Trimming.

Import Text.

Lemma is_space_upper_char (c : ascii) : is_space (upper_char c) = is_space c.
Proof. destruct c as [[] [] [] [] [] [] [] []]; reflexivity. Qed.

Lemma upper_char_idem (c : ascii) : upper_char (upper_char c) = upper_char c.
Proof. destruct c as [[] [] [] [] [] [] [] []]; reflexivity. Qed.

Lemma upper_idem (s : string) : upper (upper s) = upper s.
Proof.
  induction s as [|c s IH]; [reflexivity |].
  cbn [upper]. now rewrite upper_char_idem, IH.
Qed.

Lemma lstrip_upper (s : string) : lstrip (upper s) = upper (lstrip s).
Proof.
  induction s as [|c s IH]; [reflexivity |].
  cbn [upper lstrip]. rewrite is_space_upper_char.
  destruct (is_space c); [exact IH | reflexivity].
Qed.

Lemma rstrip_upper (s : string) : rstrip (upper s) = upper (rstrip s).
Proof.
  induction s as [|c s IH]; [reflexivity |].
  cbn [upper rstrip]. rewrite IH, is_space_upper_char.
  destruct (rstrip s); cbn [upper]; [destruct (is_space c) |]; reflexivity.
Qed.

Lemma strip_upper (s : string) : strip (upper s) = upper (strip s).
Proof. unfold strip. now rewrite lstrip_upper, rstrip_upper. Qed.

Lemma rstrip_cons (c : ascii) (s : string) :
  rstrip (String c s)
  = match rstrip s with
    | EmptyString => if is_space c then EmptyString else String c EmptyString
    | String d r => String c (String d r)
    end.
Proof. reflexivity. Qed.

Lemma rstrip_idem (s : string) : rstrip (rstrip s) = rstrip s.
Proof.
  induction s as [|c s IH]; [reflexivity |].
  rewrite rstrip_cons. destruct (rstrip s) as [|d r] eqn:E.
  - destruct (is_space c) eqn:Hc; [reflexivity |]. cbn [rstrip]. now rewrite Hc.
  - rewrite rstrip_cons, IH. reflexivity.
Qed.

Local Abbreviation starts_clean := Contract.starts_clean.

Lemma lstrip_starts_clean (s : string) : starts_clean (lstrip s) = true.
Proof.
  induction s as [|c s IH]; [reflexivity |]. cbn [lstrip].
  destruct (is_space c) eqn:Hc; [exact IH |].
  cbn [Contract.starts_clean]. now rewrite Hc.
Qed.

Lemma rstrip_starts_clean (s : string) :
  starts_clean s = true -> starts_clean (rstrip s) = true.
Proof.
  destruct s as [|c s]; [reflexivity |]. rewrite rstrip_cons.
  unfold Contract.starts_clean at 1. intros Hc.
  destruct (rstrip s); [| exact Hc].
  apply negb_true_iff in Hc. rewrite Hc. cbn. now rewrite Hc.
Qed.

Lemma lstrip_clean (s : string) : starts_clean s = true -> lstrip s = s.
Proof.
  destruct s as [|c s]; [reflexivity |]. cbn [Contract.starts_clean lstrip].
  intros Hc. apply negb_true_iff in Hc. now rewrite Hc.
Qed.

(** [strip] leaves nothing for a second [strip]. *)
Lemma strip_idem (s : string) : strip (strip s) = strip s.
Proof.
  unfold strip.
  rewrite (lstrip_clean (rstrip (lstrip s))).
  - apply rstrip_idem.
  - apply rstrip_starts_clean, lstrip_starts_clean.
Qed.

Lemma json_strip_trimmed (v : Json.value) (s : string) :
  Json.strip v = inr s -> strip s = s.
Proof.
  destruct v; try discriminate. cbn. intros E. injection E as <-. apply strip_idem.
Qed.

(** What the views pass on as a code: trimmed, then upper-cased. *)
Lemma cleaned_code_like (s : string) :
  nonempty (upper (strip s)) = true -> Contract.code_like (upper (strip s)).
Proof.
  intros Hn. repeat split.
  - exact Hn.
  - now rewrite strip_upper, strip_idem.
  - apply upper_idem.
Qed.

End Trimming.

(** ** What a run of a view does *)

Section Behaviour.

Import Views Json Contract.

Context {DB : Type}.
Variable site : Urls.Site DB.
Variable request : HttpRequest.
Variable w : World DB.

Local Abbreviation behaves v := (Contract.behaves site v request w).

Lemma ok_reply (d : option value) (m : string) : json_reply (_ok d m 200).
Proof. left. destruct d; split; reflexivity. Qed.

Lemma err_reply (d : option value) (m : string) (status : Z) :
  In status [400; 403; 404; 409] -> json_reply (_err m status d).
Proof. intros Hin. right. exists status. destruct d; repeat split; assumption. Qed.

Lemma json_body_error (body : value) (r : Response) :
  _json_body (Urls.json_loads site) request = (body, Some r) ->
  r = _err "JSON body tidak valid." 400 None.
Proof.
  unfold _json_body. destruct (negb _); [discriminate |].
  destruct (Urls.json_loads site (Views.body request)); [discriminate |].
  intros E. now injection E as _ <-.
Qed.

(** A run that answers without touching the world. *)
Lemma behaves_same (v : Urls.View) (r : Response) :
  well_formed_reply r -> behaves v (Returned r, w).
Proof.
  intros Hr. exists []. cbn [fst snd app].
  split; [reflexivity |]. split; [constructor |]. split; [cbn; lia |].
  split; [intros c [] |]. split; [reflexivity |]. split; [now left | exact Hr].
Qed.

(** A run that ends with an exception before anything was done. *)
Lemma behaves_raise (v : Urls.View) (e : exn) :
  reads_body v = true -> e = AttributeError \/ e = OverflowError ->
  behaves v (Raised e, w).
Proof.
  intros Hv He. exists []. cbn [fst snd app].
  split; [reflexivity |]. split; [constructor |]. split; [cbn; lia |].
  split; [intros c [] |]. split; [reflexivity |]. split; [now left | now repeat split].
Qed.

Lemma get_or_create_facts :
  exists t w1,
    _get_or_create_hold_token request w = (Returned t, w1)
    /\ Text.nonempty t = true
    /\ calls w1 = calls w /\ db w1 = db w
    /\ (w1 = w \/ has_token w = false /\ w1 = with_fresh_token w).
Proof.
  destruct (has_token w) eqn:Hn.
  - unfold has_token in Hn.
    destruct (session w !! SESSION_KEY) as [t|] eqn:Hs; [| discriminate].
    exists t, w. rewrite (hold_token_stored request w t Hs Hn). auto 6.
  - exists (fst (Secrets.token_hex 16 (entropy w))), (with_fresh_token w).
    rewrite (hold_token_fresh request w Hn).
    split; [reflexivity |]. split; [apply token_hex_16_shape |].
    split; [reflexivity |]. split; [reflexivity |]. right. now split.
Qed.

(** The common end of the session views. *)
Lemma behaves_token_call (v : Urls.View) (mk : string -> Call)
    (f : string -> DB -> ServiceResult * DB) :
  uses_hold_token v = true ->
  (forall tok, Text.nonempty tok = true ->
               valid_call (mk tok) /\ is_booking_call (mk tok) = false) ->
  behaves v
    (bind (_get_or_create_hold_token request)
       (fun tok =>
          bind (invoke (mk tok) (f tok))
            (fun res => if negb (ok res)
                        then ret (_err (message res) 409 (data res))
                        else ret (_ok (data res) (message res) 200))) w).
Proof.
  intros Hv Hmk.
  destruct get_or_create_facts as (t & w1 & E & Ht & Hc & Hd & Hw1).
  destruct (Hmk t Ht) as [Hvalid Hnb].
  unfold bind at 1. rewrite E. unfold bind, invoke.
  destruct (f t (db w1)) as [res d]. exists [mk t].
  assert (forall o, (fst o = Returned (_err (message res) 409 (data res))
                     \/ fst o = Returned (_ok (data res) (message res) 200)) ->
                    snd o = {| db := d; session := session w1;
                               entropy := entropy w1; calls := mk t :: calls w1 |} ->
                    calls (snd o) = [mk t] ++ calls w
                    /\ Forall valid_call [mk t]
                    /\ (length [mk t] <= 2)%nat
                    /\ (forall c, In c [mk t] -> is_booking_call c = true ->
                          admin_only v = true
                          /\ _is_admin_request (Urls.ADMIN_API_KEY site) request = true)
                    /\ ([mk t] = [] -> snd o = w)
                    /\ (session (snd o) = session w /\ entropy (snd o) = entropy w
                        \/ uses_hold_token v = true /\ has_token w = false
                           /\ session (snd o) = session (with_fresh_token w)
                           /\ entropy (snd o) = entropy (with_fresh_token w)
                           /\ [mk t] <> [])
                    /\ match fst o with
                       | Returned r => well_formed_reply r
                       | Raised e =>
                           snd o = w /\ reads_body v = true
                           /\ (e = AttributeError \/ e = OverflowError)
                       end) as Hall.
  { intros o Ho ->. cbn [calls session entropy]. rewrite Hc.
    split; [reflexivity |]. split; [now constructor |]. split; [cbn; lia |].
    split; [intros c [<- | []] Hb; congruence |].
    split; [discriminate |]. split.
    - destruct Hw1 as [-> | [Hn ->]]; [now left | right]. now repeat split.
    - destruct Ho as [-> | ->]; left; [apply err_reply; cbn; auto | apply ok_reply]. }
  destruct (negb (ok res)); apply Hall; cbn; auto.
Qed.

(** The end of an admin view: one call, then the reply. *)
Lemma behaves_admin_call (v : Urls.View) (c : Call) (f : DB -> ServiceResult * DB) :
  admin_only v = true ->
  _is_admin_request (Urls.ADMIN_API_KEY site) request = true ->
  valid_call c ->
  behaves v
    (bind (invoke c f)
       (fun res => if negb (ok res)
                   then ret (_err (message res) 409 (data res))
                   else ret (_ok (data res) (message res) 200)) w).
Proof.
  intros Hv Hadm Hvalid. unfold bind, invoke.
  destruct (f (db w)) as [res d]. exists [c].
  destruct (negb (ok res)); cbn [fst snd ret calls session entropy app];
    (split; [reflexivity |]; split; [now constructor |]; split; [cbn; lia |];
     split; [intros c' [<- | []] _; now split |];
     split; [discriminate |]; split; [now left |]; left);
    [apply err_reply; cbn; auto | apply ok_reply].
Qed.

End Behaviour.

Section ViewByView.

Import Views Json Contract.

Context {DB : Type}.
Variable site : Urls.Site DB.
Variable request : HttpRequest.
Variable w : World DB.

Local Abbreviation behaves v := (Contract.behaves site v request w).

Lemma get_raises (b : value) (k : string) (e : exn) :
  get b k = inl e -> e = AttributeError.
Proof. destruct b; cbn; congruence. Qed.

Lemma strip_raises (v : value) (e : exn) :
  Json.strip v = inl e -> e = AttributeError.
Proof. destruct v; cbn; congruence. Qed.

Lemma clean_codes_like (repr : value -> string) (items : list value) :
  Forall code_like
    (map (fun c => Text.upper (Text.strip (py_str repr c)))
         (List.filter (fun c => Text.nonempty (Text.strip (py_str repr c))) items)).
Proof.
  induction items as [|c items IH]; [constructor |]. cbn [List.filter].
  destruct (Text.nonempty (Text.strip (py_str repr c))) eqn:Hn; [| exact IH].
  cbn [map]. constructor; [| exact IH].
  apply cleaned_code_like. now rewrite upper_nonempty.
Qed.

Ltac refuse :=
  apply behaves_same; first
    [ right; eexists; reflexivity
    | left; apply err_reply; cbn; auto 6
    | left; apply ok_reply ].

Ltac throw :=
  apply behaves_raise;
  [ reflexivity
  | first [ left; eapply get_raises; eassumption
          | left; eapply strip_raises; eassumption
          | left; reflexivity
          | right; reflexivity ] ].

Ltac pure_step :=
  match goal with
  | |- Contract.behaves _ _ _ ?u (bind (lift ?x) _ ?u) =>
      unfold bind at 1; destruct x eqn:?; cbn [lift raise ret]
  | |- Contract.behaves _ _ _ ?u (bind (_to_int ?v _) _ ?u) =>
      unfold bind at 1, _to_int; destruct (py_int v) as [[]|] eqn:?;
      cbn [raise ret]
  | |- Contract.behaves _ _ _ ?u (Raised _, ?u) => throw
  | |- Contract.behaves _ _ _ ?u (raise _ ?u) => unfold raise; throw
  end.

Ltac open_view :=
  unfold require_http_methods;
  destruct (existsb _ _); [| refuse].

Ltac read_body :=
  match goal with
  | |- context [_json_body ?l ?r] =>
      let Hb := fresh "Hb" in
      destruct (_json_body l r) as [body [reply|]] eqn:Hb;
      [ apply json_body_error in Hb as ->; refuse |]
  end.

Ltac validated H :=
  apply orb_false_elim in H;
  repeat match goal with
         | H' : _ || _ = false |- _ => apply orb_false_elim in H' as [? ?]
         | H' : _ /\ _ |- _ => destruct H'
         end.

Ltac tidy :=
  first
    [ assumption
    | apply upper_idem
    | rewrite strip_upper; erewrite json_strip_trimmed by eassumption; reflexivity
    | eapply json_strip_trimmed; eassumption
    | reflexivity ].

Ltac check_fields :=
  match goal with
  | |- context [if ?c then _ else _] =>
      let Hc := fresh "Hc" in
      destruct c eqn:Hc; [refuse |];
      repeat match goal with
             | H : _ || _ = false |- _ => apply orb_false_elim in H as [? ?]
             end;
      repeat match goal with
             | H : (_ =? 0) = false |- _ => apply Z.eqb_neq in H
             | H : negb _ = false |- _ => apply negb_false_iff in H
             end
  end.

Lemma behaves_hold_seat :
  behaves Urls.views_hold_seat
    (Views.hold_seat (Urls.hold_seat site) (Urls.json_loads site) request w).
Proof.
  unfold Views.hold_seat. open_view. read_body. repeat pure_step.
  all: check_fields.
  all: apply (behaves_token_call site request w Urls.views_hold_seat
                (call_hold_seat _ _)); [reflexivity |].
  all: intros tok Htok; split; [| reflexivity]; repeat split; tidy.
Qed.

Lemma behaves_release_seat :
  behaves Urls.views_release_seat
    (Views.release_seat (Urls.release_seat site) (Urls.json_loads site) request w).
Proof.
  unfold Views.release_seat. open_view. read_body. repeat pure_step.
  all: check_fields.
  all: apply (behaves_token_call site request w Urls.views_release_seat
                (call_release_seat _ _)); [reflexivity |].
  all: intros tok Htok; split; [| reflexivity]; repeat split; tidy.
Qed.

Lemma behaves_attach_contact :
  behaves Urls.views_attach_contact
    (Views.attach_contact (Urls.attach_contact_and_generate_claim site)
       (Urls.json_loads site) request w).
Proof.
  unfold Views.attach_contact. open_view. read_body. repeat pure_step.
  all: check_fields.
  all: apply (behaves_token_call site request w Urls.views_attach_contact
                (fun t => call_attach_contact _ t _ _)
                (fun t => Urls.attach_contact_and_generate_claim site _ t _ _));
    [reflexivity |].
  all: intros tok Htok; split; [| reflexivity]; repeat split; tidy.
Qed.

Lemma behaves_claim_hold :
  behaves Urls.views_claim_hold
    (Views.claim_hold (Urls.claim_hold_by_code site) (Urls.json_loads site) request w).
Proof.
  unfold Views.claim_hold. open_view. read_body. repeat pure_step.
  all: check_fields.
  all: apply (behaves_token_call site request w Urls.views_claim_hold
                (fun t => call_claim_hold _ _ t _)
                (fun t => Urls.claim_hold_by_code site _ _ t _));
    [reflexivity |].
  all: intros tok Htok; split; [| reflexivity]; cbn [valid_call].
  all: match goal with
       | |- context [if Text.nonempty ?a then _ else _] =>
           destruct (Text.nonempty a) eqn:Hwa
       end.
  all: repeat split; tidy.
Qed.

Lemma behaves_admin_generate :
  behaves Urls.views_admin_generate_booking_code
    (Views.admin_generate_booking_code (Urls.admin_generate_booking_code_and_book site)
       (Urls.json_loads site) (Urls.repr site) (Urls.ADMIN_API_KEY site) request w).
Proof.
  unfold Views.admin_generate_booking_code. open_view.
  destruct (_is_admin_request (Urls.ADMIN_API_KEY site) request) eqn:Hadm;
    cbn [negb]; [| refuse].
  read_body. repeat pure_step.
  all: check_fields.
  all: match goal with
       | |- context [if negb ?c then _ else _] =>
           destruct c eqn:Hne; cbn [negb]; [| refuse]
       end.
  all: apply (behaves_admin_call site request w
                Urls.views_admin_generate_booking_code);
    [reflexivity | exact Hadm |].
  all: repeat split; try assumption;
    [ intros E; rewrite E in Hne; discriminate | apply clean_codes_like ].
Qed.

Lemma behaves_admin_confirm :
  behaves Urls.views_admin_confirm_booked
    (Views.admin_confirm_booked (Urls.confirm_booked_by_admin site)
       (Urls.json_loads site) (Urls.repr site) (Urls.ADMIN_API_KEY site) request w).
Proof.
  unfold Views.admin_confirm_booked. open_view.
  destruct (_is_admin_request (Urls.ADMIN_API_KEY site) request) eqn:Hadm;
    cbn [negb]; [| refuse].
  read_body. repeat pure_step.
  all: check_fields.
  all: match goal with
       | |- context [if negb ?c then _ else _] =>
           destruct c eqn:Hne; cbn [negb]; [| refuse]
       end.
  all: apply (behaves_admin_call site request w Urls.views_admin_confirm_booked);
    [reflexivity | exact Hadm |].
  all: repeat split; try assumption;
    [ intros E; rewrite E in Hne; discriminate | apply clean_codes_like ].
Qed.

(** A view that makes one call that needs no validation and answers. *)
Lemma behaves_plain_call (v : Urls.View) {A : Type} (c : Call) (f : DB -> A * DB)
    (k : A -> M DB Response) :
  valid_call c -> is_booking_call c = false ->
  (forall a u, exists r, k a u = (Returned r, u) /\ well_formed_reply r) ->
  behaves v (bind (invoke c f) k w).
Proof.
  intros Hvalid Hnb Hk. unfold bind, invoke.
  destruct (f (db w)) as [a d].
  destruct (Hk a {| db := d; session := session w; entropy := entropy w;
                    calls := c :: calls w |}) as (r & -> & Hr).
  exists [c]. cbn [fst snd calls session entropy app].
  split; [reflexivity |]. split; [now constructor |]. split; [cbn; lia |].
  split; [intros c' [<- | []] Hb; congruence |].
  split; [discriminate |]. split; [now left | exact Hr].
Qed.

Lemma behaves_seat_map (trip_id : Z) :
  behaves Urls.views_seat_map (Views.seat_map (Urls.get_seat_map site) trip_id request w).
Proof.
  unfold Views.seat_map. open_view.
  apply behaves_plain_call; [exact I | reflexivity |].
  intros res u. destruct (negb (ok res)); eexists; (split; [reflexivity |]); left;
    [apply err_reply; cbn; auto | apply ok_reply].
Qed.

Lemma behaves_expire_now :
  behaves Urls.views_expire_now (Views.expire_now (Urls.expire_holds site) request w).
Proof.
  unfold Views.expire_now. open_view.
  apply behaves_plain_call; [exact I | reflexivity |].
  intros n u. eexists. split; [reflexivity |]. left. apply ok_reply.
Qed.

Lemma behaves_trips_list :
  behaves Urls.views_trips_list
    (Views.trips_list (Urls.expire_holds site) (Urls.list_trips site)
       (Urls.isoformat site) (Urls.build_absolute_uri site) request w).
Proof.
  unfold Views.trips_list. open_view. unfold bind, invoke, ret.
  destruct (Urls.expire_holds site (db w)) as [n d1]. cbn [db].
  destruct (Urls.list_trips site d1) as [trips d2].
  exists [call_list_trips; call_expire_holds].
  cbn [fst snd calls session entropy app].
  split; [reflexivity |]. split; [repeat constructor |]. split; [cbn; lia |].
  split; [intros c [<- | [<- | []]]; discriminate |].
  split; [discriminate |]. split; [now left |].
  left. left. split; reflexivity.
Qed.

Lemma behaves_health : behaves Urls.views_health (Views.health request w).
Proof. unfold Views.health. open_view. unfold ret. refuse. Qed.

Lemma behaves_csrf : behaves Urls.views_csrf (Views.csrf request w).
Proof. unfold Views.csrf. open_view. unfold ret. refuse. Qed.

(** Every view, on every request and world. *)
Lemma view_behaves (v : Urls.View) (kwargs : list (string * Z)) :
  behaves v (Urls.view_function site v kwargs request w).
Proof.
  destruct v; cbn [Urls.view_function].
  - apply behaves_health.
  - apply behaves_csrf.
  - apply behaves_trips_list.
  - apply behaves_seat_map.
  - apply behaves_hold_seat.
  - apply behaves_release_seat.
  - apply behaves_attach_contact.
  - apply behaves_claim_hold.
  - apply behaves_admin_generate.
  - apply behaves_admin_confirm.
  - apply behaves_expire_now.
Qed.

End ViewByView.



(** X2: a view replies with a JSON payload whose [ok] flag agrees with the
    status (200 with [true]; 400, 403, 404 or 409 with [false]) or with
    405; no other status is produced. *)
Theorem replies_carry_matching_ok_flag {DB : Type}
    (site : Urls.Site DB) (v : Urls.View) (kwargs : list (string * Z))
    (request : Views.HttpRequest) (w : Views.World DB) :
  match fst (Urls.view_function site v kwargs request w) with
  | Views.Returned r => Contract.well_formed_reply r
  | Views.Raised _ => True
  end.
Proof.
  destruct (view_behaves site request w v kwargs)
    as (new & _ & _ & _ & _ & _ & _ & Hr).
  destruct (fst _); [exact Hr | exact I].
Qed.







(** X6: no request path leads to a booking call without admin rights: for
    a request that is not an admin request, whatever URL it is sent to, the
    booking calls in the log are those that were there before. *)
Theorem booking_needs_admin_on_every_path {DB : Type}
    (site : Urls.Site DB) (path : string)
    (request : Views.HttpRequest) (w : Views.World DB)
    (run : Views.Outcome Views.Response * Views.World DB) :
  Urls.dispatch site path request w = Some run ->
  Views._is_admin_request (Urls.ADMIN_API_KEY site) request = false ->
  List.filter Contract.is_booking_call (Views.calls (snd run))
  = List.filter Contract.is_booking_call (Views.calls w).
Proof.
  unfold Urls.dispatch. intros Hd Hno.
  destruct (Urls.resolve path) as [[v kwargs]|]; [| discriminate].
  injection Hd as <-.
  destruct (view_behaves site request w v kwargs)
    as (new & Hcalls & _ & _ & Hbook & _).
  rewrite Hcalls, List.filter_app.
  assert (List.filter Contract.is_booking_call new = []) as ->; [| reflexivity].
  assert (forall c, In c new -> Contract.is_booking_call c = false) as Hnone.
  { intros c Hin. destruct (Contract.is_booking_call c) eqn:Hb; [| reflexivity].
    destruct (Hbook c Hin Hb) as [_ Hadm]. congruence. }
  clear Hcalls Hbook. induction new as [|c new IH]; [reflexivity |].
  cbn [List.filter]. rewrite (Hnone c (or_introl eq_refl)).
  apply IH. intros c' Hin. apply Hnone. now right.
Qed.

Lemma booking_needs_admin_on_every_path_witness :
  Urls.dispatch (Demo.site Samples.loads_nothing (Views.SetStr "k"))
    "/api/admin/confirm-booked/"
    (Samples.anonymous "POST" "" {[ "x-admin-key" := "guess" ]})
    (Samples.world_of Samples.state1)
  = Some (Views.Returned Views.forbidden, Samples.world_of Samples.state1)
  /\ List.filter Contract.is_booking_call
       (Views.calls (Samples.world_of Samples.state1)) = [].
Proof.
  assert (Urls.dispatch (Demo.site Samples.loads_nothing (Views.SetStr "k"))
            "/api/admin/confirm-booked/"
            (Samples.anonymous "POST" "" {[ "x-admin-key" := "guess" ]})
            (Samples.world_of Samples.state1)
          = Some (Views.Returned Views.forbidden, Samples.world_of Samples.state1))
    as Hd by reflexivity.
  split; [exact Hd |].
  assert (Views._is_admin_request (Views.SetStr "k")
            (Samples.anonymous "POST" "" {[ "x-admin-key" := "guess" ]}) = false)
    as Hno by reflexivity.
  rewrite <- (booking_needs_admin_on_every_path _ _ _ _ _ Hd Hno). reflexivity.
Defined.

(** ** Methods and bodies *)



Section Bodies.

Import Views Json.

Context {DB : Type}.
Variable site : Urls.Site DB.
Variable request : HttpRequest.
Variable w : World DB.

Hypothesis is_post : method request = "POST".





End Bodies.



(** ** Numbers, keys and the legacy endpoint *)



(** X11: the header is trimmed, the configured key is not: a key with
    white space at either end can be matched by no header, so with such a
    key only staff sessions are admin requests. *)
Theorem padded_admin_key_never_matches (s : string) (request : Views.HttpRequest) :
  Text.strip s <> s ->
  Views.staff_session request = false ->
  Views._is_admin_request (Views.SetStr s) request = false.
Proof.
  intros Hpad Hstaff.
  rewrite is_admin_request_spec, Hstaff. cbn [orb].
  apply andb_false_iff. right. apply String.eqb_neq.
  intros Heq. apply Hpad. rewrite <- Heq. apply strip_idem.
Qed.

Lemma padded_admin_key_never_matches_witness :
  Views._is_admin_request (Views.SetStr "k ")
    (Samples.anonymous "POST" "" {[ "x-admin-key" := "k " ]}) = false.
Proof.
  apply (padded_admin_key_never_matches "k "
           (Samples.anonymous "POST" "" {[ "x-admin-key" := "k " ]}));
    [discriminate | reflexivity].
Defined.

(** X12: the legacy endpoint [admin_confirm_booked] checks and cleans a
    request exactly as [admin_generate_booking_code] does: given the same
    service function, the two give the same reply and the same database,
    session and entropy, and they make their call, if any, with the same
    trip id and seat codes. *)
Theorem legacy_confirm_validates_like_generate {DB : Type}
    (book : Z -> list string -> DB -> Views.ServiceResult * DB)
    (json_loads : string -> option Json.value) (repr : Json.value -> string)
    (key : Views.Setting) (request : Views.HttpRequest) (w : Views.World DB) :
  let legacy := Views.admin_confirm_booked book json_loads repr key request w in
  let current := Views.admin_generate_booking_code book json_loads repr key request w in
  fst legacy = fst current
  /\ Views.db (snd legacy) = Views.db (snd current)
  /\ Views.session (snd legacy) = Views.session (snd current)
  /\ Views.entropy (snd legacy) = Views.entropy (snd current)
  /\ (snd legacy = w /\ snd current = w
      \/ exists trip_id seat_codes,
           Views.calls (snd legacy)
           = Views.call_confirm_booked trip_id seat_codes :: Views.calls w
           /\ Views.calls (snd current)
              = Views.call_generate_booking_code trip_id seat_codes :: Views.calls w).
Proof.
  cbv zeta.
  unfold Views.admin_confirm_booked, Views.admin_generate_booking_code,
    Views.require_http_methods, Views.bind, Views.lift, Views._to_int,
    Views.invoke, Views.ret, Views.raise.
  cbv beta iota.
  repeat match goal with
         | |- context [match ?x with _ => _ end] =>
             lazymatch x with
             | context [match _ with _ => _ end] => fail
             | _ => destruct x; cbv beta iota
             end
         end.
  all: cbn; repeat split; first [left; split; reflexivity | right; eauto].
Qed.

(** ** Tokens and codes *)

Section TokensAndCodes.

Import Text Secrets Models.

Lemma unhexlify_cons (b : byte) (r : string) :
  Contract.unhexlify (hex_of_byte b +:+ r)
  = match Contract.unhexlify r with
    | Some bs => Some (b :: bs)
    | None => None
    end.
Proof. destruct b; cbn; destruct (Contract.unhexlify r); reflexivity. Qed.

(** Decoding the hexadecimal form gives the bytes back. *)
Lemma unhexlify_hexlify (bs : list byte) :
  Contract.unhexlify (hexlify bs) = Some bs.
Proof.
  induction bs as [|b bs IH]; [reflexivity |].
  cbn [hexlify]. now rewrite unhexlify_cons, IH.
Qed.

Lemma booking_code_of_three (b0 b1 b2 : byte) :
  booking_code_of_bytes [b0; b1; b2]
  = "BK-" +:+ upper (hex_of_byte b0) +:+ upper (hex_of_byte b1)
    +:+ upper (hex_of_byte b2).
Proof.
  unfold booking_code_of_bytes. cbn [hexlify]. rewrite !upper_app.
  destruct (upper_hex_of_byte_shape b0) as (c0 & d0 & E0 & _).
  destruct (upper_hex_of_byte_shape b1) as (c1 & d1 & E1 & _).
  destruct (upper_hex_of_byte_shape b2) as (c2 & d2 & E2 & _).
  rewrite E0, E1, E2. reflexivity.
Qed.

Lemma booking_code_of_three_inj (a0 a1 a2 b0 b1 b2 : byte) :
  booking_code_of_bytes [a0; a1; a2] = booking_code_of_bytes [b0; b1; b2] ->
  [a0; a1; a2] = [b0; b1; b2].
Proof.
  rewrite !booking_code_of_three. intros E.
  assert (upper (hex_of_byte a0) = upper (hex_of_byte b0)
          /\ upper (hex_of_byte a1) = upper (hex_of_byte b1)
          /\ upper (hex_of_byte a2) = upper (hex_of_byte b2)) as (E0 & E1 & E2).
  { revert E.
    destruct (upper_hex_of_byte_shape a0) as (c0 & d0 & -> & _).
    destruct (upper_hex_of_byte_shape a1) as (c1 & d1 & -> & _).
    destruct (upper_hex_of_byte_shape a2) as (c2 & d2 & -> & _).
    destruct (upper_hex_of_byte_shape b0) as (c0' & d0' & -> & _).
    destruct (upper_hex_of_byte_shape b1) as (c1' & d1' & -> & _).
    destruct (upper_hex_of_byte_shape b2) as (c2' & d2' & -> & _).
    cbn. intros E. injection E as -> -> -> -> -> ->. repeat split. }
  apply upper_hex_of_byte_inj in E0, E1, E2. now subst.
Qed.

End TokensAndCodes.

(** X13: a fresh hold token is the hexadecimal form of the 16 bytes drawn
    from the entropy source, and decoding it gives those bytes back: two
    sessions get the same fresh token only when the source delivered the
    same 16 bytes to both. *)
Theorem fresh_hold_token_decodes_to_its_entropy {DB : Type}
    (request request' : Views.HttpRequest) (w w' : Views.World DB) :
  Views.has_token w = false ->
  exists t,
    fst (Views._get_or_create_hold_token request w) = Views.Returned t
    /\ Contract.unhexlify t = Some (fst (Secrets.token_bytes 16 (Views.entropy w)))
    /\ Secrets.consumed (Views.entropy (snd (Views._get_or_create_hold_token request w)))
       = (Secrets.consumed (Views.entropy w) + 16)%nat
    /\ (Views.has_token w' = false ->
        fst (Views._get_or_create_hold_token request' w') = Views.Returned t ->
        fst (Secrets.token_bytes 16 (Views.entropy w'))
        = fst (Secrets.token_bytes 16 (Views.entropy w))).
Proof.
  intros Hn.
  exists (fst (Secrets.token_hex 16 (Views.entropy w))).
  rewrite (hold_token_fresh request w Hn). cbn [fst snd].
  assert (forall e, Contract.unhexlify (fst (Secrets.token_hex 16 e))
                    = Some (fst (Secrets.token_bytes 16 e))) as Hdec.
  { intros e. unfold Secrets.token_hex.
    destruct (Secrets.token_bytes 16 e) as [bs e']. apply unhexlify_hexlify. }
  split; [reflexivity |]. split; [apply Hdec |]. split; [reflexivity |].
  intros Hn' E. rewrite (hold_token_fresh request' w' Hn') in E. cbn [fst] in E.
  pose proof (Hdec (Views.entropy w)) as H1.
  pose proof (Hdec (Views.entropy w')) as H2.
  remember (fst (Secrets.token_hex 16 (Views.entropy w))) as t1.
  remember (fst (Secrets.token_hex 16 (Views.entropy w'))) as t2.
  assert (t2 = t1) as -> by congruence. congruence.
Qed.

Lemma fresh_hold_token_decodes_to_its_entropy_witness :
  exists t,
    fst (Views._get_or_create_hold_token (Samples.anonymous "POST" "" ∅)
           (Samples.world_of Samples.state1)) = Views.Returned t
    /\ Contract.unhexlify t = Some (repeat x00 16).
Proof.
  destruct (fresh_hold_token_decodes_to_its_entropy
              (Samples.anonymous "POST" "" ∅) (Samples.anonymous "POST" "" ∅)
              (Samples.world_of Samples.state1) (Samples.world_of Samples.state1)
              eq_refl) as (t & Ht & Hdec & _).
  exists t. split; [exact Ht | exact Hdec].
Defined.

(** X14: what the code generates fits the column it is stored in: a fresh
    hold token has 32 characters ([hold_token], 64), a claim code 9
    ([claim_code], 20), a booking code 9 ([booking_code], 30), and every
    status value fits [status] (12). *)
Theorem generated_values_fit_their_columns {DB : Type}
    (request : Views.HttpRequest) (w : Views.World DB) (e : Secrets.Entropy)
    (x : Models.Status) :
  (forall t, Views.has_token w = false ->
             fst (Views._get_or_create_hold_token request w) = Views.Returned t ->
             (String.length t <= Fields.hold_token_max_length)%nat)
  /\ (String.length (fst (Models.generate_claim_code e))
      <= Fields.claim_code_max_length)%nat
  /\ (String.length (fst (Models.generate_booking_code e))
      <= Fields.booking_code_max_length)%nat
  /\ (String.length (Fields.status_value x) <= Fields.status_max_length)%nat.
Proof.
  split; [| split; [| split]].
  - intros t Hn Ht. rewrite (hold_token_fresh request w Hn) in Ht. cbn [fst] in Ht.
    destruct (token_hex_16_shape (Views.entropy w)) as [L _].
    remember (fst (Secrets.token_hex 16 (Views.entropy w))) as t1.
    assert (t = t1) as -> by congruence.
    rewrite L. unfold Fields.hold_token_max_length. lia.
  - rewrite generate_claim_code_bytes. cbn. unfold Fields.claim_code_max_length. lia.
  - rewrite generate_booking_code_bytes. cbn.
    unfold Fields.booking_code_max_length. lia.
  - destruct x; cbn; unfold Fields.status_max_length; lia.
Qed.

(** X15: a booking code determines the three bytes it was made from: two
    calls of [generate_booking_code] give the same code only when the
    entropy source delivered the same three bytes. *)
Theorem booking_code_determines_its_bytes (e e' : Secrets.Entropy) :
  fst (Models.generate_booking_code e) = fst (Models.generate_booking_code e') ->
  fst (Secrets.token_bytes 3 e) = fst (Secrets.token_bytes 3 e').
Proof.
  rewrite !generate_booking_code_bytes. cbn [fst snd Secrets.token_bytes seq map].
  apply booking_code_of_three_inj.
Qed.

Lemma booking_code_determines_its_bytes_witness :
  fst (Secrets.token_bytes 3 Samples.zeros)
  = fst (Secrets.token_bytes 3
           {| Secrets.source := fun _ => x00; Secrets.consumed := 7 |}).
Proof.
  apply (booking_code_determines_its_bytes Samples.zeros
           {| Secrets.source := fun _ => x00; Secrets.consumed := 7 |}).
  reflexivity.
Defined.

(** X16: a claim code is never a booking code: whatever bytes are drawn,
    [generate_claim_code] and [generate_booking_code] give different
    strings, so the two kinds of code cannot be taken for one another. *)
Theorem claim_code_is_never_a_booking_code (e e' : Secrets.Entropy) :
  fst (Models.generate_claim_code e) <> fst (Models.generate_booking_code e').
Proof.
  rewrite generate_claim_code_bytes, generate_booking_code_bytes.
  cbn [fst snd Secrets.token_bytes seq map].
  rewrite claim_code_of_four, booking_code_of_three.
  destruct (upper_hex_of_byte_shape (Secrets.source e (Secrets.consumed e)))
    as (c & d & -> & _ & Hd).
  cbn. intros E. injection E as _ ->. discriminate Hd.
Qed.

(** ** Routing *)

Section Routing.

Import Urls.

Lemma after_prefix_app (p s s' : string) :
  after_prefix p s = Some s' -> s = p +:+ s'.
Proof.
  revert s. induction p as [|a p IH]; intros s; cbn [after_prefix].
  - intros E. now injection E as ->.
  - destruct s as [|b s]; [discriminate |].
    destruct (Ascii.eqb a b) eqn:Hab; [| discriminate].
    apply Ascii.eqb_eq in Hab as ->. intros E. cbn. f_equal. now apply IH.
Qed.

Lemma append_empty (s : string) : s +:+ "" = s.
Proof. induction s as [|c s IH]; [reflexivity |]. cbn. now rewrite IH. Qed.

(** A route of literal text matches that text and nothing else, and
    captures nothing. *)
Lemma match_literal (text s : string) (kwargs : list (string * Z)) :
  match_route [literal text] s = Some kwargs -> s = text /\ kwargs = [].
Proof.
  cbn [match_route].
  destruct (after_prefix text s) as [s'|] eqn:E; [| discriminate].
  apply after_prefix_app in E as ->.
  destruct s'; [| discriminate]. intros E. injection E as <-.
  now rewrite append_empty.
Qed.

Lemma digit_value_nonneg (c : ascii) :
  Text.is_digit c = true -> 0 <= Json.digit_value c.
Proof.
  unfold Text.is_digit, Json.digit_value. intros H.
  apply andb_true_iff in H as [H _]. apply N.leb_le in H. lia.
Qed.

Lemma int_of_digits_nonneg (d : string) (acc : Z) :
  0 <= acc -> Text.all_chars Text.is_digit d = true -> 0 <= int_of_digits acc d.
Proof.
  revert acc. induction d as [|c d IH]; intros acc Hacc Hd; [exact Hacc |].
  cbn [Text.all_chars] in Hd. apply andb_true_iff in Hd as [Hc Hd].
  cbn [int_of_digits]. apply IH; [| exact Hd].
  pose proof (digit_value_nonneg c Hc). lia.
Qed.

Lemma append_step (t : string) (c : ascii) (s : string) :
  (t +:+ String c "") +:+ s = t +:+ String c s.
Proof. induction t as [|a t IH]; [reflexivity |]. cbn. now rewrite IH. Qed.

(** What the [int] converter hands on is a non-empty run of digits cut off
    the front of the text. *)
Lemma cut_digits_inv {R : Type} (k : string -> string -> option R)
    (s taken : string) (x : R) :
  Text.all_chars Text.is_digit taken = true ->
  cut_digits k taken s = Some x ->
  exists d s', k d s' = Some x /\ taken +:+ s = d +:+ s'
               /\ Text.nonempty d = true
               /\ Text.all_chars Text.is_digit d = true.
Proof.
  revert taken. induction s as [|c s IH]; intros taken Ht; cbn [cut_digits].
  - destruct (Text.nonempty taken) eqn:Hn; [| discriminate]. eauto 7.
  - assert (forall y, (if Text.nonempty taken then k taken (String c s) else None)
                      = Some y ->
                      exists d s', k d s' = Some y
                                   /\ taken +:+ String c s = d +:+ s'
                                   /\ Text.nonempty d = true
                                   /\ Text.all_chars Text.is_digit d = true) as Hhere.
    { intros y. destruct (Text.nonempty taken) eqn:Hn; [| discriminate]. eauto 7. }
    destruct (Text.is_digit c) eqn:Hc; [| apply Hhere].
    destruct (cut_digits k (taken +:+ String c "") s) as [y|] eqn:E; [| apply Hhere].
    intros Hy. injection Hy as ->.
    destruct (IH (taken +:+ String c "")) as (d & s' & Hk & Hcut & Hd);
      [| exact E |].
    + rewrite all_chars_app, Ht. cbn. now rewrite Hc.
    + exists d, s'. rewrite append_step in Hcut. auto.
Qed.

Lemma first_match_sound (patterns : list (list Part * View)) (s : string)
    (v : View) (kwargs : list (string * Z)) :
  first_match patterns s = Some (v, kwargs) ->
  exists i route, patterns !! i = Some (route, v)
                  /\ match_route route s = Some kwargs.
Proof.
  induction patterns as [|[route v'] rest IH]; [discriminate |].
  cbn [first_match]. destruct (match_route route s) as [k|] eqn:E.
  - intros H. injection H as <- <-. exists 0%nat, route. now split.
  - intros H. destruct (IH H) as (i & r & Hi & Hr). exists (S i), r. now split.
Qed.

Lemma first_match_complete (patterns : list (list Part * View)) (s : string)
    (i : nat) (route : list Part) (v : View) (kwargs : list (string * Z)) :
  patterns !! i = Some (route, v) -> match_route route s = Some kwargs ->
  exists j route' v' kwargs',
    (j <= i)%nat /\ patterns !! j = Some (route', v')
    /\ match_route route' s = Some kwargs'
    /\ first_match patterns s = Some (v', kwargs').
Proof.
  revert i. induction patterns as [|[r0 v0] rest IH]; intros i Hi Hm;
    [discriminate |].
  cbn [first_match]. destruct (match_route r0 s) as [k0|] eqn:E0.
  - exists 0%nat, r0, v0, k0. repeat split; [lia | exact E0].
  - destruct i as [|i]; [cbn in Hi; injection Hi as -> ->; congruence |].
    destruct (IH i Hi Hm) as (j & r' & v' & k' & Hle & Hj & Hr & Hf).
    exists (S j), r', v', k'. repeat split; [lia | exact Hj | exact Hr | exact Hf].
Qed.

Ltac pick_pattern i H :=
  destruct i as [|i];
  [ cbn in H; injection H as <- <-
  | cbn in H; first [ discriminate H | pick_pattern i H ] ].

Lemma patterns_disjoint (s : string) (i j : nat)
    (r1 r2 : list Part) (v1 v2 : View) (k1 k2 : list (string * Z)) :
  urlpatterns !! i = Some (r1, v1) -> urlpatterns !! j = Some (r2, v2) ->
  match_route r1 s = Some k1 -> match_route r2 s = Some k2 -> i = j.
Proof.
  intros Hi Hj H1 H2. unfold urlpatterns in Hi, Hj.
  pick_pattern i Hi; pick_pattern j Hj; try reflexivity.
  all: first
    [ apply match_literal in H1 as [-> _]; vm_compute in H2; discriminate H2
    | apply match_literal in H2 as [-> _]; vm_compute in H1; discriminate H1 ].
Qed.

End Routing.

(** X17: the routes are unambiguous: a path resolves to a view exactly
    when one pattern naming that view matches it, whatever the order of the
    patterns, because no path is matched by two patterns; and every view
    function is reached by some path. *)
Theorem routes_are_unambiguous (path : string) (v : Urls.View)
    (kwargs : list (string * Z)) :
  (Urls.resolve path = Some (v, kwargs)
   <-> exists s route,
         path = String "/" s /\ In (route, v) Urls.urlpatterns
         /\ Urls.match_route route s = Some kwargs)
  /\ (forall i j r1 r2 v1 v2 k1 k2 s,
        Urls.urlpatterns !! i = Some (r1, v1) ->
        Urls.urlpatterns !! j = Some (r2, v2) ->
        Urls.match_route r1 s = Some k1 -> Urls.match_route r2 s = Some k2 ->
        i = j)
  /\ exists p k, Urls.resolve p = Some (v, k).
Proof.
  split; [| split].
  - split.
    + unfold Urls.resolve. destruct path as [|c s]; [discriminate |].
      destruct (Ascii.eqb c "/") eqn:Hc.
      * apply Ascii.eqb_eq in Hc as ->. intros H.
        destruct (first_match_sound _ _ _ _ H) as (i & route & Hi & Hr).
        exists s, route. repeat split; [| exact Hr].
        apply list_elem_of_In, list_elem_of_lookup. eauto.
      * intros H. exfalso.
        destruct c as [[] [] [] [] [] [] [] []]; try discriminate Hc;
          discriminate H.
    + intros (s & route & -> & Hin & Hr). cbn [Urls.resolve].
      apply list_elem_of_In, list_elem_of_lookup in Hin as [i Hi].
      destruct (first_match_complete _ _ _ _ _ _ Hi Hr)
        as (j & r' & v' & k' & _ & Hj & Hr' & Hf).
      pose proof (patterns_disjoint s i j _ _ _ _ _ _ Hi Hj Hr Hr') as <-.
      rewrite Hi in Hj. injection Hj as <- <-.
      rewrite Hf. congruence.
  - intros i j r1 r2 v1 v2 k1 k2 s. apply patterns_disjoint.
  - destruct v.
    + exists "/health/", []. reflexivity.
    + exists "/csrf/", []. reflexivity.
    + exists "/api/trips/", []. reflexivity.
    + exists "/api/trips/7/seats/", [("trip_id", 7)]. reflexivity.
    + exists "/api/seats/hold/", []. reflexivity.
    + exists "/api/seats/release/", []. reflexivity.
    + exists "/api/hold/attach-contact/", []. reflexivity.
    + exists "/api/hold/claim/", []. reflexivity.
    + exists "/api/admin/generate-booking-code/", []. reflexivity.
    + exists "/api/admin/confirm-booked/", []. reflexivity.
    + exists "/api/expire/", []. reflexivity.
Qed.

Ltac find_view i H :=
  destruct i as [|i];
  [ cbn in H; first [ discriminate H | injection H as <- ]
  | cbn in H; first [ discriminate H | find_view i H ] ].

(** X18: the seat map is reached only by [/api/trips/<digits>/seats/], with
    at least one digit, and the view receives the number the digits spell
    (leading zeros allowed): a trip id that is never negative. White
    space, a sign or an underscore in the number make the path fail to
    resolve to the seat map. *)
Theorem seat_map_route_gives_natural_trip_id (path : string)
    (kwargs : list (string * Z)) :
  Urls.resolve path = Some (Urls.views_seat_map, kwargs) ->
  exists digits,
    path = "/api/trips/" +:+ digits +:+ "/seats/"
    /\ Text.nonempty digits = true
    /\ Text.all_chars Text.is_digit digits = true
    /\ kwargs = [("trip_id", Urls.int_of_digits 0 digits)]
    /\ 0 <= Urls.kwarg "trip_id" kwargs.
Proof.
  unfold Urls.resolve. destruct path as [|c s]; [discriminate |].
  destruct (Ascii.eqb c "/") eqn:Hc;
    [| intros H; exfalso;
       destruct c as [[] [] [] [] [] [] [] []]; try discriminate Hc; discriminate H].
  apply Ascii.eqb_eq in Hc as ->. intros H.
  destruct (first_match_sound _ _ _ _ H) as (i & route & Hi & Hr).
  unfold Urls.urlpatterns in Hi. find_view i Hi.
  cbn [Urls.match_route] in Hr.
  destruct (Urls.after_prefix "api/trips/" s) as [s1|] eqn:E1; [| discriminate].
  apply after_prefix_app in E1 as ->.
  apply cut_digits_inv in Hr as (d & s' & Hk & Hcut & Hn & Hd); [| reflexivity].
  destruct (Urls.after_prefix "/seats/" s') as [s2|] eqn:E2; [| discriminate].
  apply after_prefix_app in E2 as ->.
  destruct s2; [| discriminate]. injection Hk as <-.
  exists d. cbn [String.append] in Hcut. subst s1.
  repeat split; try assumption.
  cbn. now apply int_of_digits_nonneg.
Qed.

Lemma seat_map_route_gives_natural_trip_id_witness :
  Urls.resolve "/api/trips/007/seats/" = Some (Urls.views_seat_map, [("trip_id", 7)])
  /\ 0 <= Urls.kwarg "trip_id" [("trip_id", 7)].
Proof.
  split; [reflexivity |].
  destruct (seat_map_route_gives_natural_trip_id "/api/trips/007/seats/"
              [("trip_id", 7)] eq_refl) as (d & _ & _ & _ & _ & H).
  exact H.
Defined.

(** ** The trip list, seat codes and row updates *)

Section TripList.

Import Views Json.

Lemma Forall2_map_same {A B : Type} (P : A -> B -> Prop) (f : A -> B) (l : list A) :
  (forall x, P x (f x)) -> Forall2 P l (map f l).
Proof. intros H. induction l; cbn; constructor; auto. Qed.

End TripList.

(** X19: the trip list presents, in the order [list_trips] gave them on the
    swept database, one object per trip with its id, title and the
    absolute image URL (the empty string when the trip has no image); the
    description, the active flag and the admin's WhatsApp number of a trip
    are not part of the reply. *)
Theorem trips_list_presents_listed_trips {DB : Type}
    (expire_holds : DB -> Z * DB) (list_trips : DB -> list Models.Trip * DB)
    (isoformat : Z -> string)
    (build_absolute_uri : Views.HttpRequest -> string -> string)
    (request : Views.HttpRequest) (w : Views.World DB) :
  Views.method request = "GET" ->
  exists data,
    fst (Views.trips_list expire_holds list_trips isoformat build_absolute_uri
           request w)
    = Views.Returned
        (Views.JsonResponse
           (Json.JDict [("ok", Json.JBool true); ("trips", Json.JList data)]) 200)
    /\ Forall2
         (fun t d =>
            Json.get d "id" = inr (Json.JInt (Models.trip_pk t))
            /\ Json.get d "title" = inr (Json.JStr (Models.title t))
            /\ Json.get d "depart_at"
               = inr (Json.JStr (isoformat (Models.depart_at t)))
            /\ Json.get d "bus_image_url"
               = inr (Json.JStr match Models.bus_image t with
                               | Some url => build_absolute_uri request url
                               | None => ""
                               end)
            /\ Json.get d "description" = inr Json.JNull
            /\ Json.get d "is_active" = inr Json.JNull
            /\ Json.get d "admin_wa" = inr Json.JNull)
         (fst (list_trips (snd (expire_holds (Views.db w))))) data.
Proof.
  intros HG. unfold Views.trips_list, Views.require_http_methods.
  rewrite (get_allowed _ HG). unfold Views.bind, Views.invoke, Views.ret.
  destruct (expire_holds (Views.db w)) as [n d1]. cbn [Views.db snd].
  destruct (list_trips d1) as [trips d2]. cbn [fst].
  eexists. split; [reflexivity |].
  apply Forall2_map_same. intros t. repeat split.
Qed.

Lemma trips_list_presents_listed_trips_witness :
  exists data,
    fst (Views.trips_list Core.expire_holds Samples.list_active Samples.iso_blank
           Samples.uri_same (Samples.anonymous "GET" "" ∅)
           (Samples.world_of Samples.state1))
    = Views.Returned
        (Views.JsonResponse
           (Json.JDict [("ok", Json.JBool true); ("trips", Json.JList data)]) 200)
    /\ length data = 1%nat.
Proof.
  destruct (trips_list_presents_listed_trips Core.expire_holds Samples.list_active
              Samples.iso_blank Samples.uri_same (Samples.anonymous "GET" "" ∅)
              (Samples.world_of Samples.state1) eq_refl) as (data & E & Hall).
  exists data. split; [exact E |].
  apply Forall2_length in Hall. rewrite <- Hall. reflexivity.
Defined.

(** X20: an admin request that names a trip and a list of seat codes in
    which every entry is blank is answered with the 400 failure
    "seat_codes tidak boleh kosong.", and no call is made: blank entries
    are dropped before the list is checked for emptiness. *)
Theorem blank_seat_codes_rejected {DB : Type}
    (book : Z -> list string -> DB -> Views.ServiceResult * DB)
    (json_loads : string -> option Json.value) (repr : Json.value -> string)
    (key : Views.Setting) (request : Views.HttpRequest) (w : Views.World DB)
    (items : list (string * Json.value)) (trip_id : Z)
    (c : Json.value) (l : list Json.value) :
  Views.method request = "POST" ->
  Views._is_admin_request key request = true ->
  Views._json_body json_loads request = (Json.JDict items, None) ->
  Json.py_int (default Json.JNull (Json.lookup_item "trip_id" items)) = inr trip_id ->
  trip_id <> 0 ->
  Json.lookup_item "seat_codes" items = Some (Json.JList (c :: l)) ->
  Forall (fun c => Text.nonempty (Text.strip (Views.py_str repr c)) = false) (c :: l) ->
  Views.admin_generate_booking_code book json_loads repr key request w
  = (Views.Returned (Views._err "seat_codes tidak boleh kosong." 400 None), w)
  /\ Views.admin_confirm_booked book json_loads repr key request w
     = (Views.Returned (Views._err "seat_codes tidak boleh kosong." 400 None), w).
Proof.
  intros HP Hadm Hbody Hint Hz Hcodes Hblank.
  assert (forall xs,
            Forall (fun c => Text.nonempty (Text.strip (Views.py_str repr c)) = false)
                   xs ->
            List.filter (fun c => Text.nonempty (Text.strip (Views.py_str repr c))) xs
            = []) as Hfilter.
  { intros xs Hxs. induction Hxs as [|x xs Hx _ IH]; [reflexivity |].
    cbn [List.filter]. now rewrite Hx. }
  pose proof (Hfilter _ Hblank) as Hnone.
  apply Z.eqb_neq in Hz.
  unfold Views.admin_generate_booking_code, Views.admin_confirm_booked,
    Views.require_http_methods.
  rewrite (post_allowed _ HP), Hadm, Hbody. cbn [negb].
  unfold Views.bind, Views.lift, Views._to_int, Views.ret. cbn [Json.get].
  rewrite Hint, Hcodes. cbn [default id Views.is_list Json.truthy negb orb].
  rewrite Hz. cbn [orb Views.items_of]. rewrite Hnone. split; reflexivity.
Qed.

Lemma blank_seat_codes_rejected_witness :
  Views.admin_generate_booking_code Core.book
    (Samples.loads_as (Json.JDict [("trip_id", Json.JInt 1);
                                   ("seat_codes", Json.JList [Json.JStr "  "])]))
    Samples.repr_blank (Views.SetStr "k")
    (Samples.anonymous "POST" "{}" {[ "x-admin-key" := "k" ]})
    (Samples.world_of Samples.state1)
  = (Views.Returned (Views._err "seat_codes tidak boleh kosong." 400 None),
     Samples.world_of Samples.state1).
Proof.
  assert (Views._is_admin_request (Views.SetStr "k")
            (Samples.anonymous "POST" "{}" {[ "x-admin-key" := "k" ]}) = true)
    as Hadm by reflexivity.
  apply (blank_seat_codes_rejected Core.book
           (Samples.loads_as (Json.JDict [("trip_id", Json.JInt 1);
                                          ("seat_codes", Json.JList [Json.JStr "  "])]))
           Samples.repr_blank (Views.SetStr "k")
           (Samples.anonymous "POST" "{}" {[ "x-admin-key" := "k" ]})
           (Samples.world_of Samples.state1)
           [("trip_id", Json.JInt 1); ("seat_codes", Json.JList [Json.JStr "  "])]
           1 (Json.JStr "  ") [] eq_refl Hadm eq_refl eq_refl).
  - discriminate.
  - reflexivity.
  - repeat constructor.
Defined.

Section RowUpdates.

Import Models Table.

Lemma key_not_in_others (table : list Seat) (i : nat) (old : Seat) :
  NoDup (key <$> table) -> table !! i = Some old ->
  key old ∉ key <$> delete i table.
Proof.
  intros Hnd Hi.
  rewrite <- (take_drop_middle table i old Hi), fmap_app, fmap_cons in Hnd.
  rewrite delete_take_drop, fmap_app.
  apply NoDup_app in Hnd as (_ & Hfront & Hback).
  apply NoDup_cons in Hback as [Hnot _].
  intros Hin. apply elem_of_app in Hin as [Hin | Hin]; [| now apply Hnot].
  apply (Hfront _ Hin). now left.
Qed.

End RowUpdates.

(** X21: the uniqueness constraint never stands in the way of a change
    that keeps the trip and the code of a row: in a table the database can
    reach, updating an existing row with new contents for the same
    (trip, code) always succeeds, replaces that row alone and leaves the
    table reachable. *)
Theorem update_keeping_identity_succeeds (table : list Models.Seat) (i : nat)
    (old new : Models.Seat) :
  Table.reachable table ->
  table !! i = Some old ->
  Models.trip new = Models.trip old -> Models.code new = Models.code old ->
  Table.update_row i new table = inr (<[i := new]> table)
  /\ Table.reachable (<[i := new]> table)
  /\ (forall j, j <> i -> (<[i := new]> table) !! j = table !! j).
Proof.
  intros Hreach Hi Ht Hc.
  assert (Table.update_row i new table = inr (<[i := new]> table)) as Hupd.
  { unfold Table.update_row. rewrite Hi.
    assert (Table.collides new (delete i table) = false) as ->; [| reflexivity].
    destruct (Table.collides new (delete i table)) eqn:E; [| reflexivity].
    apply collides_key in E. exfalso.
    apply (key_not_in_others table i old (reachable_unique table Hreach) Hi).
    unfold Table.key in *. now rewrite <- Ht, <- Hc. }
  split; [exact Hupd |]. split.
  - exact (Table.reach_update table i new _ Hreach Hupd).
  - intros j Hj. now apply list_lookup_insert_ne.
Qed.

Lemma update_keeping_identity_succeeds_witness :
  Table.update_row 0 (Samples.seat "A1" Models.HOLD (Some "tok1") (Some 900))
    [Samples.seat "A1" Models.AVAILABLE None None]
  = inr [Samples.seat "A1" Models.HOLD (Some "tok1") (Some 900)].
Proof.
  assert (Table.reachable [Samples.seat "A1" Models.AVAILABLE None None]) as Hreach.
  { apply (Table.reach_insert [] (Samples.seat "A1" Models.AVAILABLE None None));
      [apply Table.reach_empty | reflexivity]. }
  apply (update_keeping_identity_succeeds
           [Samples.seat "A1" Models.AVAILABLE None None] 0
           (Samples.seat "A1" Models.AVAILABLE None None)
           (Samples.seat "A1" Models.HOLD (Some "tok1") (Some 900))
           Hreach eq_refl eq_refl eq_refl).
Defined.
